(** * Uchiha engine: shader programs, textures, the two draw paths, input

    A shallow embedding of [src/engine.hxx] and of [src/engine.cxx]: the
    code that compiles and links shader programs ([uchiha::shader]), creates
    textures ([engine_impl::create_texture]), draws ([engine_impl::render],
    both overloads) and polls input ([engine_impl::read_input]); then window
    and context set-up and tear-down ([init], [swap_buffers], [destroy]) and
    [main].

    The engine is a thin layer over three external collaborators: the OpenGL
    driver, the SDL event queue and the stb_image decoder.  None of them is
    part of the repository, so the embedding keeps them outside as well:

    - every OpenGL command the code issues is appended, in program order, to
      a log of [gl_call]s; a command that returns a value (a fresh object
      name, a status, a location) gets it from an arbitrary function of the
      log so far, so that every theorem holds for every driver;
    - [std::cerr] is a log of output items;
    - the SDL queue is a list of pending events;
    - the decoder is an arbitrary function from a path to a pixel buffer or
      a null pointer; with the buffer comes what lies behind its end in
      memory, for the reads that go past it.

    Machine integers are [Z] with the conversions of the code written out.
    A [float] is carried as its four bytes: the code never computes with a
    float, it only moves vertex records to the GPU.  A [std::vector] asked
    for more elements than [max_size()] throws [std::length_error]; running
    out of memory in [new] or in a [std::vector] is outside the model. *)

From Stdlib Require Import ZArith List String Ascii Bool Lia.
From Stdlib Require Import Init.Byte.
Import ListNotations.

Local Open Scope Z_scope.

(* ================================================================== *)
(** ** Machine integers (LP64: 64-bit [size_t], 32-bit [int]) *)

Module Platform.

Definition to_uint16 (x : Z) : Z := x mod 2 ^ 16.
Definition to_uint32 (x : Z) : Z := x mod 2 ^ 32.
Definition to_size_t (x : Z) : Z := x mod 2 ^ 64.
(** conversion to a 32-bit signed integer ([int], [GLint], [GLsizei]) *)
Definition to_int32 (x : Z) : Z := (x + 2 ^ 31) mod 2 ^ 32 - 2 ^ 31.

(** [sizeof(float)]; the layout of [uchiha::vertex] is nine of them with no
    padding *)
Definition sizeof_float : Z := 4.

End Platform.
Import Platform.

(* ================================================================== *)
(** ** SDL2: the part of [SDL_events.h] and [SDL_keycode.h] the code names *)

Module SDL.

Definition SDL_QUIT            : Z := 0x100.
Definition SDL_KEYDOWN         : Z := 0x300.
Definition SDL_KEYUP           : Z := 0x301.
Definition SDL_MOUSEMOTION     : Z := 0x400.
Definition SDL_MOUSEBUTTONDOWN : Z := 0x401.
Definition SDL_MOUSEBUTTONUP   : Z := 0x402.

(** [SDL_SCANCODE_TO_KEYCODE(X) = X | (1 << 30)] *)
Definition SDL_SCANCODE_TO_KEYCODE (x : Z) : Z := Z.lor x (Z.shiftl 1 30).

Definition SDLK_RETURN   : Z := 13.
Definition SDLK_ESCAPE   : Z := 27.
Definition SDLK_SPACE    : Z := 32.
Definition SDLK_a        : Z := 97.
Definition SDLK_d        : Z := 100.
Definition SDLK_s        : Z := 115.
Definition SDLK_w        : Z := 119.
Definition SDLK_RIGHT    : Z := SDL_SCANCODE_TO_KEYCODE 79.
Definition SDLK_LEFT     : Z := SDL_SCANCODE_TO_KEYCODE 80.
Definition SDLK_DOWN     : Z := SDL_SCANCODE_TO_KEYCODE 81.
Definition SDLK_UP       : Z := SDL_SCANCODE_TO_KEYCODE 82.
Definition SDLK_KP_ENTER : Z := SDL_SCANCODE_TO_KEYCODE 88.

(** The members of the [SDL_Event] union the code reads.  [motion.x] and
    [motion.y] sit at the same offsets as [button.x] and [button.y], which
    is what the code relies on when it reads [e.motion] of a button event. *)
Record SDL_Event := mkSDL_Event {
  type : Z;            (* e.type *)
  key_keysym_sym : Z;  (* e.key.keysym.sym *)
  motion_x : Z;        (* e.motion.x *)
  motion_y : Z         (* e.motion.y *)
}.

End SDL.
Import SDL.

(* ================================================================== *)
(** ** OpenGL: enumerants of [glad.h] and the commands the code issues *)

Module GL.

Definition GL_FALSE               : Z := 0.
Definition GL_TRIANGLES           : Z := 0x0004.
Definition GL_TEXTURE_2D          : Z := 0x0DE1.
Definition GL_UNSIGNED_BYTE       : Z := 0x1401.
Definition GL_FLOAT               : Z := 0x1406.
Definition GL_RGBA                : Z := 0x1908.
Definition GL_LINEAR              : Z := 0x2601.
Definition GL_TEXTURE_MAG_FILTER  : Z := 0x2800.
Definition GL_TEXTURE_MIN_FILTER  : Z := 0x2801.
Definition GL_TEXTURE_WRAP_S      : Z := 0x2802.
Definition GL_TEXTURE_WRAP_T      : Z := 0x2803.
Definition GL_REPEAT              : Z := 0x2901.
Definition GL_TEXTURE0            : Z := 0x84C0.
Definition GL_ARRAY_BUFFER        : Z := 0x8892.
Definition GL_DYNAMIC_DRAW        : Z := 0x88E8.
Definition GL_FRAGMENT_SHADER     : Z := 0x8B30.
Definition GL_VERTEX_SHADER       : Z := 0x8B31.
Definition GL_COMPILE_STATUS      : Z := 0x8B81.
Definition GL_LINK_STATUS         : Z := 0x8B82.
Definition GL_INFO_LOG_LENGTH     : Z := 0x8B84.

(** One constructor per command, arguments in the order of the C call.
    Where the C call takes a pointer into client memory, the constructor
    carries the bytes (or the string) the driver reads through it; an
    output pointer is left out. *)
Inductive gl_call : Type :=
| glCreateShader (kind : Z)
| glShaderSource (shader count : Z) (src : string)
| glCompileShader (shader : Z)
| glGetShaderiv (shader pname : Z)
| glGetShaderInfoLog (shader bufSize : Z)
| glDeleteShader (shader : Z)
| glCreateProgram
| glAttachShader (program shader : Z)
| glBindAttribLocation (program index : Z) (name : string)
| glLinkProgram (program : Z)
| glGetProgramiv (program pname : Z)
| glGetProgramInfoLog (program bufSize : Z)
| glDeleteProgram (program : Z)
| glUseProgram (program : Z)
| glGetUniformLocation (program : Z) (name : string)
| glActiveTexture (unit_ : Z)
| glBindTexture (target texture : Z)
| glUniform1i (location v0 : Z)
| glGenTextures (n : Z)
| glTexParameteri (target pname param : Z)
| glTexImage2D (target level internalformat width height border
                format type_ : Z) (pixels : list byte)
| glGenerateMipmap (target : Z)
| glBufferData (target size : Z) (data : list byte) (usage : Z)
| glBufferSubData (target offset size : Z) (data : list byte)
| glEnableVertexAttribArray (index : Z)
| glVertexAttribPointer (index size type_ normalized stride pointer : Z)
| glDrawArrays (mode first count : Z)
| glDisableVertexAttribArray (index : Z).

End GL.
Import GL.

(* ================================================================== *)
(** ** [engine.hxx]: the data model *)

Module uchiha.

(** a [float] as its object representation *)
Record float := mkFloat { fb0 : byte; fb1 : byte; fb2 : byte; fb3 : byte }.

Definition float_bytes (f : float) : list byte :=
  [fb0 f; fb1 f; fb2 f; fb3 f].

Record vertex := mkVertex {
  x : float; y : float; z : float;
  r : float; g : float; b : float; a : float;
  tx : float; ty : float
}.

(** [sizeof(uchiha::vertex)] *)
Definition sizeof_vertex : Z := 9 * sizeof_float.

Definition vertex_bytes (p : vertex) : list byte :=
  float_bytes (x p) ++ float_bytes (y p) ++ float_bytes (z p) ++
  float_bytes (r p) ++ float_bytes (g p) ++ float_bytes (b p) ++
  float_bytes (a p) ++ float_bytes (tx p) ++ float_bytes (ty p).

(** [struct triangle { vertex v[3]; ... }] *)
Record triangle := mkTriangle { v_0 : vertex; v_1 : vertex; v_2 : vertex }.

Definition v (t : triangle) : list vertex := [v_0 t; v_1 t; v_2 t].

Definition sizeof_triangle : Z := 3 * sizeof_vertex.

Inductive event_type := pressed | reliased | quit | mouse_motion | mouse_click.

Inductive event_key :=
  left | right | top | bottom | enter | escape | space | undefined_key.

Record event := mkEvent {
  type : event_type;
  key : event_key;
  mouse_x : Z;
  mouse_y : Z
}.

(** assignments to one member of an [event&] *)
Definition set_type (e : event) (t : event_type) : event :=
  mkEvent t (key e) (mouse_x e) (mouse_y e).
Definition set_key (e : event) (k : event_key) : event :=
  mkEvent (type e) k (mouse_x e) (mouse_y e).
Definition set_mouse_x (e : event) (n : Z) : event :=
  mkEvent (type e) (key e) n (mouse_y e).
Definition set_mouse_y (e : event) (n : Z) : event :=
  mkEvent (type e) (key e) (mouse_x e) n.

End uchiha.

(** [class texture_impl]: the one implementation of [uchiha::texture] *)
Record texture_impl := mk_texture_impl {
  texture_width : Z;     (* uint16_t *)
  texture_height : Z;    (* uint16_t *)
  textrure_handle : Z    (* GLuint *)
}.

Definition get_width (t : texture_impl) : Z := texture_width t.
Definition get_height (t : texture_impl) : Z := texture_height t.
Definition get_handle (t : texture_impl) : Z := textrure_handle t.

(** the constructor [texture_impl(uint16_t width, uint16_t height, GLuint handle)]
    called with two [int]s, which it narrows, and an [unsigned int] *)
Definition new_texture_impl (width height handle : Z) : texture_impl :=
  mk_texture_impl (to_uint16 width) (to_uint16 height) handle.

(* ================================================================== *)
(** ** The world the engine runs in *)

(** what is written to [std::cerr] *)
Inductive cerr_item :=
| Str (s : string)
| Int (n : Z)
| Endl.

(** a pointer to a heap object: null, or the index of a cell of the heap *)
Inductive pointer := nullptr | addr (n : nat).

Record world := mkWorld {
  gl_calls : list gl_call;        (* OpenGL commands issued, oldest first *)
  cerr : list cerr_item;          (* output on std::cerr, oldest first *)
  sdl_queue : list SDL_Event;     (* pending platform events, oldest first *)
  heap : list texture_impl;       (* objects allocated with [new] *)
  indirections : list nat         (* elements of a caller's [std::vector]
                                     designated through [data()->] *)
}.

Definition with_gl_calls (w : world) (l : list gl_call) : world :=
  mkWorld l (cerr w) (sdl_queue w) (heap w) (indirections w).
Definition with_cerr (w : world) (l : list cerr_item) : world :=
  mkWorld (gl_calls w) l (sdl_queue w) (heap w) (indirections w).
Definition with_sdl_queue (w : world) (l : list SDL_Event) : world :=
  mkWorld (gl_calls w) (cerr w) l (heap w) (indirections w).
Definition with_heap (w : world) (l : list texture_impl) : world :=
  mkWorld (gl_calls w) (cerr w) (sdl_queue w) l (indirections w).
Definition with_indirections (w : world) (l : list nat) : world :=
  mkWorld (gl_calls w) (cerr w) (sdl_queue w) (heap w) l.

(** what a call of [stbi_load] leaves behind: the pixel buffer it returns
    ([None] is the null pointer), the values of the three [int]s behind its
    out-parameters, written by the decoder or left as they were, and the
    bytes that lie behind the end of the buffer in memory, by their distance
    from it *)
Record stbi_result := mk_stbi_result {
  stbi_data : option (list byte);
  stbi_x : Z;
  stbi_y : Z;
  stbi_comp : Z;
  stbi_after : nat -> byte
}.

(** The collaborators: what the driver answers to a value-returning command
    (given the log that ends with that command), what the decoder does with a
    path and the current values of its out-parameters, and the indeterminate
    value an uninitialised [int] of a given name holds. *)
Record externals := mkExternals {
  gl_answer : list gl_call -> Z;
  stbi_load : string -> Z -> Z -> Z -> stbi_result;
  indeterminate : string -> Z
}.

Inductive exn := std_out_of_range | std_length_error.

Inductive outcome (A : Type) :=
| Ok (a : A)
| Throw (e : exn).
Arguments Ok {A} a.
Arguments Throw {A} e.

(** state and exceptions *)
Definition M (A : Type) : Type := world -> outcome A * world.

Definition ret {A} (a : A) : M A := fun w => (Ok a, w).

Definition bind {A B} (m : M A) (f : A -> M B) : M B :=
  fun w =>
    match m w with
    | (Ok a, w') => f a w'
    | (Throw e, w') => (Throw e, w')
    end.

Definition throw {A} (e : exn) : M A := fun w => (Throw e, w).

Declare Scope engine_scope.
Delimit Scope engine_scope with engine.
Notation "x <- m ;; k" := (bind m (fun x => k))
  (at level 61, m at next level, right associativity) : engine_scope.
Notation "m ;; k" := (bind m (fun _ => k))
  (at level 61, right associativity) : engine_scope.
Local Open Scope engine_scope.

(** a command without a result *)
Definition gl (c : gl_call) : M unit :=
  fun w => (Ok tt, with_gl_calls w (gl_calls w ++ [c])).

(** a command that returns a [GLuint], or writes one through its last
    argument; the driver's answer is a function of the log up to and
    including the command *)
Definition gl_uint (ext : externals) (c : gl_call) : M Z :=
  fun w =>
    let log := gl_calls w ++ [c] in
    (Ok (to_uint32 (gl_answer ext log)), with_gl_calls w log).

(** a command that returns a [GLint], or writes one through its last
    argument *)
Definition gl_int (ext : externals) (c : gl_call) : M Z :=
  fun w =>
    let log := gl_calls w ++ [c] in
    (Ok (to_int32 (gl_answer ext log)), with_gl_calls w log).

(** [std::cerr << ... ] *)
Definition cerr_write (items : list cerr_item) : M unit :=
  fun w => (Ok tt, with_cerr w (cerr w ++ items)).

(** [if (c) { m }] *)
Definition when (c : bool) (m : M unit) : M unit :=
  if c then m else ret tt.

(** [for (const auto& x : l) { f x }] *)
Fixpoint for_each {A} (l : list A) (f : A -> M unit) : M unit :=
  match l with
  | [] => ret tt
  | x :: l' => f x ;; for_each l' f
  end.

(** [SDL_PollEvent(&e)]: takes the oldest pending event off the queue, if
    there is one; never waits *)
Definition SDL_PollEvent : M (option SDL_Event) :=
  fun w =>
    match sdl_queue w with
    | [] => (Ok None, w)
    | e :: q => (Ok (Some e), with_sdl_queue w q)
    end.

(** [new texture_impl(...)]: a new cell at the end of the heap *)
Definition new_ (t : texture_impl) : M pointer :=
  fun w => (Ok (addr (List.length (heap w))), with_heap w (heap w ++ [t])).

(** [max_size()] of a [std::vector<char>]: [PTRDIFF_MAX] *)
Definition vector_max_size : Z := 2 ^ 63 - 1.

(** [std::vector<char> v(n)], [n] a [size_t]: a vector of [n] characters
    that nothing reads, or [std::length_error] when [n] is above
    [max_size()] *)
Definition std_vector_char (n : Z) : M unit :=
  if n <=? vector_max_size then ret tt else throw std_length_error.


(* ================================================================== *)
(** ** [class uchiha::shader] *)

Module shader.
Section WithExternals.
Variable ext : externals.

Record t := mk {
  vertex_shader : Z;     (* GLuint *)
  fragment_shader : Z;   (* GLuint *)
  program : Z            (* GLuint *)
}.

(** The local [info] is a [std::vector<char>] of
    [static_cast<size_t>(info_len)] characters that the driver fills and
    nothing reads. *)
Definition init_shader (shader : Z) (shader_src : string) : M bool :=
  gl (glShaderSource shader 1 shader_src) ;;
  gl (glCompileShader shader) ;;
  compile_status <- gl_int ext (glGetShaderiv shader GL_COMPILE_STATUS) ;;
  if compile_status =? 0 then
    info_len <- gl_int ext (glGetShaderiv shader GL_INFO_LOG_LENGTH) ;;
    std_vector_char (to_size_t info_len) ;;
    gl (glGetShaderInfoLog shader info_len) ;;
    gl (glDeleteShader shader) ;;
    ret false
  else
    ret true.

(** the constructor *)
Definition shader (vertex_shader_src fragment_shader_src : string)
    (attributes : list (Z * string)) : M t :=
  vertex_shader <- gl_uint ext (glCreateShader GL_VERTEX_SHADER) ;;
  ok <- init_shader vertex_shader vertex_shader_src ;;
  when (negb ok)
    (cerr_write
       [Str "error: Failed to create vertex shader ( engine.cxx:  )"; Endl]) ;;
  fragment_shader <- gl_uint ext (glCreateShader GL_FRAGMENT_SHADER) ;;
  ok <- init_shader fragment_shader fragment_shader_src ;;
  when (negb ok)
    (cerr_write
       [Str "error: Failed to create fragment shader ( engine.cxx:  )"; Endl]) ;;
  program <- gl_uint ext glCreateProgram ;;
  when (program =? 0)
    (cerr_write
       [Str "error: Failed to create program ( engine.cxx:  )"; Endl]) ;;
  gl (glAttachShader program vertex_shader) ;;
  gl (glAttachShader program fragment_shader) ;;
  for_each attributes (fun attr =>
    let loc := fst attr in
    let attr_name := snd attr in
    gl (glBindAttribLocation program loc attr_name)) ;;
  gl (glLinkProgram program) ;;
  linked_status <- gl_int ext (glGetProgramiv program GL_LINK_STATUS) ;;
  when (linked_status =? 0)
    (infoLen <- gl_int ext (glGetProgramiv program GL_INFO_LOG_LENGTH) ;;
     std_vector_char (to_size_t infoLen) ;;
     gl (glGetProgramInfoLog program infoLen) ;;
     gl (glDeleteProgram program) ;;
     cerr_write
       [Str "error: Failed to link program ( engine.cxx:  )"; Int infoLen;
        Endl]) ;;
  ret (mk vertex_shader fragment_shader program).

Definition use (this : t) : M unit :=
  gl (glUseProgram (program this)).

Definition set_uniform (this : t) (attr : string) (tex : texture_impl)
    : M unit :=
  location <- gl_int ext (glGetUniformLocation (program this) attr) ;;
  gl (glActiveTexture (to_uint32 (GL_TEXTURE0 + get_handle tex))) ;;
  gl (glBindTexture GL_TEXTURE_2D (get_handle tex)) ;;
  gl (glUniform1i location (to_int32 (to_uint32 (0 + get_handle tex)))).

End WithExternals.
End shader.

(* ================================================================== *)
(** ** [class engine_impl]: input, textures and the two draw paths *)

Module engine_impl.
Section WithExternals.
Import uchiha.
Variable ext : externals.

Record t := mk {
  window_width : Z;
  window_height : Z;
  gl_default_vbo : Z;
  shaders : list shader.t;
  vertex_attribute_object : Z
}.

(** [std::vector::at] *)
Definition at_ {A} (l : list A) (n : nat) : M A :=
  match nth_error l n with
  | Some x => ret x
  | None => throw std_out_of_range
  end.

Definition read_input (event : uchiha.event) : M (bool * uchiha.event) :=
  polled <- SDL_PollEvent ;;
  match polled with
  | Some e =>
      if SDL.type e =? SDL_QUIT then
        let event := set_type event quit in
        ret (true, event)
      else if SDL.type e =? SDL_MOUSEMOTION then
        let event := set_type event mouse_motion in
        let event := set_mouse_x event (motion_x e) in
        let event := set_mouse_y event (motion_y e) in
        ret (true, event)
      else if SDL.type e =? SDL_MOUSEBUTTONUP then
        let event := set_type event mouse_click in
        let event := set_mouse_x event (motion_x e) in
        let event := set_mouse_y event (motion_y e) in
        ret (true, event)
      else if (SDL.type e =? SDL_KEYDOWN) || (SDL.type e =? SDL_KEYUP) then
        let event :=
          set_type event
            (if SDL.type e =? SDL_KEYDOWN then pressed else reliased) in
        let sym := key_keysym_sym e in
        let event :=
          if (sym =? SDLK_w) || (sym =? SDLK_UP) then
            set_key event top
          else if (sym =? SDLK_s) || (sym =? SDLK_DOWN) then
            set_key event bottom
          else if (sym =? SDLK_a) || (sym =? SDLK_LEFT) then
            set_key event left
          else if (sym =? SDLK_d) || (sym =? SDLK_RIGHT) then
            set_key event right
          else if sym =? SDLK_ESCAPE then
            set_key event escape
          else if sym =? SDLK_SPACE then
            set_key event space
          else if (sym =? SDLK_KP_ENTER) || (sym =? SDLK_RETURN) then
            set_key event enter
          else
            set_key event undefined_key in
        ret (true, event)
      else
        ret (false, event)
  | None => ret (false, event)
  end.

(** the number of bytes [glTexImage2D] makes the driver read from client
    memory for an image of [GL_RGBA], [GL_UNSIGNED_BYTE] pixels under the
    default unpack state: four for each pixel, the rows of [4 * width] bytes
    being aligned as they are; none when a dimension is negative, which makes
    the command an error *)
Definition rgba_image_size (width height : Z) : Z :=
  if (width <? 0) || (height <? 0) then 0 else 4 * width * height.

(** the [n] bytes the driver reads from the start of a buffer: the buffer's
    own and, past its end, whatever lies there *)
Definition read_from (buffer : list byte) (after : nat -> byte) (n : Z)
    : list byte :=
  firstn (Z.to_nat n) buffer ++
  map after (seq 0 (Z.to_nat n - List.length buffer)).

(** the call [stbi_load(path.data(), &width, &height, &nrChannels, 0)] on
    the three uninitialised locals *)
Definition stbi_load_call (path : string) : stbi_result :=
  stbi_load ext path
    (to_int32 (indeterminate ext "width"))
    (to_int32 (indeterminate ext "height"))
    (to_int32 (indeterminate ext "nrChannels")).

Definition create_texture (path : string) : M pointer :=
  texture <- gl_uint ext (glGenTextures 1) ;;
  gl (glBindTexture GL_TEXTURE_2D texture) ;;
  gl (glTexParameteri GL_TEXTURE_2D GL_TEXTURE_WRAP_S GL_REPEAT) ;;
  gl (glTexParameteri GL_TEXTURE_2D GL_TEXTURE_WRAP_T GL_REPEAT) ;;
  gl (glTexParameteri GL_TEXTURE_2D GL_TEXTURE_MIN_FILTER GL_LINEAR) ;;
  gl (glTexParameteri GL_TEXTURE_2D GL_TEXTURE_MAG_FILTER GL_LINEAR) ;;
  let loaded := stbi_load_call path in
  let data := stbi_data loaded in
  let width := to_int32 (stbi_x loaded) in
  let height := to_int32 (stbi_y loaded) in
  match data with
  | Some pixels =>
      gl (glTexImage2D GL_TEXTURE_2D 0 GL_RGBA width height 0 GL_RGBA
            GL_UNSIGNED_BYTE
            (read_from pixels (stbi_after loaded)
               (rgba_image_size width height))) ;;
      gl (glGenerateMipmap GL_TEXTURE_2D)
  | None =>
      cerr_write [Str "error: Failed to load texture ( engine.cxx: )"; Endl]
  end ;;
  texture_object <- new_ (new_texture_impl width height texture) ;;
  ret texture_object.

(** the bytes of the elements of a [std::vector<triangle>], in storage
    order *)
Definition storage (vertex_buffer : list triangle) : list byte :=
  flat_map (fun tr => flat_map vertex_bytes (v tr)) vertex_buffer.

(** [vertex_buffer.size()] *)
Definition size (vertex_buffer : list triangle) : Z :=
  Z.of_nat (List.length vertex_buffer).

(** [&vertex_buffer.data()->v[0]]: the member access goes through
    [data()], which designates element 0; the address it yields is that of
    the first byte of the storage, offset 0 *)
Definition data_arrow_v0 (vertex_buffer : list triangle) : M Z :=
  fun w => (Ok 0, with_indirections w (indirections w ++ [0%nat])).

(** the [n] bytes the driver copies from offset [p] of the storage *)
Definition copied (mem : list byte) (p n : Z) : list byte :=
  firstn (Z.to_nat n) (skipn (Z.to_nat p) mem).

(** the local [data_size_in_bytes] of both draw paths:
    [static_cast<uint32_t>((vertex_buffer.size() * 3) * sizeof(uchiha::vertex))],
    a [size_t] product cut down to 32 bits *)
Definition data_size_in_bytes (vertex_buffer : list triangle) : Z :=
  to_uint32 (to_size_t (to_size_t (size vertex_buffer * 3) * sizeof_vertex)).

(** the local [num_of_vertexes] of both draw paths:
    [static_cast<GLsizei>(vertex_buffer.size() * 3)] *)
Definition num_of_vertexes (vertex_buffer : list triangle) : Z :=
  to_int32 (to_size_t (size vertex_buffer * 3)).

Definition render (this : t) (vertex_buffer : list triangle) : M unit :=
  s <- at_ (shaders this) 0 ;;
  shader.use s ;;
  t <- data_arrow_v0 vertex_buffer ;;
  gl (glBufferData GL_ARRAY_BUFFER (data_size_in_bytes vertex_buffer)
        (copied (storage vertex_buffer) t (data_size_in_bytes vertex_buffer))
        GL_DYNAMIC_DRAW) ;;
  gl (glBufferSubData GL_ARRAY_BUFFER 0 (data_size_in_bytes vertex_buffer)
        (copied (storage vertex_buffer) t (data_size_in_bytes vertex_buffer))) ;;
  gl (glEnableVertexAttribArray 0) ;;
  let position_attr_offset := 0 in
  gl (glVertexAttribPointer 0 3 GL_FLOAT GL_FALSE sizeof_vertex
        position_attr_offset) ;;
  gl (glEnableVertexAttribArray 1) ;;
  let color_attr_offset := sizeof_float * 3 in
  gl (glVertexAttribPointer 1 4 GL_FLOAT GL_FALSE sizeof_vertex
        color_attr_offset) ;;
  gl (glDrawArrays GL_TRIANGLES 0 (num_of_vertexes vertex_buffer)) ;;
  gl (glDisableVertexAttribArray 0) ;;
  gl (glDisableVertexAttribArray 1).

(** the overload with a texture *)
Definition render_textured (this : t) (vertex_buffer : list triangle)
    (tx : texture_impl) : M unit :=
  s <- at_ (shaders this) 1 ;;
  shader.use s ;;
  s <- at_ (shaders this) 1 ;;
  shader.set_uniform ext s "s_texture" tx ;;
  t <- data_arrow_v0 vertex_buffer ;;
  gl (glBufferData GL_ARRAY_BUFFER (data_size_in_bytes vertex_buffer)
        (copied (storage vertex_buffer) t (data_size_in_bytes vertex_buffer))
        GL_DYNAMIC_DRAW) ;;
  gl (glBufferSubData GL_ARRAY_BUFFER 0 (data_size_in_bytes vertex_buffer)
        (copied (storage vertex_buffer) t (data_size_in_bytes vertex_buffer))) ;;
  gl (glEnableVertexAttribArray 0) ;;
  let position_attr_offset := 0 in
  gl (glVertexAttribPointer 0 3 GL_FLOAT GL_FALSE sizeof_vertex
        position_attr_offset) ;;
  gl (glEnableVertexAttribArray 1) ;;
  let color_attr_offset := sizeof_float * 3 in
  gl (glVertexAttribPointer 1 4 GL_FLOAT GL_FALSE sizeof_vertex
        color_attr_offset) ;;
  gl (glEnableVertexAttribArray 2) ;;
  let texture_attr_offset := sizeof_float * 7 in
  gl (glVertexAttribPointer 2 2 GL_FLOAT GL_FALSE sizeof_vertex
        texture_attr_offset) ;;
  gl (glDrawArrays GL_TRIANGLES 0 (num_of_vertexes vertex_buffer)) ;;
  gl (glDisableVertexAttribArray 0) ;;
  gl (glDisableVertexAttribArray 1) ;;
  gl (glDisableVertexAttribArray 2).

End WithExternals.
End engine_impl.

(* ================================================================== *)
(** ** Vocabulary of the statements *)

(** the client data of the buffer uploads of a log, oldest first *)
Definition uploads (log : list gl_call) : list (list byte) :=
  flat_map (fun c =>
              match c with
              | glBufferData _ _ data _ => [data]
              | glBufferSubData _ _ _ data => [data]
              | _ => []
              end) log.

(** one vertex-attribute configuration *)
Record attribute := mkAttribute {
  attr_slot : Z;
  attr_components : Z;
  attr_type : Z;
  attr_normalized : Z;
  attr_stride : Z;
  attr_offset : Z
}.

(** the attribute configurations of a log, oldest first *)
Definition attribute_layout (log : list gl_call) : list attribute :=
  flat_map (fun c =>
              match c with
              | glVertexAttribPointer i n ty nrm stride off =>
                  [mkAttribute i n ty nrm stride off]
              | _ => []
              end) log.

(** the flattened vertex stream of the specification: the three vertices of
    each triangle, triangles in sequence order *)
Definition vertex_stream (triangles : list uchiha.triangle)
    : list uchiha.vertex :=
  flat_map (fun tr => [uchiha.v_0 tr; uchiha.v_1 tr; uchiha.v_2 tr]) triangles.

(** the world a draw leaves: the commands it issued and the one element its
    [data()->] designated, on top of what was there *)
Definition after_draw (w : world) (calls : list gl_call) : world :=
  mkWorld (gl_calls w ++ calls) (cerr w) (sdl_queue w) (heap w)
    (indirections w ++ [0%nat]).

(** the five platform event types [read_input] has a branch for *)
Definition is_translated (t : Z) : bool :=
  (t =? SDL_QUIT) || (t =? SDL_MOUSEMOTION) || (t =? SDL_MOUSEBUTTONUP) ||
  (t =? SDL_KEYDOWN) || (t =? SDL_KEYUP).

(** commands to look for in a log *)
Definition is_link (c : gl_call) : bool :=
  match c with glLinkProgram _ => true | _ => false end.

Definition is_bind_location (c : gl_call) : bool :=
  match c with glBindAttribLocation _ _ _ => true | _ => false end.

(** [len] bytes of a vertex record from byte offset [off] *)
Definition vertex_field (p : uchiha.vertex) (off len : nat) : list byte :=
  firstn len (skipn off (uchiha.vertex_bytes p)).

(* ================================================================== *)
(** ** Sample inputs *)

Definition empty_world : world := mkWorld [] [] [] [] [].

Definition blank_event : uchiha.event :=
  uchiha.mkEvent uchiha.quit uchiha.undefined_key 0 0.

(** the W key goes down *)
Definition w_key_down : SDL_Event := mkSDL_Event SDL_KEYDOWN SDLK_w 0 0.

(** a mouse button goes down at (10, 20) *)
Definition button_down : SDL_Event :=
  mkSDL_Event SDL_MOUSEBUTTONDOWN 0 10 20.

Definition quit_request : SDL_Event := mkSDL_Event SDL_QUIT 0 0 0.

Definition world_with_queue (q : list SDL_Event) : world :=
  with_sdl_queue empty_world q.

(** a driver that answers 7 to everything *)
Definition sample_externals : externals :=
  mkExternals (fun _ => 7)
    (fun _ x y comp => mk_stbi_result None x y comp (fun _ => x00))
    (fun _ => 0).

(** an engine after [init]: the untextured program, then the textured one *)
Definition sample_engine : engine_impl.t :=
  engine_impl.mk 800 600 1 [shader.mk 1 2 3; shader.mk 4 5 6] 1.

Definition sample_texture : texture_impl := mk_texture_impl 64 64 1.

Definition float_zero : uchiha.float := uchiha.mkFloat x00 x00 x00 x00.
(** 1.0f, little-endian *)
Definition float_one : uchiha.float := uchiha.mkFloat x00 x00 x80 x3f.

Definition sample_vertex (f : uchiha.float) : uchiha.vertex :=
  uchiha.mkVertex f float_zero float_zero float_one float_zero float_zero
    float_one float_zero float_zero.

Definition sample_triangle : uchiha.triangle :=
  uchiha.mkTriangle (sample_vertex float_zero) (sample_vertex float_one)
    (sample_vertex float_zero).

(** A driver that rejects the vertex shader.  It names the vertex shader 1,
    the fragment shader 2 and the program 3, and reports a compile status of
    0 and a log of 25 characters for shader 1, success for shader 2, and for
    the program the given link status and a log of 31 characters. *)
Definition rejecting_answer (link_status : Z) (log : list gl_call) : Z :=
  match last log glCreateProgram with
  | glCreateShader kind => if kind =? GL_VERTEX_SHADER then 1 else 2
  | glCreateProgram => 3
  | glGetShaderiv shader pname =>
      if pname =? GL_COMPILE_STATUS then (if shader =? 1 then 0 else 1)
      else 25
  | glGetProgramiv _ pname =>
      if pname =? GL_LINK_STATUS then link_status else 31
  | _ => 0
  end.

(** it then fails to link the program *)
Definition rejecting_driver : externals :=
  mkExternals (rejecting_answer 0)
    (fun _ x y comp => mk_stbi_result None x y comp (fun _ => x00))
    (fun _ => 0).

(** or it links what is left, the fragment shader alone *)
Definition linking_driver : externals :=
  mkExternals (rejecting_answer 1)
    (fun _ x y comp => mk_stbi_result None x y comp (fun _ => x00))
    (fun _ => 0).

(** A decoder that finds no file and leaves its out-parameters alone, on a
    stack where the uninitialised [width] holds 640 and every other
    uninitialised [int] 480; the driver names the texture 7. *)
Definition missing_file : externals :=
  mkExternals (fun _ => 7)
    (fun _ x y comp => mk_stbi_result None x y comp (fun _ => x00))
    (fun name => if String.eqb name "width" then 640 else 480).

(** 39768216 triangles: 108 bytes each, 32 bytes more than 2^32 in all *)
Definition long_sequence : list uchiha.triangle :=
  repeat sample_triangle (Z.to_nat 39768216).

(* ================================================================== *)
(** ** More vocabulary: the state a log leaves in the driver *)

(** whether vertex-attribute slot [i] is enabled after a log, in a context
    that starts with every slot disabled *)
Definition slot_enabled (log : list gl_call) (i : Z) : bool :=
  fold_left
    (fun enabled c =>
       match c with
       | glEnableVertexAttribArray j => if j =? i then true else enabled
       | glDisableVertexAttribArray j => if j =? i then false else enabled
       | _ => enabled
       end)
    log false.

(** how many times a log deletes a shader object, and a program object *)
Definition shader_deletions (log : list gl_call) : nat :=
  List.length
    (filter (fun c => match c with glDeleteShader _ => true | _ => false end)
       log).

Definition program_deletions (log : list gl_call) : nat :=
  List.length
    (filter (fun c => match c with glDeleteProgram _ => true | _ => false end)
       log).

(** how many lines of [std::cerr] start with a given text *)
Definition reports (text : string) (out : list cerr_item) : nat :=
  List.length
    (filter (fun item =>
               match item with
               | Str s => String.eqb s text
               | _ => false
               end) out).

(** an engine object as [new engine_impl()] leaves the fields the draw
    paths read: no program yet *)
Definition no_programs : engine_impl.t := engine_impl.mk 0 0 0 [] 0.

(** a decoder that finds a 2 by 1 RGBA image; the driver names the texture 7 *)
Definition two_pixels : externals :=
  mkExternals (fun _ => 7)
    (fun _ _ _ _ =>
       mk_stbi_result (Some [xff; x00; x00; xff; x00; xff; x00; xff]) 2 1 4
         (fun _ => x00))
    (fun _ => 0).


(** the draws of a log, by their vertex count, and its buffer uploads, by
    their size argument *)
Definition draw_counts (log : list gl_call) : list Z :=
  flat_map (fun c =>
              match c with
              | glDrawArrays _ _ count => [count]
              | _ => []
              end) log.

Definition upload_sizes (log : list gl_call) : list Z :=
  flat_map (fun c =>
              match c with
              | glBufferData _ size _ _ => [size]
              | glBufferSubData _ _ size _ => [size]
              | _ => []
              end) log.

(** a driver that reports no negative length for an info log *)
Definition log_lengths_not_negative (ext : externals) : Prop :=
  forall (log : list gl_call) (object : Z),
    0 <= to_int32
           (gl_answer ext (log ++ [glGetShaderiv object GL_INFO_LOG_LENGTH])) /\
    0 <= to_int32
           (gl_answer ext (log ++ [glGetProgramiv object GL_INFO_LOG_LENGTH])).

(** A driver that rejects every shader and reports -1 as the length of the
    log; every other answer is 1. *)
Definition negative_length_driver : externals :=
  mkExternals
    (fun log =>
       match last log glCreateProgram with
       | glGetShaderiv _ pname =>
           if pname =? GL_COMPILE_STATUS then 0 else -1
       | _ => 1
       end)
    (fun _ x y comp => mk_stbi_result None x y comp (fun _ => x00))
    (fun _ => 0).

(** A driver that compiles every shader and then fails to link, with -1 as
    the length of the log; every other answer is 1. *)
Definition negative_link_length_driver : externals :=
  mkExternals
    (fun log =>
       match last log glCreateProgram with
       | glGetProgramiv _ pname =>
           if pname =? GL_LINK_STATUS then 0 else -1
       | _ => 1
       end)
    (fun _ x y comp => mk_stbi_result None x y comp (fun _ => x00))
    (fun _ => 0).

(** the pointer moves to (10, 20); a button is released there *)
Definition pointer_moved : SDL_Event := mkSDL_Event SDL_MOUSEMOTION 0 10 20.
Definition button_up : SDL_Event := mkSDL_Event SDL_MOUSEBUTTONUP 0 10 20.

(* ================================================================== *)
(** ** The rest of the process: SDL, the function loader, [std::cout]

    [init], [swap_buffers] and [destroy] talk to SDL and to the OpenGL
    function loader and issue OpenGL commands of their own.  They run in a
    process that holds the world of the draw paths, one chronological record
    of every call that leaves the program, each with what it returned, and
    the output on [std::cout]. *)

Definition to_uint8 (n : Z) : Z := n mod 2 ^ 8.

(** [SDL_video.h] *)
Definition SDL_WINDOW_OPENGL : Z := 0x00000002.
Definition SDL_WINDOW_FULLSCREEN_DESKTOP : Z := Z.lor 0x00000001 0x00001000.
Definition SDL_WINDOWPOS_CENTERED : Z := 0x2FFF0000.
Definition SDL_GL_CONTEXT_DEBUG_FLAG : Z := 0x0001.
Definition SDL_GL_CONTEXT_PROFILE_CORE : Z := 0x0001.

(** the enumerators of [SDL_GLattr] the code names *)
Inductive SDL_GLattr :=
| SDL_GL_CONTEXT_MAJOR_VERSION
| SDL_GL_CONTEXT_MINOR_VERSION
| SDL_GL_CONTEXT_FLAGS
| SDL_GL_CONTEXT_PROFILE_MASK.

(** [SDL_VERSIONNUM(X, Y, Z)] of [SDL_version.h] *)
Definition SDL_VERSIONNUM (major minor patch : Z) : Z :=
  major * 1000 + minor * 100 + patch.

(** more of [glad.h] *)
Definition GL_COLOR_BUFFER_BIT     : Z := 0x00004000.
Definition GL_SRC_ALPHA            : Z := 0x0302.
Definition GL_ONE_MINUS_SRC_ALPHA  : Z := 0x0303.
Definition GL_BLEND                : Z := 0x0BE2.
Definition GL_STATIC_DRAW          : Z := 0x88E4.

(** A call that leaves the program.  [GL c] is a command of the draw paths'
    log; the others are the OpenGL commands only [init] and [swap_buffers]
    issue, the SDL calls and the loader.  Arguments are in the order of the
    C call, output pointers and the callback of the loader left out. *)
Inductive platform_call : Type :=
| GL (c : gl_call)
| glGenBuffers (n : Z)
| glBindBuffer (target buffer : Z)
| glGenVertexArrays (n : Z)
| glBindVertexArray (array : Z)
| glEnable (cap : Z)
| glBlendFunc (sfactor dfactor : Z)
| glClearColor (red green blue alpha : uchiha.float)
| glViewport (x y width height : Z)
| glClear (mask : Z)
| SDL_GetVersion
| SDL_Init (flags : Z)
| SDL_GetError
| SDL_GL_SetAttribute (attr : SDL_GLattr) (value : Z)
| SDL_CreateWindow (title : string) (x y w h flags : Z)
| SDL_GL_CreateContext (window : Z)
| gladLoadGLLoader
| SDL_GL_DeleteContext (context : Z)
| SDL_DestroyWindow (window : Z)
| SDL_Quit
| SDL_GL_SwapWindow (window : Z).

(** a call and the integer or pointer it returned (0 where it returns
    nothing the code looks at) *)
Record interaction := mkInteraction {
  call : platform_call;
  returned : Z
}.

(** The platform: the version and the flag set of the SDL headers the code
    is compiled against, and what SDL and the loader answer, as arbitrary
    functions of the record so far. *)
Record platform := mkPlatform {
  SDL_MAJOR_VERSION : Z;
  SDL_MINOR_VERSION : Z;
  SDL_PATCHLEVEL : Z;
  SDL_INIT_EVERYTHING : Z;
  linked_version : list interaction -> Z * Z * Z;
  answer : list interaction -> platform_call -> Z;
  error_text : list interaction -> string
}.

Record process := mkProcess {
  the_world : world;
  interactions : list interaction;
  cout : list cerr_item
}.

Definition P (A : Type) : Type := process -> outcome A * process.

Definition retP {A} (a : A) : P A := fun p => (Ok a, p).

Definition bindP {A B} (m : P A) (f : A -> P B) : P B :=
  fun p =>
    match m p with
    | (Ok a, p') => f a p'
    | (Throw e, p') => (Throw e, p')
    end.

Declare Scope process_scope.
Delimit Scope process_scope with process.
Notation "x <- m ;; k" := (bindP m (fun x => k))
  (at level 61, m at next level, right associativity) : process_scope.
Notation "m ;; k" := (bindP m (fun _ => k))
  (at level 61, right associativity) : process_scope.

(** the commands a piece of code added to the log of the draw paths *)
Definition issued (before after : world) : list gl_call :=
  skipn (List.length (gl_calls before)) (gl_calls after).

(** code of the draw paths' world, run inside the process: the commands it
    issues also enter the record, in order *)
Definition lift {A} (m : M A) : P A :=
  fun p =>
    let (r, w') := m (the_world p) in
    (r,
     mkProcess w'
       (interactions p ++
        map (fun c => mkInteraction (GL c) 0) (issued (the_world p) w'))
       (cout p)).

(** a call whose result the code does not look at *)
Definition call_ (c : platform_call) : P unit :=
  fun p =>
    (Ok tt,
     mkProcess (the_world p) (interactions p ++ [mkInteraction c 0]) (cout p)).

(** a call that returns an [int]; a pointer; or writes a [GLuint] *)
Definition call_int (px : platform) (c : platform_call) : P Z :=
  fun p =>
    let r := to_int32 (answer px (interactions p) c) in
    (Ok r,
     mkProcess (the_world p) (interactions p ++ [mkInteraction c r]) (cout p)).

Definition call_pointer (px : platform) (c : platform_call) : P Z :=
  fun p =>
    let r := to_size_t (answer px (interactions p) c) in
    (Ok r,
     mkProcess (the_world p) (interactions p ++ [mkInteraction c r]) (cout p)).

Definition call_uint (px : platform) (c : platform_call) : P Z :=
  fun p =>
    let r := to_uint32 (answer px (interactions p) c) in
    (Ok r,
     mkProcess (the_world p) (interactions p ++ [mkInteraction c r]) (cout p)).

(** [SDL_GetVersion(&linked)]: three [Uint8] *)
Definition get_version (px : platform) : P (Z * Z * Z) :=
  fun p =>
    let '(major, minor, patch) := linked_version px (interactions p) in
    (Ok (to_uint8 major, to_uint8 minor, to_uint8 patch),
     mkProcess (the_world p)
       (interactions p ++ [mkInteraction SDL_GetVersion 0]) (cout p)).

(** [SDL_GetError()] *)
Definition get_error (px : platform) : P string :=
  fun p =>
    (Ok (error_text px (interactions p)),
     mkProcess (the_world p)
       (interactions p ++ [mkInteraction SDL_GetError 0]) (cout p)).

(** [std::cout << ...] *)
Definition cout_write (items : list cerr_item) : P unit :=
  fun p =>
    (Ok tt, mkProcess (the_world p) (interactions p) (cout p ++ items)).

(** The engine object in full: the two SDL handles beside the fields the
    draw paths and [create_texture] read.  A null pointer is 0. *)
Record engine_object := mkEngine {
  window : Z;                (* SDL_Window* *)
  context : Z;               (* SDL_GLContext *)
  fields : engine_impl.t
}.

(** [create_engine()]: [new engine_impl()] with its default member
    initialisers *)
Definition create_engine : engine_object :=
  mkEngine 0 0 (engine_impl.mk 0 0 0 [] 0).

Definition set_window (this : engine_object) (p : Z) : engine_object :=
  mkEngine p (context this) (fields this).
Definition set_context (this : engine_object) (p : Z) : engine_object :=
  mkEngine (window this) p (fields this).
Definition set_fields (this : engine_object) (f : engine_impl.t)
    : engine_object :=
  mkEngine (window this) (context this) f.

Definition set_window_size (f : engine_impl.t) (ww wh : Z) : engine_impl.t :=
  engine_impl.mk ww wh (engine_impl.gl_default_vbo f) (engine_impl.shaders f)
    (engine_impl.vertex_attribute_object f).
Definition set_gl_default_vbo (f : engine_impl.t) (n : Z) : engine_impl.t :=
  engine_impl.mk (engine_impl.window_width f) (engine_impl.window_height f) n
    (engine_impl.shaders f) (engine_impl.vertex_attribute_object f).
Definition set_vertex_attribute_object (f : engine_impl.t) (n : Z)
    : engine_impl.t :=
  engine_impl.mk (engine_impl.window_width f) (engine_impl.window_height f)
    (engine_impl.gl_default_vbo f) (engine_impl.shaders f) n.
(** [shaders.push_back(s)] *)
Definition push_back_shader (f : engine_impl.t) (s : shader.t)
    : engine_impl.t :=
  engine_impl.mk (engine_impl.window_width f) (engine_impl.window_height f)
    (engine_impl.gl_default_vbo f) (engine_impl.shaders f ++ [s])
    (engine_impl.vertex_attribute_object f).

(** the four raw string literals of [init], character for character *)
Definition vertex_shader_01_src : string :=
  "
                                     #version 330 core
                                     layout (location = 0) in vec3 a_position;
                                     layout (location = 1) in vec4 a_color;


                                     out vec4 v_color;
                                     void main()
                                     {
                                        v_color = a_color;
                                        gl_Position = vec4(a_position, 1.0);
                                     }
                                     ".

Definition fragment_shader_01_src : string :=
  "
                                       #version 330 core

                                       in vec4 v_color;

                                       out vec4 frag_color;

                                       void main()
                                       {
                                           frag_color = v_color;
                                       }
                                       ".

Definition vertex_shader_02_src : string :=
  "
                                     #version 330 core
                                     layout (location = 0) in vec3 a_position;
                                     layout (location = 1) in vec4 a_color;
                                     layout (location = 2) in vec2 a_tex_coord;


                                     out vec4 v_color;
                                     out vec2 v_tex_coord;
                                     void main()
                                     {
                                        v_color = a_color;
                                        v_tex_coord = a_tex_coord;
                                        gl_Position = vec4(a_position, 1.0);
                                     }
                                     ".

Definition fragment_shader_02_src : string :=
  "
                                       #version 330 core

                                       in vec4 v_color;
                                       in vec2 v_tex_coord;

                                       uniform sampler2D s_texture;
                                       out vec4 frag_color;

                                       void main()
                                       {
                                           frag_color = texture(s_texture, v_tex_coord) * v_color;
                                       }
                                       ".

Module engine.
Section WithPlatform.
Variable px : platform.
Variable ext : externals.
Local Open Scope process_scope.

(** [SDL_COMPILEDVERSION] *)
Definition SDL_COMPILEDVERSION : Z :=
  SDL_VERSIONNUM (SDL_MAJOR_VERSION px) (SDL_MINOR_VERSION px)
    (SDL_PATCHLEVEL px).

(** [engine_impl::init]; the two sizes arrive as [uint16_t] *)
Definition init (this : engine_object) (ww wh : Z) (fullscreen : bool)
    : P (bool * engine_object) :=
  let ww := to_uint16 ww in
  let wh := to_uint16 wh in
  linked <- get_version px ;;
  cout_write
    [Int (to_uint8 (SDL_MAJOR_VERSION px)); Str ".";
     Int (to_uint8 (SDL_MINOR_VERSION px)); Str ".";
     Int (to_uint8 (SDL_PATCHLEVEL px)); Endl] ;;
  cout_write
    [Int (fst (fst linked)); Str "."; Int (snd (fst linked)); Str ".";
     Int (snd linked); Endl] ;;
  if negb (SDL_COMPILEDVERSION
           =? SDL_VERSIONNUM (fst (fst linked)) (snd (fst linked))
                (snd linked))
  then
    lift (cerr_write
            [Str "error: There are different versions of compiled and linked SDL ( engine.cxx:  )";
             Endl]) ;;
    retP (false, this)
  else
  r <- call_int px (SDL_Init (SDL_INIT_EVERYTHING px)) ;;
  if negb (r =? 0) then
    e <- get_error px ;;
    lift (cerr_write
            [Str "error: Failed to init SDL ( engine.cxx:  )"; Str e; Endl]) ;;
    retP (false, this)
  else
  call_ (SDL_GL_SetAttribute SDL_GL_CONTEXT_FLAGS SDL_GL_CONTEXT_DEBUG_FLAG) ;;
  let window_flags :=
    if fullscreen
    then Z.lor SDL_WINDOW_OPENGL SDL_WINDOW_FULLSCREEN_DESKTOP
    else SDL_WINDOW_OPENGL in
  created <- call_pointer px
               (SDL_CreateWindow "Uchiha Engine" SDL_WINDOWPOS_CENTERED
                  SDL_WINDOWPOS_CENTERED ww wh window_flags) ;;
  let this := set_window this created in
  let this := set_fields this (set_window_size (fields this) ww wh) in
  if window this =? 0 then
    e <- get_error px ;;
    lift (cerr_write
            [Str "error: Failed to create window ( engine.cxx:  )"; Str e;
             Endl]) ;;
    call_ SDL_Quit ;;
    retP (false, this)
  else
  call_ (SDL_GL_SetAttribute SDL_GL_CONTEXT_MAJOR_VERSION 3) ;;
  call_ (SDL_GL_SetAttribute SDL_GL_CONTEXT_MINOR_VERSION 3) ;;
  call_ (SDL_GL_SetAttribute SDL_GL_CONTEXT_PROFILE_MASK
           SDL_GL_CONTEXT_PROFILE_CORE) ;;
  created <- call_pointer px (SDL_GL_CreateContext (window this)) ;;
  let this := set_context this created in
  if context this =? 0 then
    e <- get_error px ;;
    lift (cerr_write
            [Str "error: Failed to create context ( engine.cxx:  )"; Str e;
             Endl]) ;;
    call_ (SDL_DestroyWindow (window this)) ;;
    call_ SDL_Quit ;;
    retP (false, this)
  else
  loaded <- call_int px gladLoadGLLoader ;;
  if loaded =? 0 then
    lift (cerr_write
            [Str "error: Failed to load GL functions ( engine.cxx:  )";
             Endl]) ;;
    call_ (SDL_GL_DeleteContext (context this)) ;;
    call_ (SDL_DestroyWindow (window this)) ;;
    call_ SDL_Quit ;;
    retP (false, this)
  else
  vbo <- call_uint px (glGenBuffers 1) ;;
  let this := set_fields this (set_gl_default_vbo (fields this) vbo) in
  call_ (glBindBuffer GL_ARRAY_BUFFER (engine_impl.gl_default_vbo (fields this))) ;;
  vao <- call_uint px (glGenVertexArrays 1) ;;
  let this := set_fields this (set_vertex_attribute_object (fields this) vao) in
  call_ (glBindVertexArray
           (engine_impl.vertex_attribute_object (fields this))) ;;
  let data_size_in_bytes := 0 in
  lift (gl (glBufferData GL_ARRAY_BUFFER data_size_in_bytes []
              GL_STATIC_DRAW)) ;;
  lift (gl (glBufferSubData GL_ARRAY_BUFFER 0 data_size_in_bytes [])) ;;
  s <- lift (shader.shader ext vertex_shader_01_src fragment_shader_01_src
               [(0, "a_position"%string); (1, "a_color"%string)]) ;;
  let this := set_fields this (push_back_shader (fields this) s) in
  s <- lift (engine_impl.at_ (engine_impl.shaders (fields this)) 0) ;;
  lift (shader.use s) ;;
  s <- lift (shader.shader ext vertex_shader_02_src fragment_shader_02_src
               [(0, "a_position"%string); (1, "a_color"%string);
                (2, "a_tex_coord"%string)]) ;;
  let this := set_fields this (push_back_shader (fields this) s) in
  s <- lift (engine_impl.at_ (engine_impl.shaders (fields this)) 1) ;;
  lift (shader.use s) ;;
  call_ (glEnable GL_BLEND) ;;
  call_ (glBlendFunc GL_SRC_ALPHA GL_ONE_MINUS_SRC_ALPHA) ;;
  call_ (glClearColor float_zero float_zero float_zero float_zero) ;;
  call_ (glViewport 0 0 (engine_impl.window_width (fields this))
           (engine_impl.window_height (fields this))) ;;
  retP (true, this).

(** [engine_impl::swap_buffers] *)
Definition swap_buffers (this : engine_object) : P unit :=
  call_ (SDL_GL_SwapWindow (window this)) ;;
  call_ (glClearColor float_zero float_zero float_one float_one) ;;
  call_ (glClear GL_COLOR_BUFFER_BIT).

(** [engine_impl::destroy] *)
Definition destroy (this : engine_object) : P unit :=
  call_ (SDL_GL_DeleteContext (context this)) ;;
  call_ (SDL_DestroyWindow (window this)) ;;
  call_ SDL_Quit.

End WithPlatform.
End engine.

(** What a record leaves alive: whether SDL is initialised, and the windows
    and contexts that were created and not destroyed since, oldest first. *)
Record alive := mkAlive {
  sdl_up : bool;
  windows : list Z;
  contexts : list Z
}.

Definition alive_step (st : alive) (i : interaction) : alive :=
  match call i with
  | SDL_Init _ =>
      if returned i =? 0 then mkAlive true (windows st) (contexts st) else st
  | SDL_Quit => mkAlive false (windows st) (contexts st)
  | SDL_CreateWindow _ _ _ _ _ _ =>
      if returned i =? 0 then st
      else mkAlive (sdl_up st) (windows st ++ [returned i]) (contexts st)
  | SDL_DestroyWindow p =>
      mkAlive (sdl_up st) (remove Z.eq_dec p (windows st)) (contexts st)
  | SDL_GL_CreateContext _ =>
      if returned i =? 0 then st
      else mkAlive (sdl_up st) (windows st) (contexts st ++ [returned i])
  | SDL_GL_DeleteContext p =>
      mkAlive (sdl_up st) (windows st) (remove Z.eq_dec p (contexts st))
  | _ => st
  end.

Definition alive_after (record : list interaction) : alive :=
  fold_left alive_step record (mkAlive false [] []).

(** whether an interaction is an OpenGL command *)
Definition is_gl (i : interaction) : bool :=
  match call i with
  | GL _ | glGenBuffers _ | glBindBuffer _ _ | glGenVertexArrays _
  | glBindVertexArray _ | glEnable _ | glBlendFunc _ _
  | glClearColor _ _ _ _ | glViewport _ _ _ _ | glClear _ => true
  | _ => false
  end.

(** A platform on which nothing [init] checks can fail: the library has
    the version number of the headers, [SDL_Init] returns 0, no window or
    context comes back null, and the loader does not return 0. *)
Definition works (px : platform) : Prop :=
  (forall h,
      SDL_VERSIONNUM (to_uint8 (fst (fst (linked_version px h))))
        (to_uint8 (snd (fst (linked_version px h))))
        (to_uint8 (snd (linked_version px h)))
      = SDL_VERSIONNUM (SDL_MAJOR_VERSION px) (SDL_MINOR_VERSION px)
          (SDL_PATCHLEVEL px)) /\
  (forall h flags, to_int32 (answer px h (SDL_Init flags)) = 0) /\
  (forall h title x y w h' flags,
      to_size_t (answer px h (SDL_CreateWindow title x y w h' flags)) <> 0) /\
  (forall h win, to_size_t (answer px h (SDL_GL_CreateContext win)) <> 0) /\
  (forall h, to_int32 (answer px h gladLoadGLLoader) <> 0).

(** a process that has not started anything *)
Definition empty_process : process := mkProcess empty_world [] [].

(** A platform on which everything works: headers and library are SDL
    2.0.20, [SDL_Init] returns 0, windows, contexts and names are handed out
    as 4096, and the loader returns 1. *)
Definition working_platform : platform :=
  mkPlatform 2 0 20 0xF231 (fun _ => (2, 0, 20))
    (fun _ c => match c with
                | SDL_Init _ => 0
                | gladLoadGLLoader => 1
                | _ => 4096
                end)
    (fun _ => EmptyString).

(** the same, with a library of version 2.0.22 *)
Definition other_library : platform :=
  mkPlatform 2 0 20 0xF231 (fun _ => (2, 0, 22))
    (fun _ c => match c with
                | SDL_Init _ => 0
                | gladLoadGLLoader => 1
                | _ => 4096
                end)
    (fun _ => EmptyString).

(** the same as the first, but no context can be created *)
Definition no_context : platform :=
  mkPlatform 2 0 20 0xF231 (fun _ => (2, 0, 20))
    (fun _ c => match c with
                | SDL_Init _ => 0
                | SDL_GL_CreateContext _ => 0
                | gladLoadGLLoader => 1
                | _ => 4096
                end)
    (fun _ => "no context"%string).

(* ================================================================== *)
(** ** [main]

    The two loops of [main] run on fuel: one unit for every test of a loop
    condition. *)

(** how far a run of [main] got: to the end; or the fuel ran out inside a
    loop; or it went through a pointer that points to no texture *)
Inductive progress (A : Type) : Type :=
  | done (a : A)
  | more_fuel
  | invalid_pointer.
Arguments done {A} a.
Arguments more_fuel {A}.
Arguments invalid_pointer {A}.

(** the float literals of [main], as IEEE 754 single precision, low byte
    first *)
Definition f32_0_1 : uchiha.float := uchiha.mkFloat xcd xcc xcc x3d.
Definition f32_0_3 : uchiha.float := uchiha.mkFloat x9a x99 x99 x3e.
Definition f32_0_4 : uchiha.float := uchiha.mkFloat xcd xcc xcc x3e.
Definition f32_0_6 : uchiha.float := uchiha.mkFloat x9a x99 x19 x3f.
Definition f32_0_75 : uchiha.float := uchiha.mkFloat x00 x00 x40 x3f.
Definition f32_0_9 : uchiha.float := uchiha.mkFloat x66 x66 x66 x3f.
Definition f32_minus_0_1 : uchiha.float := uchiha.mkFloat xcd xcc xcc xbd.
Definition f32_minus_0_3 : uchiha.float := uchiha.mkFloat x9a x99 x99 xbe.
Definition f32_minus_0_4 : uchiha.float := uchiha.mkFloat xcd xcc xcc xbe.

(** the values of the enumerators of [event::key], which is what
    [std::cout << e.key] prints *)
Definition key_number (k : uchiha.event_key) : Z :=
  match k with
  | uchiha.left => 0
  | uchiha.right => 1
  | uchiha.top => 2
  | uchiha.bottom => 3
  | uchiha.enter => 4
  | uchiha.escape => 5
  | uchiha.space => 6
  | uchiha.undefined_key => 7
  end.

(** [*tx]: the object a pointer points to, if it points to one *)
Definition deref (p : pointer) : M (option texture_impl) :=
  fun w =>
    (Ok match p with
        | addr n => nth_error (heap w) n
        | nullptr => None
        end, w).

Module program.
Section WithPlatform.
Import uchiha.
Variable px : platform.
Variable ext : externals.
Local Open Scope process_scope.

Definition tr0 : triangle :=
  mkTriangle
    (mkVertex f32_0_3 f32_minus_0_3 float_zero
       float_one float_zero float_zero float_one float_zero float_zero)
    (mkVertex float_zero f32_0_3 float_zero
       float_one float_zero float_zero float_one float_zero float_zero)
    (mkVertex f32_minus_0_3 f32_minus_0_3 float_zero
       float_one float_zero float_zero float_one float_zero float_zero).

Definition tr1 : triangle :=
  mkTriangle
    (mkVertex f32_0_6 f32_0_3 float_zero
       float_zero float_one float_zero float_one float_zero float_zero)
    (mkVertex f32_0_9 f32_0_3 float_zero
       float_zero float_one float_zero float_one float_zero float_zero)
    (mkVertex f32_0_75 f32_0_6 float_zero
       float_zero float_one float_zero float_one float_zero float_zero).

Definition tr2 : triangle :=
  mkTriangle
    (mkVertex f32_minus_0_1 f32_0_1 float_zero
       float_one float_one float_one float_one float_one float_one)
    (mkVertex f32_minus_0_1 f32_0_4 float_zero
       float_one float_one float_one float_one float_one float_zero)
    (mkVertex f32_minus_0_4 f32_0_1 float_zero
       float_one float_one float_one float_one float_zero float_one).

Definition tr3 : triangle :=
  mkTriangle
    (mkVertex f32_minus_0_4 f32_0_4 float_zero
       float_one float_one float_one float_one float_zero float_zero)
    (mkVertex f32_minus_0_1 f32_0_4 float_zero
       float_one float_one float_one float_one float_one float_zero)
    (mkVertex f32_minus_0_4 f32_0_1 float_zero
       float_one float_one float_one float_one float_zero float_one).

Definition vertex_buffer : list triangle := [tr0; tr1].
Definition vertex_buffer_01 : list triangle := [tr2; tr3].

(** the [switch] on [e.type]: what it prints, and the new [is_loop] *)
Definition switch_on_type (e : event) (is_loop : bool) : P bool :=
  match type e with
  | quit =>
      cout_write [Str "event: quit"; Endl] ;;
      retP false
  | mouse_motion =>
      cout_write [Str "event: mouse motion"; Endl] ;;
      cout_write [Int (mouse_x e); Str " "; Int (mouse_y e); Endl] ;;
      retP is_loop
  | mouse_click =>
      cout_write [Str "event: mouse click"; Endl] ;;
      retP is_loop
  | pressed =>
      cout_write [Str "event: key pressed"; Endl] ;;
      cout_write [Int (key_number (key e)); Endl] ;;
      retP is_loop
  | reliased =>
      cout_write [Str "event: key reliased"; Endl] ;;
      cout_write [Int (key_number (key e)); Endl] ;;
      retP is_loop
  end.

(** [while (engine->read_input(e)) { switch ... }]; [None] when the fuel
    runs out *)
Fixpoint poll_events (fuel : nat) (e : event) (is_loop : bool)
    : P (option (event * bool)) :=
  match fuel with
  | O => retP None
  | S fuel' =>
      r <- lift (engine_impl.read_input e) ;;
      if fst r then
        is_loop <- switch_on_type (snd r) is_loop ;;
        poll_events fuel' (snd r) is_loop
      else
        retP (Some (snd r, is_loop))
  end.

(** [while (is_loop) { ... }] *)
Fixpoint frames (fuel : nat) (engine : engine_object) (tx : pointer)
    (e : event) (is_loop : bool) : P (progress unit) :=
  match fuel with
  | O => retP more_fuel
  | S fuel' =>
      if is_loop then
        polled <- poll_events fuel' e is_loop ;;
        match polled with
        | None => retP more_fuel
        | Some (e, is_loop) =>
            lift (engine_impl.render (fields engine) vertex_buffer) ;;
            t <- lift (deref tx) ;;
            match t with
            | None => retP invalid_pointer
            | Some t =>
                lift (engine_impl.render_textured ext (fields engine)
                        vertex_buffer_01 t) ;;
                engine.swap_buffers engine ;;
                frames fuel' engine tx e is_loop
            end
        end
      else
        retP (done tt)
  end.

(** [main]; [e.type] and [e.key] start out indeterminate, as [type0] and
    [key0]; what [init] returns is not looked at *)
Definition main (fuel : nat) (type0 : event_type) (key0 : event_key)
    : P (progress Z) :=
  let engine := create_engine in
  r <- engine.init px ext engine 800 600 false ;;
  let engine := snd r in
  tx <- lift (engine_impl.create_texture ext "res/black-horse.png") ;;
  let e := mkEvent type0 key0 0 0 in
  let is_loop := true in
  finished <- frames fuel engine tx e is_loop ;;
  match finished with
  | done _ =>
      engine.destroy engine ;;
      retP (done 0)
  | more_fuel => retP more_fuel
  | invalid_pointer => retP invalid_pointer
  end.

End WithPlatform.
End program.

(** the events a run of the inner loop of [main] delivers: the pending
    events up to the first one [read_input] does not translate *)
Fixpoint delivered (q : list SDL_Event) : list SDL_Event :=
  match q with
  | [] => []
  | e :: q' => if is_translated (SDL.type e) then e :: delivered q' else []
  end.

(** and the events it leaves pending: those behind that first one *)
Fixpoint left_pending (q : list SDL_Event) : list SDL_Event :=
  match q with
  | [] => []
  | e :: q' => if is_translated (SDL.type e) then left_pending q' else q'
  end.

Definition is_quit (e : SDL_Event) : bool := SDL.type e =? SDL_QUIT.

(** how many frames [main] runs on a queue: one, and one more for every
    event that is not translated and comes before the first quit request *)
Fixpoint frames_until_quit (q : list SDL_Event) : nat :=
  match q with
  | [] => 1
  | e :: q' =>
      if is_quit e then 1
      else if is_translated (SDL.type e) then frames_until_quit q'
      else S (frames_until_quit q')
  end.

(** the draws of a record *)
Definition draws (record : list interaction) : nat :=
  List.length
    (filter (fun i =>
               match call i with
               | GL (glDrawArrays _ _ _) => true
               | _ => false
               end) record).

(* ================================================================== *)
(** ** Input polling *)

Section ReadInput.
Import uchiha.

(** What [read_input] does is decided by the head of the queue alone. *)
Lemma read_input_empty (ev : event) (w : world) :
  sdl_queue w = [] ->
  engine_impl.read_input ev w = (Ok (false, ev), w).
Proof.
  intros Hq. unfold engine_impl.read_input, bind, SDL_PollEvent.
  rewrite Hq. reflexivity.
Qed.

Lemma read_input_untranslated (ev : event) (w : world) e q :
  sdl_queue w = e :: q ->
  is_translated (SDL.type e) = false ->
  engine_impl.read_input ev w = (Ok (false, ev), with_sdl_queue w q).
Proof.
  intros Hq Ht. unfold engine_impl.read_input, bind, SDL_PollEvent.
  rewrite Hq. unfold is_translated in Ht.
  repeat (apply orb_false_elim in Ht; destruct Ht as [Ht ?]).
  repeat match goal with H : (_ =? _) = false |- _ => rewrite H; clear H end.
  reflexivity.
Qed.

Lemma read_input_translated (ev : event) (w : world) e q :
  sdl_queue w = e :: q ->
  is_translated (SDL.type e) = true ->
  exists ev', engine_impl.read_input ev w = (Ok (true, ev'), with_sdl_queue w q).
Proof.
  intros Hq Ht. unfold engine_impl.read_input, bind, SDL_PollEvent.
  rewrite Hq. unfold is_translated in Ht.
  destruct (SDL.type e =? SDL_QUIT); [eexists; reflexivity|].
  destruct (SDL.type e =? SDL_MOUSEMOTION); [eexists; reflexivity|].
  destruct (SDL.type e =? SDL_MOUSEBUTTONUP); [eexists; reflexivity|].
  simpl in Ht. rewrite Ht. eexists; reflexivity.
Qed.

(** takes an [if] chain apart, outermost condition first *)
Ltac chain_cases :=
  repeat match goal with
         | |- context [if ?c then _ else _] => destruct c
         end;
  reflexivity.

(** C6.  A key-down or key-up event at the head of the queue is always
    translated: the call returns true, the type is [pressed] for key-down and
    [reliased] for key-up, and the key is [top] for W or up-arrow, [bottom]
    for S or down-arrow, [left] for A or left-arrow, [right] for D or
    right-arrow, [escape] for Escape, [space] for Space, [enter] for either
    Enter key and [undefined_key] for every other key code. *)
Theorem read_input_key_event :
  forall (e : SDL_Event) (q : list SDL_Event) (ev : event) (w : world),
    sdl_queue w = e :: q ->
    SDL.type e = SDL_KEYDOWN \/ SDL.type e = SDL_KEYUP ->
    exists ev' : event,
      engine_impl.read_input ev w = (Ok (true, ev'), with_sdl_queue w q) /\
      (SDL.type e = SDL_KEYDOWN -> type ev' = pressed) /\
      (SDL.type e = SDL_KEYUP -> type ev' = reliased) /\
      (key_keysym_sym e = SDLK_w \/ key_keysym_sym e = SDLK_UP ->
         key ev' = top) /\
      (key_keysym_sym e = SDLK_s \/ key_keysym_sym e = SDLK_DOWN ->
         key ev' = bottom) /\
      (key_keysym_sym e = SDLK_a \/ key_keysym_sym e = SDLK_LEFT ->
         key ev' = left) /\
      (key_keysym_sym e = SDLK_d \/ key_keysym_sym e = SDLK_RIGHT ->
         key ev' = right) /\
      (key_keysym_sym e = SDLK_ESCAPE -> key ev' = escape) /\
      (key_keysym_sym e = SDLK_SPACE -> key ev' = space) /\
      (key_keysym_sym e = SDLK_KP_ENTER \/ key_keysym_sym e = SDLK_RETURN ->
         key ev' = enter) /\
      (~ In (key_keysym_sym e)
           [SDLK_w; SDLK_UP; SDLK_s; SDLK_DOWN; SDLK_a; SDLK_LEFT; SDLK_d;
            SDLK_RIGHT; SDLK_ESCAPE; SDLK_SPACE; SDLK_KP_ENTER; SDLK_RETURN] ->
         key ev' = undefined_key).
Proof.
  intros [ty sym mx my] q ev w Hq Hty. cbn [SDL.type key_keysym_sym] in *.
  unfold engine_impl.read_input, bind, SDL_PollEvent. rewrite Hq.
  cbn [SDL.type key_keysym_sym motion_x motion_y].
  assert (Hsel : (ty =? SDL_QUIT) = false /\ (ty =? SDL_MOUSEMOTION) = false /\
                 (ty =? SDL_MOUSEBUTTONUP) = false /\
                 (ty =? SDL_KEYDOWN) || (ty =? SDL_KEYUP) = true).
  { destruct Hty; subst ty; repeat split; reflexivity. }
  destruct Hsel as (-> & -> & -> & ->).
  eexists. split; [reflexivity|].
  split; [intros ->; rewrite Z.eqb_refl; chain_cases|].
  split; [intros ->; change (SDL_KEYUP =? SDL_KEYDOWN) with false; chain_cases|].
  repeat split.
  - intros [-> | ->]; reflexivity.
  - intros [-> | ->]; reflexivity.
  - intros [-> | ->]; reflexivity.
  - intros [-> | ->]; reflexivity.
  - intros ->; reflexivity.
  - intros ->; reflexivity.
  - intros [-> | ->]; reflexivity.
  - intros Hnot. cbn [In] in Hnot.
    repeat match goal with
           | |- context [sym =? ?k] =>
               replace (sym =? k) with false
                 by (symmetry; apply Z.eqb_neq; intros ->; apply Hnot; tauto)
           end.
    reflexivity.
Qed.

Lemma read_input_key_event_witness :
  sdl_queue (world_with_queue [w_key_down]) = [w_key_down] /\
  exists ev' : event,
    engine_impl.read_input blank_event (world_with_queue [w_key_down])
      = (Ok (true, ev'), world_with_queue []) /\
    type ev' = pressed /\ key ev' = top.
Proof.
  split; [reflexivity|].
  destruct (read_input_key_event w_key_down [] blank_event
              (world_with_queue [w_key_down]) eq_refl (or_introl eq_refl))
    as (ev' & Hrun & Hdown & _ & Htop & _).
  exists ev'. split; [exact Hrun|].
  split; [apply Hdown; reflexivity | apply Htop; left; reflexivity].
Defined.

(** C8, as the specification has it, fails: a pending event of a type the
    code does not translate (here a mouse button going down) is taken off the
    queue and the call reports that no event is available, with a quit
    request still waiting behind it. *)
Lemma read_input_reports_none_with_events_pending :
  sdl_queue (world_with_queue [button_down; quit_request]) <> [] /\
  engine_impl.read_input blank_event
      (world_with_queue [button_down; quit_request])
    = (Ok (false, blank_event), world_with_queue [quit_request]).
Proof. split; [discriminate | reflexivity]. Qed.

(** C8, amended.  [read_input] always returns, and takes at most one event
    off the queue: the oldest, if there is one.  It delivers an event exactly
    when that oldest event is a quit request, a mouse motion, a mouse button
    release, a key press or a key release; it reports that no event is
    available when the queue is empty and also when the event it took is of
    any other type. *)
Theorem read_input_polls_one_event :
  forall (ev : event) (w : world),
    exists (delivered : bool) (ev' : event),
      engine_impl.read_input ev w
        = (Ok (delivered, ev'), with_sdl_queue w (tl (sdl_queue w))) /\
      (delivered = true <->
         exists e q, sdl_queue w = e :: q /\
                     is_translated (SDL.type e) = true) /\
      (delivered = false <->
         sdl_queue w = [] \/
         exists e q, sdl_queue w = e :: q /\
                     is_translated (SDL.type e) = false).
Proof.
  intros ev w. destruct (sdl_queue w) as [|e q] eqn:Hq.
  - exists false, ev. split.
    + rewrite (read_input_empty ev w Hq). destruct w; cbn in *; subst.
      reflexivity.
    + split; split.
      * discriminate.
      * intros (e & q & Habs & _). discriminate.
      * auto.
      * reflexivity.
  - cbn [tl]. destruct (is_translated (SDL.type e)) eqn:Ht.
    + destruct (read_input_translated ev w e q Hq Ht) as (ev' & Hrun).
      exists true, ev'. split; [exact Hrun|].
      split; split.
      * eauto.
      * reflexivity.
      * discriminate.
      * intros [Habs | (e' & q' & Heq & Hf)]; [discriminate|].
        injection Heq as <- <-. congruence.
    + exists false, ev. split; [exact (read_input_untranslated ev w e q Hq Ht)|].
      split; split.
      * discriminate.
      * intros (e' & q' & Heq & Hf). injection Heq as <- <-. congruence.
      * eauto.
      * reflexivity.
Qed.

(** C10.  When [read_input] returns false, the caller's event record is
    what it was before the call: no member has been assigned. *)
Theorem read_input_false_keeps_event :
  forall (ev ev' : event) (w w' : world),
    engine_impl.read_input ev w = (Ok (false, ev'), w') -> ev' = ev.
Proof.
  intros ev ev' w w' Hrun.
  destruct (sdl_queue w) as [|e q] eqn:Hq.
  - rewrite (read_input_empty ev w Hq) in Hrun. congruence.
  - destruct (is_translated (SDL.type e)) eqn:Ht.
    + destruct (read_input_translated ev w e q Hq Ht) as (ev'' & Hrun').
      rewrite Hrun' in Hrun. discriminate.
    + rewrite (read_input_untranslated ev w e q Hq Ht) in Hrun. congruence.
Qed.

Lemma read_input_false_keeps_event_witness :
  engine_impl.read_input blank_event (world_with_queue [button_down])
    = (Ok (false, blank_event), world_with_queue []) /\
  blank_event = blank_event.
Proof.
  split; [reflexivity|].
  apply (read_input_false_keeps_event blank_event blank_event
           (world_with_queue [button_down]) (world_with_queue [])).
  reflexivity.
Defined.

End ReadInput.

(* ================================================================== *)
(** ** The two draw paths *)

Section Render.
Import uchiha.

(** runs straight-line code on a world given by its five components *)
Ltac run_straight_line :=
  cbv [bind ret when gl cerr_write new_ shader.use shader.set_uniform
       gl_int gl_uint engine_impl.data_arrow_v0
       with_gl_calls with_cerr with_heap with_indirections after_draw
       gl_calls cerr sdl_queue heap indirections];
  repeat rewrite <- app_assoc; cbn [app]; try reflexivity.

Lemma render_runs (this : engine_impl.t) (s0 : shader.t)
    (vertex_buffer : list triangle) (w : world) :
  nth_error (engine_impl.shaders this) 0 = Some s0 ->
  engine_impl.render this vertex_buffer w =
    (Ok tt,
     after_draw w
       [glUseProgram (shader.program s0);
        glBufferData GL_ARRAY_BUFFER
          (engine_impl.data_size_in_bytes vertex_buffer)
          (engine_impl.copied (engine_impl.storage vertex_buffer) 0
             (engine_impl.data_size_in_bytes vertex_buffer))
          GL_DYNAMIC_DRAW;
        glBufferSubData GL_ARRAY_BUFFER 0
          (engine_impl.data_size_in_bytes vertex_buffer)
          (engine_impl.copied (engine_impl.storage vertex_buffer) 0
             (engine_impl.data_size_in_bytes vertex_buffer));
        glEnableVertexAttribArray 0;
        glVertexAttribPointer 0 3 GL_FLOAT GL_FALSE 36 0;
        glEnableVertexAttribArray 1;
        glVertexAttribPointer 1 4 GL_FLOAT GL_FALSE 36 12;
        glDrawArrays GL_TRIANGLES 0
          (engine_impl.num_of_vertexes vertex_buffer);
        glDisableVertexAttribArray 0;
        glDisableVertexAttribArray 1]).
Proof.
  intros Hs. unfold engine_impl.render, engine_impl.at_. rewrite Hs.
  destruct w as [calls err queue objects derefs]. run_straight_line.
Qed.

Lemma render_textured_runs (ext : externals) (this : engine_impl.t)
    (s1 : shader.t) (vertex_buffer : list triangle) (tex : texture_impl)
    (w : world) :
  nth_error (engine_impl.shaders this) 1 = Some s1 ->
  engine_impl.render_textured ext this vertex_buffer tex w =
    (Ok tt,
     after_draw w
       [glUseProgram (shader.program s1);
        glGetUniformLocation (shader.program s1) "s_texture";
        glActiveTexture (to_uint32 (GL_TEXTURE0 + get_handle tex));
        glBindTexture GL_TEXTURE_2D (get_handle tex);
        glUniform1i
          (to_int32
             (gl_answer ext
                (gl_calls w ++
                 [glUseProgram (shader.program s1);
                  glGetUniformLocation (shader.program s1) "s_texture"])))
          (to_int32 (to_uint32 (0 + get_handle tex)));
        glBufferData GL_ARRAY_BUFFER
          (engine_impl.data_size_in_bytes vertex_buffer)
          (engine_impl.copied (engine_impl.storage vertex_buffer) 0
             (engine_impl.data_size_in_bytes vertex_buffer))
          GL_DYNAMIC_DRAW;
        glBufferSubData GL_ARRAY_BUFFER 0
          (engine_impl.data_size_in_bytes vertex_buffer)
          (engine_impl.copied (engine_impl.storage vertex_buffer) 0
             (engine_impl.data_size_in_bytes vertex_buffer));
        glEnableVertexAttribArray 0;
        glVertexAttribPointer 0 3 GL_FLOAT GL_FALSE 36 0;
        glEnableVertexAttribArray 1;
        glVertexAttribPointer 1 4 GL_FLOAT GL_FALSE 36 12;
        glEnableVertexAttribArray 2;
        glVertexAttribPointer 2 2 GL_FLOAT GL_FALSE 36 28;
        glDrawArrays GL_TRIANGLES 0
          (engine_impl.num_of_vertexes vertex_buffer);
        glDisableVertexAttribArray 0;
        glDisableVertexAttribArray 1;
        glDisableVertexAttribArray 2]).
Proof.
  intros Hs. unfold engine_impl.render_textured, engine_impl.at_. rewrite Hs.
  destruct w as [calls err queue objects derefs]. run_straight_line.
Qed.

(** C4.  On an engine that holds its two programs, both draw paths run to
    the end and configure, for every triangle sequence: slot 0 with 3 floats
    at byte offset 0 and slot 1 with 4 floats at byte offset 12; the textured
    path also slot 2 with 2 floats at byte offset 28, the untextured path no
    third slot; the stride is 36 bytes, the size of a vertex record, every
    time.  In a vertex record the bytes at these offsets are the position,
    the colour and the texture coordinate. *)
Theorem draw_attribute_layout :
  forall (ext : externals) (this : engine_impl.t) (s0 s1 : shader.t)
         (vertex_buffer : list triangle) (tex : texture_impl) (w : world),
    nth_error (engine_impl.shaders this) 0 = Some s0 ->
    nth_error (engine_impl.shaders this) 1 = Some s1 ->
    (exists calls,
        engine_impl.render this vertex_buffer w = (Ok tt, after_draw w calls) /\
        attribute_layout calls =
          [mkAttribute 0 3 GL_FLOAT GL_FALSE 36 0;
           mkAttribute 1 4 GL_FLOAT GL_FALSE 36 12]) /\
    (exists calls,
        engine_impl.render_textured ext this vertex_buffer tex w
          = (Ok tt, after_draw w calls) /\
        attribute_layout calls =
          [mkAttribute 0 3 GL_FLOAT GL_FALSE 36 0;
           mkAttribute 1 4 GL_FLOAT GL_FALSE 36 12;
           mkAttribute 2 2 GL_FLOAT GL_FALSE 36 28]) /\
    sizeof_vertex = 36 /\
    (forall p : vertex,
        vertex_field p 0 12
          = float_bytes (x p) ++ float_bytes (y p) ++ float_bytes (z p) /\
        vertex_field p 12 16
          = float_bytes (r p) ++ float_bytes (g p) ++ float_bytes (b p) ++
            float_bytes (a p) /\
        vertex_field p 28 8 = float_bytes (tx p) ++ float_bytes (ty p)).
Proof.
  intros ext this s0 s1 vb tex w H0 H1.
  split; [|split; [|split]].
  - eexists. split; [apply (render_runs this s0 vb w H0) | reflexivity].
  - eexists. split; [apply (render_textured_runs ext this s1 vb tex w H1)|].
    reflexivity.
  - reflexivity.
  - intros p. repeat split; reflexivity.
Qed.

Lemma draw_attribute_layout_witness :
  nth_error (engine_impl.shaders sample_engine) 0 = Some (shader.mk 1 2 3) /\
  nth_error (engine_impl.shaders sample_engine) 1 = Some (shader.mk 4 5 6) /\
  exists calls,
    engine_impl.render sample_engine [sample_triangle] empty_world
      = (Ok tt, after_draw empty_world calls) /\
    attribute_layout calls =
      [mkAttribute 0 3 GL_FLOAT GL_FALSE 36 0;
       mkAttribute 1 4 GL_FLOAT GL_FALSE 36 12].
Proof.
  split; [reflexivity|]. split; [reflexivity|].
  exact (proj1 (draw_attribute_layout sample_externals sample_engine
                  (shader.mk 1 2 3) (shader.mk 4 5 6) [sample_triangle]
                  sample_texture empty_world eq_refl eq_refl)).
Defined.

(** *** What the uploads carry *)

Lemma storage_is_stream (vertex_buffer : list triangle) :
  engine_impl.storage vertex_buffer
    = flat_map vertex_bytes (vertex_stream vertex_buffer).
Proof.
  unfold engine_impl.storage, vertex_stream.
  induction vertex_buffer as [|tr rest IH]; [reflexivity|].
  cbn [flat_map]. rewrite flat_map_app, IH. reflexivity.
Qed.

Lemma vertex_stream_length (vertex_buffer : list triangle) :
  List.length (vertex_stream vertex_buffer)
    = (3 * List.length vertex_buffer)%nat.
Proof.
  unfold vertex_stream.
  induction vertex_buffer as [|tr rest IH]; [reflexivity|].
  cbn [flat_map]. rewrite length_app, IH. cbn [List.length]. lia.
Qed.

Lemma stream_bytes_length (l : list vertex) :
  Z.of_nat (List.length (flat_map vertex_bytes l))
    = sizeof_vertex * Z.of_nat (List.length l).
Proof.
  induction l as [|p l IH]; [reflexivity|].
  cbn [flat_map]. rewrite length_app. cbn [List.length].
  rewrite Nat2Z.inj_add, IH.
  change (Z.of_nat (List.length (vertex_bytes p))) with 36.
  change sizeof_vertex with 36. lia.
Qed.

Lemma storage_length (vertex_buffer : list triangle) :
  Z.of_nat (List.length (engine_impl.storage vertex_buffer))
    = sizeof_triangle * engine_impl.size vertex_buffer.
Proof.
  rewrite storage_is_stream, stream_bytes_length, vertex_stream_length.
  unfold engine_impl.size. change sizeof_triangle with 108.
  change sizeof_vertex with 36. lia.
Qed.

(** Without wrap-around the size argument is the size of the storage. *)
Lemma data_size_exact (vertex_buffer : list triangle) :
  sizeof_triangle * engine_impl.size vertex_buffer < 2 ^ 32 ->
  engine_impl.data_size_in_bytes vertex_buffer
    = sizeof_triangle * engine_impl.size vertex_buffer.
Proof.
  intros Hsmall. unfold engine_impl.data_size_in_bytes, to_uint32, to_size_t.
  change sizeof_triangle with 108 in *. change sizeof_vertex with 36.
  assert (0 <= engine_impl.size vertex_buffer)
    by (unfold engine_impl.size; lia).
  rewrite (Z.mod_small (engine_impl.size vertex_buffer * 3)) by lia.
  rewrite (Z.mod_small (engine_impl.size vertex_buffer * 3 * 36)) by lia.
  rewrite Z.mod_small by lia. lia.
Qed.

(** With or without it, the driver is never told to copy more than the
    storage holds: [copied] stays inside the vector. *)
Lemma data_size_within_storage (vertex_buffer : list triangle) :
  0 <= engine_impl.data_size_in_bytes vertex_buffer
    <= Z.of_nat (List.length (engine_impl.storage vertex_buffer)).
Proof.
  rewrite storage_length.
  unfold engine_impl.data_size_in_bytes, to_uint32, to_size_t.
  change sizeof_triangle with 108. change sizeof_vertex with 36.
  assert (0 <= engine_impl.size vertex_buffer)
    by (unfold engine_impl.size; lia).
  assert (H1 : 0 <= (engine_impl.size vertex_buffer * 3) mod 2 ^ 64
               <= engine_impl.size vertex_buffer * 3).
  { split; [apply Z.mod_pos_bound; lia | apply Z.mod_le; lia]. }
  set (n3 := (engine_impl.size vertex_buffer * 3) mod 2 ^ 64) in *.
  assert (H2 : 0 <= (n3 * 36) mod 2 ^ 64 <= n3 * 36).
  { split; [apply Z.mod_pos_bound; lia | apply Z.mod_le; lia]. }
  set (b := (n3 * 36) mod 2 ^ 64) in *.
  assert (H3 : 0 <= b mod 2 ^ 32 <= b).
  { split; [apply Z.mod_pos_bound; lia | apply Z.mod_le; lia]. }
  lia.
Qed.

Lemma copied_whole (mem : list byte) :
  engine_impl.copied mem 0 (Z.of_nat (List.length mem)) = mem.
Proof.
  unfold engine_impl.copied. rewrite Nat2Z.id. cbn [Z.to_nat skipn].
  apply firstn_all.
Qed.

Lemma upload_exact (vertex_buffer : list triangle) :
  sizeof_triangle * engine_impl.size vertex_buffer < 2 ^ 32 ->
  engine_impl.copied (engine_impl.storage vertex_buffer) 0
      (engine_impl.data_size_in_bytes vertex_buffer)
    = flat_map vertex_bytes (vertex_stream vertex_buffer).
Proof.
  intros Hsmall. rewrite (data_size_exact _ Hsmall), <- storage_length.
  rewrite copied_whole. apply storage_is_stream.
Qed.

(** C5, amended.  On an engine that holds its two programs, for every
    triangle sequence of length N: the flattened vertex stream has 3 N
    vertices, and a second draw of the same sequence uploads byte for byte
    what the first draw uploaded, on either path.  When the 108 N bytes of
    the sequence stay below 2^32, what each draw uploads is exactly the
    bytes of that stream, in input order. *)
Theorem draw_uploads_vertex_stream :
  forall (ext : externals) (this : engine_impl.t) (s0 s1 : shader.t)
         (vertex_buffer : list triangle) (tex : texture_impl) (w : world),
    nth_error (engine_impl.shaders this) 0 = Some s0 ->
    nth_error (engine_impl.shaders this) 1 = Some s1 ->
    List.length (vertex_stream vertex_buffer)
      = (3 * List.length vertex_buffer)%nat /\
    (exists first second,
        engine_impl.render this vertex_buffer w
          = (Ok tt, after_draw w first) /\
        engine_impl.render this vertex_buffer (after_draw w first)
          = (Ok tt, after_draw (after_draw w first) second) /\
        uploads second = uploads first /\
        (sizeof_triangle * engine_impl.size vertex_buffer < 2 ^ 32 ->
         uploads first =
           [flat_map vertex_bytes (vertex_stream vertex_buffer);
            flat_map vertex_bytes (vertex_stream vertex_buffer)])) /\
    (exists first second,
        engine_impl.render_textured ext this vertex_buffer tex w
          = (Ok tt, after_draw w first) /\
        engine_impl.render_textured ext this vertex_buffer tex
            (after_draw w first)
          = (Ok tt, after_draw (after_draw w first) second) /\
        uploads second = uploads first /\
        (sizeof_triangle * engine_impl.size vertex_buffer < 2 ^ 32 ->
         uploads first =
           [flat_map vertex_bytes (vertex_stream vertex_buffer);
            flat_map vertex_bytes (vertex_stream vertex_buffer)])).
Proof.
  intros ext this s0 s1 vb tex w H0 H1.
  split; [apply vertex_stream_length|]. split.
  - do 2 eexists.
    split; [apply (render_runs this s0 vb w H0)|].
    split; [apply (render_runs this s0 vb _ H0)|].
    cbn [uploads flat_map app]. split; [reflexivity|].
    intros Hsmall. rewrite (upload_exact vb Hsmall). reflexivity.
  - do 2 eexists.
    split; [apply (render_textured_runs ext this s1 vb tex w H1)|].
    split; [apply (render_textured_runs ext this s1 vb tex _ H1)|].
    cbn [uploads flat_map app]. split; [reflexivity|].
    intros Hsmall. rewrite (upload_exact vb Hsmall). reflexivity.
Qed.

Lemma draw_uploads_vertex_stream_witness :
  nth_error (engine_impl.shaders sample_engine) 0 = Some (shader.mk 1 2 3) /\
  nth_error (engine_impl.shaders sample_engine) 1 = Some (shader.mk 4 5 6) /\
  sizeof_triangle * engine_impl.size [sample_triangle; sample_triangle]
    < 2 ^ 32 /\
  List.length (vertex_stream [sample_triangle; sample_triangle]) = 6%nat /\
  exists first second,
    engine_impl.render sample_engine [sample_triangle; sample_triangle]
        empty_world
      = (Ok tt, after_draw empty_world first) /\
    uploads second = uploads first /\
    uploads first =
      [flat_map vertex_bytes
         (vertex_stream [sample_triangle; sample_triangle]);
       flat_map vertex_bytes
         (vertex_stream [sample_triangle; sample_triangle])].
Proof.
  split; [reflexivity|]. split; [reflexivity|]. split; [reflexivity|].
  destruct (draw_uploads_vertex_stream sample_externals sample_engine
              (shader.mk 1 2 3) (shader.mk 4 5 6)
              [sample_triangle; sample_triangle] sample_texture
              empty_world eq_refl eq_refl)
    as (Hlen & (first & second & Hrun & _ & Hsame & Hstream) & _).
  split; [exact Hlen|].
  exists first, second. split; [exact Hrun|]. split; [exact Hsame|].
  apply Hstream. reflexivity.
Defined.

Lemma long_sequence_size : engine_impl.size long_sequence = 39768216.
Proof.
  unfold engine_impl.size, long_sequence. rewrite repeat_length.
  apply Z2Nat.id. discriminate.
Qed.

(** what the cut to 32 bits does to a sequence of that length *)
Lemma upload_cut_short (this : engine_impl.t) (s0 : shader.t)
    (vertex_buffer : list triangle) (w : world) :
  nth_error (engine_impl.shaders this) 0 = Some s0 ->
  engine_impl.size vertex_buffer = 39768216 ->
  exists calls data,
    engine_impl.render this vertex_buffer w = (Ok tt, after_draw w calls) /\
    uploads calls = [data; data] /\
    Z.of_nat (List.length data) = 32 /\
    Z.of_nat (List.length (vertex_stream vertex_buffer)) = 3 * 39768216 /\
    data <> flat_map vertex_bytes (vertex_stream vertex_buffer).
Proof.
  intros Hs Hsize.
  assert (Hcut : engine_impl.data_size_in_bytes vertex_buffer = 32).
  { unfold engine_impl.data_size_in_bytes. rewrite Hsize. reflexivity. }
  assert (Hstream : Z.of_nat (List.length (vertex_stream vertex_buffer))
                    = 3 * 39768216).
  { rewrite vertex_stream_length, Nat2Z.inj_mul.
    fold (engine_impl.size vertex_buffer). rewrite Hsize. reflexivity. }
  exists
    [glUseProgram (shader.program s0);
     glBufferData GL_ARRAY_BUFFER
       (engine_impl.data_size_in_bytes vertex_buffer)
       (engine_impl.copied (engine_impl.storage vertex_buffer) 0
          (engine_impl.data_size_in_bytes vertex_buffer))
       GL_DYNAMIC_DRAW;
     glBufferSubData GL_ARRAY_BUFFER 0
       (engine_impl.data_size_in_bytes vertex_buffer)
       (engine_impl.copied (engine_impl.storage vertex_buffer) 0
          (engine_impl.data_size_in_bytes vertex_buffer));
     glEnableVertexAttribArray 0;
     glVertexAttribPointer 0 3 GL_FLOAT GL_FALSE 36 0;
     glEnableVertexAttribArray 1;
     glVertexAttribPointer 1 4 GL_FLOAT GL_FALSE 36 12;
     glDrawArrays GL_TRIANGLES 0 (engine_impl.num_of_vertexes vertex_buffer);
     glDisableVertexAttribArray 0;
     glDisableVertexAttribArray 1],
    (engine_impl.copied (engine_impl.storage vertex_buffer) 0
       (engine_impl.data_size_in_bytes vertex_buffer)).
  split; [exact (render_runs this s0 vertex_buffer w Hs)|].
  split; [reflexivity|].
  assert (Hlen : Z.of_nat
                   (List.length
                      (engine_impl.copied (engine_impl.storage vertex_buffer)
                         0 (engine_impl.data_size_in_bytes vertex_buffer)))
                 = 32).
  { rewrite Hcut. unfold engine_impl.copied.
    change (Z.to_nat 0) with 0%nat. cbn [skipn].
    rewrite length_firstn.
    pose proof (storage_length vertex_buffer) as Hst.
    rewrite Hsize in Hst. change sizeof_triangle with 108 in Hst.
    lia. }
  split; [exact Hlen|].
  split; [exact Hstream|].
  intros Heq. rewrite Heq, stream_bytes_length, Hstream in Hlen.
  discriminate Hlen.
Qed.

(** C5, as the specification has it, fails for long sequences: the byte
    count of the upload is cut down to 32 bits.  A draw of 39768216
    triangles, a stream of 119304648 vertices, uploads 32 bytes, which is
    less than one vertex. *)
Lemma draw_of_long_sequence_uploads_32_bytes :
  exists calls data,
    engine_impl.render sample_engine long_sequence empty_world
      = (Ok tt, after_draw empty_world calls) /\
    uploads calls = [data; data] /\
    Z.of_nat (List.length data) = 32 /\
    Z.of_nat (List.length (vertex_stream long_sequence)) = 3 * 39768216 /\
    data <> flat_map vertex_bytes (vertex_stream long_sequence).
Proof.
  exact (upload_cut_short sample_engine (shader.mk 1 2 3) long_sequence
           empty_world eq_refl long_sequence_size).
Qed.

(** C1, on the code.  A draw of the empty sequence runs to the end on
    either path, copies no byte and draws no vertex, but before that it goes
    through [data()] to element 0 of the sequence, and the empty sequence
    has no element 0. *)
Theorem draw_of_empty_sequence :
  nth_error (@nil triangle) 0 = None /\
  engine_impl.render sample_engine [] empty_world =
    (Ok tt,
     mkWorld
       [glUseProgram 3;
        glBufferData GL_ARRAY_BUFFER 0 [] GL_DYNAMIC_DRAW;
        glBufferSubData GL_ARRAY_BUFFER 0 0 [];
        glEnableVertexAttribArray 0;
        glVertexAttribPointer 0 3 GL_FLOAT GL_FALSE 36 0;
        glEnableVertexAttribArray 1;
        glVertexAttribPointer 1 4 GL_FLOAT GL_FALSE 36 12;
        glDrawArrays GL_TRIANGLES 0 0;
        glDisableVertexAttribArray 0;
        glDisableVertexAttribArray 1]
       [] [] [] [0%nat]) /\
  engine_impl.render_textured sample_externals sample_engine []
      sample_texture empty_world =
    (Ok tt,
     mkWorld
       [glUseProgram 6;
        glGetUniformLocation 6 "s_texture";
        glActiveTexture (GL_TEXTURE0 + 1);
        glBindTexture GL_TEXTURE_2D 1;
        glUniform1i 7 1;
        glBufferData GL_ARRAY_BUFFER 0 [] GL_DYNAMIC_DRAW;
        glBufferSubData GL_ARRAY_BUFFER 0 0 [];
        glEnableVertexAttribArray 0;
        glVertexAttribPointer 0 3 GL_FLOAT GL_FALSE 36 0;
        glEnableVertexAttribArray 1;
        glVertexAttribPointer 1 4 GL_FLOAT GL_FALSE 36 12;
        glEnableVertexAttribArray 2;
        glVertexAttribPointer 2 2 GL_FLOAT GL_FALSE 36 28;
        glDrawArrays GL_TRIANGLES 0 0;
        glDisableVertexAttribArray 0;
        glDisableVertexAttribArray 1;
        glDisableVertexAttribArray 2]
       [] [] [] [0%nat]).
Proof. repeat split. Qed.

End Render.

(* ================================================================== *)
(** ** One step at a time, on a world given by its components *)

Lemma bind_runs {A B} (m : M A) (f : A -> M B) (w w1 : world) (a : A)
    (res : outcome B * world) :
  m w = (Ok a, w1) -> f a w1 = res -> bind m f w = res.
Proof. intros Hm Hf. unfold bind. rewrite Hm. exact Hf. Qed.

Lemma bind_throws {A B} (m : M A) (f : A -> M B) (w w1 : world) (e : exn) :
  m w = (Throw e, w1) -> bind m f w = (Throw e, w1).
Proof. intros Hm. unfold bind. rewrite Hm. reflexivity. Qed.

Lemma gl_runs (c : gl_call) calls err queue objects derefs :
  gl c (mkWorld calls err queue objects derefs)
    = (Ok tt, mkWorld (calls ++ [c]) err queue objects derefs).
Proof. reflexivity. Qed.

Lemma gl_uint_runs (ext : externals) (c : gl_call)
    calls err queue objects derefs :
  gl_uint ext c (mkWorld calls err queue objects derefs)
    = (Ok (to_uint32 (gl_answer ext (calls ++ [c]))),
       mkWorld (calls ++ [c]) err queue objects derefs).
Proof. reflexivity. Qed.

Lemma gl_int_runs (ext : externals) (c : gl_call)
    calls err queue objects derefs :
  gl_int ext c (mkWorld calls err queue objects derefs)
    = (Ok (to_int32 (gl_answer ext (calls ++ [c]))),
       mkWorld (calls ++ [c]) err queue objects derefs).
Proof. reflexivity. Qed.

Lemma cerr_write_runs (items : list cerr_item)
    calls err queue objects derefs :
  cerr_write items (mkWorld calls err queue objects derefs)
    = (Ok tt, mkWorld calls (err ++ items) queue objects derefs).
Proof. reflexivity. Qed.

Lemma when_cerr_runs (c : bool) (items : list cerr_item)
    calls err queue objects derefs :
  when c (cerr_write items) (mkWorld calls err queue objects derefs)
    = (Ok tt,
       mkWorld calls (err ++ if c then items else []) queue objects derefs).
Proof. destruct c; cbn; [|rewrite app_nil_r]; reflexivity. Qed.

Lemma for_each_gl_runs {A} (l : list A) (c : A -> gl_call)
    calls err queue objects derefs :
  for_each l (fun x => gl (c x)) (mkWorld calls err queue objects derefs)
    = (Ok tt, mkWorld (calls ++ map c l) err queue objects derefs).
Proof.
  revert calls. induction l as [|x l IH]; intros calls.
  - cbn. rewrite app_nil_r. reflexivity.
  - cbn [for_each map]. eapply bind_runs; [apply gl_runs|].
    rewrite IH, <- app_assoc. reflexivity.
Qed.

Lemma new_runs (t : texture_impl) calls err queue objects derefs :
  new_ t (mkWorld calls err queue objects derefs)
    = (Ok (addr (List.length objects)),
       mkWorld calls err queue (objects ++ [t]) derefs).
Proof. reflexivity. Qed.

Ltac step :=
  eapply bind_runs;
  [ first [ apply gl_runs | apply gl_uint_runs | apply gl_int_runs
          | apply cerr_write_runs | apply when_cerr_runs
          | apply for_each_gl_runs | apply new_runs ]
  | cbv beta ].

(* ================================================================== *)
(** ** Shader programs *)

Section Shader.
Variable ext : externals.

(** an [int] is a 32-bit number *)
Lemma to_int32_range (x : Z) : - 2 ^ 31 <= to_int32 x < 2 ^ 31.
Proof.
  unfold to_int32.
  pose proof (Z.mod_pos_bound (x + 2 ^ 31) (2 ^ 32) ltac:(lia)). lia.
Qed.

(** a vector of [static_cast<size_t>(n)] characters, [n] an [int]: it is
    there when [n] is not negative, and [std::length_error] otherwise *)
Lemma std_vector_char_runs (x : Z) (w : world) :
  0 <= to_int32 x ->
  std_vector_char (to_size_t (to_int32 x)) w = (Ok tt, w).
Proof.
  intros Hpos. pose proof (to_int32_range x) as Hrange.
  unfold std_vector_char, to_size_t, vector_max_size.
  rewrite Z.mod_small by lia.
  destruct (to_int32 x <=? 2 ^ 63 - 1) eqn:Hle; [reflexivity|].
  apply Z.leb_gt in Hle. lia.
Qed.

Lemma std_vector_char_throws (x : Z) (w : world) :
  to_int32 x < 0 ->
  std_vector_char (to_size_t (to_int32 x)) w = (Throw std_length_error, w).
Proof.
  intros Hneg. pose proof (to_int32_range x) as Hrange.
  unfold std_vector_char, to_size_t, vector_max_size.
  rewrite <- (Z_mod_plus_full (to_int32 x) 1 (2 ^ 64)).
  rewrite Z.mod_small by lia.
  destruct (to_int32 x + 1 * 2 ^ 64 <=? 2 ^ 63 - 1) eqn:Hle; [|reflexivity].
  apply Z.leb_le in Hle. lia.
Qed.

Lemma shader_deletions_app (l1 l2 : list gl_call) :
  shader_deletions (l1 ++ l2) = (shader_deletions l1 + shader_deletions l2)%nat.
Proof. unfold shader_deletions. rewrite filter_app, length_app. reflexivity. Qed.

Lemma program_deletions_app (l1 l2 : list gl_call) :
  program_deletions (l1 ++ l2)
    = (program_deletions l1 + program_deletions l2)%nat.
Proof.
  unfold program_deletions. rewrite filter_app, length_app. reflexivity.
Qed.

(** [init_shader] on a world given by its components.  It returns true, or
    it returns false after it has deleted the shader, or it leaves by
    [std::length_error] with the shader not deleted, which takes a driver
    that reports a negative length.  What it adds to the log has neither a
    link nor a binding in it. *)
Lemma init_shader_cases (sh : Z) (src : string)
    calls err queue objects derefs :
  exists (res : outcome bool) (added : list gl_call),
    shader.init_shader ext sh src (mkWorld calls err queue objects derefs)
      = (res, mkWorld (calls ++ added) err queue objects derefs) /\
    existsb is_link added = false /\
    existsb is_bind_location added = false /\
    program_deletions added = 0%nat /\
    ((res = Ok true /\ shader_deletions added = 0%nat) \/
     (res = Ok false /\ shader_deletions added = 1%nat) \/
     (res = Throw std_length_error /\ shader_deletions added = 0%nat /\
      ~ log_lengths_not_negative ext)).
Proof.
  unfold shader.init_shader.
  destruct (to_int32
              (gl_answer ext
                 (((calls ++ [glShaderSource sh 1 src]) ++
                   [glCompileShader sh]) ++
                  [glGetShaderiv sh GL_COMPILE_STATUS])) =? 0) eqn:Hstatus.
  - destruct (Z_lt_le_dec
                (to_int32
                   (gl_answer ext
                      ((((calls ++ [glShaderSource sh 1 src]) ++
                         [glCompileShader sh]) ++
                        [glGetShaderiv sh GL_COMPILE_STATUS]) ++
                       [glGetShaderiv sh GL_INFO_LOG_LENGTH]))) 0)
      as [Hneg | Hpos].
    + exists (Throw std_length_error). eexists. split.
      * do 3 step. rewrite Hstatus. step.
        apply bind_throws. rewrite (std_vector_char_throws _ _ Hneg).
        repeat rewrite <- app_assoc. reflexivity.
      * repeat split; try reflexivity.
        right. right. repeat split; try reflexivity.
        intros Hok. destruct (Hok
                                (((calls ++ [glShaderSource sh 1 src]) ++
                                  [glCompileShader sh]) ++
                                 [glGetShaderiv sh GL_COMPILE_STATUS]) sh)
          as [Hlen _].
        lia.
    + exists (Ok false). eexists. split.
      * do 3 step. rewrite Hstatus. step.
        eapply bind_runs; [apply (std_vector_char_runs _ _ Hpos)|cbv beta].
        do 2 step. unfold ret. repeat rewrite <- app_assoc. reflexivity.
      * repeat split; try reflexivity. right. left. split; reflexivity.
  - exists (Ok true). eexists. split.
    + do 3 step. rewrite Hstatus.
      unfold ret. repeat rewrite <- app_assoc. reflexivity.
    + repeat split; try reflexivity. left. split; reflexivity.
Qed.


End Shader.

(** C3, on the code.  The driver rejects the vertex shader.  Whether the
    link then fails or not, the constructor returns a shader object and no
    error, and the logs it asked the driver for are nowhere in what it
    returns or prints: [std::cerr] gets fixed messages and, after a failed
    link, the length of the link log.  After a failed link the program has
    been deleted and its name is still in the object; after a link that went
    through, the program is live.  Either way a draw with the object makes
    that name current and draws three vertices. *)
Theorem shader_of_rejected_source :
  shader.shader rejecting_driver "void main() {" "void main() {}"
      [(0, "a_position"%string); (1, "a_color"%string)] empty_world =
    (Ok (shader.mk 1 2 3),
     mkWorld
       [glCreateShader GL_VERTEX_SHADER;
        glShaderSource 1 1 "void main() {";
        glCompileShader 1;
        glGetShaderiv 1 GL_COMPILE_STATUS;
        glGetShaderiv 1 GL_INFO_LOG_LENGTH;
        glGetShaderInfoLog 1 25;
        glDeleteShader 1;
        glCreateShader GL_FRAGMENT_SHADER;
        glShaderSource 2 1 "void main() {}";
        glCompileShader 2;
        glGetShaderiv 2 GL_COMPILE_STATUS;
        glCreateProgram;
        glAttachShader 3 1;
        glAttachShader 3 2;
        glBindAttribLocation 3 0 "a_position";
        glBindAttribLocation 3 1 "a_color";
        glLinkProgram 3;
        glGetProgramiv 3 GL_LINK_STATUS;
        glGetProgramiv 3 GL_INFO_LOG_LENGTH;
        glGetProgramInfoLog 3 31;
        glDeleteProgram 3]
       [Str "error: Failed to create vertex shader ( engine.cxx:  )"; Endl;
        Str "error: Failed to link program ( engine.cxx:  )"; Int 31; Endl]
       [] [] []) /\
  shader.shader linking_driver "void main() {" "void main() {}"
      [(0, "a_position"%string); (1, "a_color"%string)] empty_world =
    (Ok (shader.mk 1 2 3),
     mkWorld
       [glCreateShader GL_VERTEX_SHADER;
        glShaderSource 1 1 "void main() {";
        glCompileShader 1;
        glGetShaderiv 1 GL_COMPILE_STATUS;
        glGetShaderiv 1 GL_INFO_LOG_LENGTH;
        glGetShaderInfoLog 1 25;
        glDeleteShader 1;
        glCreateShader GL_FRAGMENT_SHADER;
        glShaderSource 2 1 "void main() {}";
        glCompileShader 2;
        glGetShaderiv 2 GL_COMPILE_STATUS;
        glCreateProgram;
        glAttachShader 3 1;
        glAttachShader 3 2;
        glBindAttribLocation 3 0 "a_position";
        glBindAttribLocation 3 1 "a_color";
        glLinkProgram 3;
        glGetProgramiv 3 GL_LINK_STATUS]
       [Str "error: Failed to create vertex shader ( engine.cxx:  )"; Endl]
       [] [] []) /\
  exists calls,
    engine_impl.render
        (engine_impl.mk 800 600 1 [shader.mk 1 2 3; shader.mk 1 2 3] 1)
        [sample_triangle] empty_world
      = (Ok tt, after_draw empty_world calls) /\
    In (glUseProgram 3) calls /\
    In (glDrawArrays GL_TRIANGLES 0 3) calls.
Proof.
  split; [vm_compute; reflexivity|].
  split; [vm_compute; reflexivity|].
  eexists. split; [apply (render_runs _ (shader.mk 1 2 3)); reflexivity|].
  split; [left; reflexivity | do 7 right; left; reflexivity].
Qed.

(* ================================================================== *)
(** ** Textures *)

(** C9.  For every path, driver and decoder, [create_texture] returns a
    pointer that is not null, to a cell of the heap that was not allocated
    before the call, and raises nothing.  Whatever the decoder did, a texture
    name has been generated, bound and configured before the decoder ran, and
    the object wraps that name with the width and height the call of the
    decoder left in the two locals, narrowed to 16 bits.  When the decoder
    returns a null buffer, nothing more is sent to the driver and one line
    goes to [std::cerr]. *)
Theorem create_texture_always_returns_a_texture :
  forall (ext : externals) (path : string) (w : world),
  exists (w' : world) (handle : Z) (upload : list gl_call),
    engine_impl.create_texture ext path w
      = (Ok (addr (List.length (heap w))), w') /\
    handle = to_uint32 (gl_answer ext (gl_calls w ++ [glGenTextures 1])) /\
    nth_error (heap w) (List.length (heap w)) = None /\
    heap w' =
      heap w ++
      [mk_texture_impl
         (to_uint16
            (to_int32 (stbi_x (engine_impl.stbi_load_call ext path))))
         (to_uint16
            (to_int32 (stbi_y (engine_impl.stbi_load_call ext path))))
         handle] /\
    gl_calls w' =
      gl_calls w ++
      [glGenTextures 1;
       glBindTexture GL_TEXTURE_2D handle;
       glTexParameteri GL_TEXTURE_2D GL_TEXTURE_WRAP_S GL_REPEAT;
       glTexParameteri GL_TEXTURE_2D GL_TEXTURE_WRAP_T GL_REPEAT;
       glTexParameteri GL_TEXTURE_2D GL_TEXTURE_MIN_FILTER GL_LINEAR;
       glTexParameteri GL_TEXTURE_2D GL_TEXTURE_MAG_FILTER GL_LINEAR] ++
      upload /\
    (stbi_data (engine_impl.stbi_load_call ext path) = None ->
       upload = [] /\
       cerr w' =
         cerr w ++
         [Str "error: Failed to load texture ( engine.cxx: )"; Endl]).
Proof.
  intros ext path [calls err queue objects derefs].
  unfold engine_impl.create_texture. cbv zeta.
  destruct (stbi_data (engine_impl.stbi_load_call ext path)) as [pixels|]
    eqn:Hdata.
  - do 3 eexists. split; [|split; [reflexivity|]].
    + do 6 step. eapply bind_runs; [do 1 step; apply gl_runs|cbv beta].
      step. reflexivity.
    + cbn [heap gl_calls cerr].
      split; [apply nth_error_None; apply Nat.le_refl|].
      split; [reflexivity|].
      split; [|discriminate].
      repeat rewrite <- app_assoc. cbn [app]. reflexivity.
  - do 2 eexists. exists []. split; [|split; [reflexivity|]].
    + do 7 step. step. reflexivity.
    + cbn [heap gl_calls cerr].
      split; [apply nth_error_None; apply Nat.le_refl|].
      split; [reflexivity|].
      split; [|intros _; split; reflexivity].
      repeat rewrite <- app_assoc. cbn [app]. reflexivity.
Qed.

Lemma create_texture_always_returns_a_texture_witness :
  stbi_data (engine_impl.stbi_load_call missing_file "res/missing.png")
    = None /\
  exists w' : world,
    engine_impl.create_texture missing_file "res/missing.png" empty_world
      = (Ok (addr 0), w') /\
    cerr w' = [Str "error: Failed to load texture ( engine.cxx: )"; Endl].
Proof.
  split; [reflexivity|].
  destruct (create_texture_always_returns_a_texture missing_file
              "res/missing.png" empty_world)
    as (w' & handle & upload & Hrun & _ & _ & _ & _ & Hfail).
  exists w'. split; [exact Hrun|]. apply Hfail. reflexivity.
Defined.

(** C2, on the code.  The file is missing and the decoder hands back a null
    buffer.  By then the texture name has been generated, bound and
    configured; the failure goes to [std::cerr] and nowhere else; and the
    call returns a texture object around that name, 640 by 480, the values
    the two uninitialised locals happened to hold.  No mipmap is generated. *)
Theorem create_texture_of_missing_file :
  stbi_data (engine_impl.stbi_load_call missing_file "res/missing.png")
    = None /\
  engine_impl.create_texture missing_file "res/missing.png" empty_world =
    (Ok (addr 0),
     mkWorld
       [glGenTextures 1;
        glBindTexture GL_TEXTURE_2D 7;
        glTexParameteri GL_TEXTURE_2D GL_TEXTURE_WRAP_S GL_REPEAT;
        glTexParameteri GL_TEXTURE_2D GL_TEXTURE_WRAP_T GL_REPEAT;
        glTexParameteri GL_TEXTURE_2D GL_TEXTURE_MIN_FILTER GL_LINEAR;
        glTexParameteri GL_TEXTURE_2D GL_TEXTURE_MAG_FILTER GL_LINEAR]
       [Str "error: Failed to load texture ( engine.cxx: )"; Endl]
       []
       [mk_texture_impl 640 480 7]
       []).
Proof. split; vm_compute; reflexivity. Qed.

(* ================================================================== *)
(** ** More on the draw paths *)

Section MoreOnDraws.
Import uchiha.

Lemma at_out_of_range {A} (l : list A) (n : nat) (w : world) :
  (List.length l <= n)%nat ->
  engine_impl.at_ l n w = (Throw std_out_of_range, w).
Proof.
  intros Hlen. unfold engine_impl.at_.
  apply nth_error_None in Hlen. rewrite Hlen. reflexivity.
Qed.

(** X1.  A draw on an engine object that holds no program raises
    [std::out_of_range] from [shaders.at] before anything else happens: no
    command is issued and nothing is touched.  The textured path does so as
    soon as fewer than two programs are held. *)
Theorem draw_without_programs_throws :
  forall (ext : externals) (this : engine_impl.t)
         (vertex_buffer : list triangle) (tex : texture_impl) (w : world),
    (List.length (engine_impl.shaders this) < 2)%nat ->
    engine_impl.render_textured ext this vertex_buffer tex w
      = (Throw std_out_of_range, w) /\
    (engine_impl.shaders this = [] ->
     engine_impl.render this vertex_buffer w = (Throw std_out_of_range, w)).
Proof.
  intros ext this vb tex w Hshort. split.
  - unfold engine_impl.render_textured.
    apply bind_throws, at_out_of_range. lia.
  - intros Hnone. unfold engine_impl.render.
    apply bind_throws, at_out_of_range. rewrite Hnone. cbn. lia.
Qed.

Lemma draw_without_programs_throws_witness :
  (List.length (engine_impl.shaders no_programs) < 2)%nat /\
  engine_impl.shaders no_programs = [] /\
  engine_impl.render no_programs [sample_triangle] empty_world
    = (Throw std_out_of_range, empty_world).
Proof.
  split; [cbn; lia|]. split; [reflexivity|].
  apply (draw_without_programs_throws sample_externals no_programs
           [sample_triangle] sample_texture empty_world);
    [cbn; lia | reflexivity].
Defined.

Lemma num_of_vertexes_exact (vertex_buffer : list triangle) :
  sizeof_triangle * engine_impl.size vertex_buffer < 2 ^ 32 ->
  engine_impl.num_of_vertexes vertex_buffer
    = 3 * engine_impl.size vertex_buffer.
Proof.
  intros Hsmall. unfold engine_impl.num_of_vertexes, to_int32, to_size_t.
  change sizeof_triangle with 108 in Hsmall.
  assert (0 <= engine_impl.size vertex_buffer)
    by (unfold engine_impl.size; lia).
  rewrite (Z.mod_small (engine_impl.size vertex_buffer * 3)) by lia.
  rewrite Z.mod_small by lia. lia.
Qed.

Lemma copied_length (vertex_buffer : list triangle) :
  Z.of_nat
    (List.length
       (engine_impl.copied (engine_impl.storage vertex_buffer) 0
          (engine_impl.data_size_in_bytes vertex_buffer)))
    = engine_impl.data_size_in_bytes vertex_buffer.
Proof.
  pose proof (data_size_within_storage vertex_buffer) as Hin.
  unfold engine_impl.copied. change (Z.to_nat 0) with 0%nat. cbn [skipn].
  rewrite length_firstn. lia.
Qed.

(** X2.  On an engine that holds its two programs, as long as the 108 N
    bytes of a sequence of N triangles stay below 2^32, each draw path
    issues one [glDrawArrays], for 3 N vertices, and two buffer uploads,
    each with a size argument of 36 bytes for every one of these vertices
    and with exactly that many bytes of client data: the draw reads what was
    uploaded and nothing beyond. *)
Theorem draw_count_matches_upload :
  forall (ext : externals) (this : engine_impl.t) (s0 s1 : shader.t)
         (vertex_buffer : list triangle) (tex : texture_impl) (w : world),
    nth_error (engine_impl.shaders this) 0 = Some s0 ->
    nth_error (engine_impl.shaders this) 1 = Some s1 ->
    sizeof_triangle * engine_impl.size vertex_buffer < 2 ^ 32 ->
    (exists added : list gl_call,
        engine_impl.render this vertex_buffer w
          = (Ok tt, after_draw w added) /\
        draw_counts added = [3 * engine_impl.size vertex_buffer] /\
        upload_sizes added =
          [sizeof_vertex * (3 * engine_impl.size vertex_buffer);
           sizeof_vertex * (3 * engine_impl.size vertex_buffer)] /\
        map (fun data => Z.of_nat (List.length data)) (uploads added) =
          [sizeof_vertex * (3 * engine_impl.size vertex_buffer);
           sizeof_vertex * (3 * engine_impl.size vertex_buffer)]) /\
    (exists added : list gl_call,
        engine_impl.render_textured ext this vertex_buffer tex w
          = (Ok tt, after_draw w added) /\
        draw_counts added = [3 * engine_impl.size vertex_buffer] /\
        upload_sizes added =
          [sizeof_vertex * (3 * engine_impl.size vertex_buffer);
           sizeof_vertex * (3 * engine_impl.size vertex_buffer)] /\
        map (fun data => Z.of_nat (List.length data)) (uploads added) =
          [sizeof_vertex * (3 * engine_impl.size vertex_buffer);
           sizeof_vertex * (3 * engine_impl.size vertex_buffer)]).
Proof.
  intros ext this s0 s1 vb tex w H0 H1 Hsmall.
  assert (Hsize : engine_impl.data_size_in_bytes vb
                  = sizeof_vertex * (3 * engine_impl.size vb)).
  { rewrite (data_size_exact vb Hsmall).
    change sizeof_triangle with 108. change sizeof_vertex with 36. lia. }
  split.
  - eexists. split; [apply (render_runs this s0 vb w H0)|].
    cbn [draw_counts upload_sizes uploads flat_map app map].
    rewrite (copied_length vb), (num_of_vertexes_exact vb Hsmall), Hsize.
    repeat split; reflexivity.
  - eexists. split; [apply (render_textured_runs ext this s1 vb tex w H1)|].
    cbn [draw_counts upload_sizes uploads flat_map app map].
    rewrite (copied_length vb), (num_of_vertexes_exact vb Hsmall), Hsize.
    repeat split; reflexivity.
Qed.

Lemma draw_count_matches_upload_witness :
  nth_error (engine_impl.shaders sample_engine) 0 = Some (shader.mk 1 2 3) /\
  nth_error (engine_impl.shaders sample_engine) 1 = Some (shader.mk 4 5 6) /\
  sizeof_triangle * engine_impl.size [sample_triangle; sample_triangle]
    < 2 ^ 32 /\
  exists added : list gl_call,
    engine_impl.render sample_engine [sample_triangle; sample_triangle]
        empty_world
      = (Ok tt, after_draw empty_world added) /\
    draw_counts added = [6] /\
    upload_sizes added = [216; 216].
Proof.
  split; [reflexivity|]. split; [reflexivity|]. split; [reflexivity|].
  destruct (draw_count_matches_upload sample_externals sample_engine
              (shader.mk 1 2 3) (shader.mk 4 5 6)
              [sample_triangle; sample_triangle] sample_texture empty_world
              eq_refl eq_refl eq_refl)
    as ((added & Hrun & Hdraws & Hsizes & _) & _).
  exists added. split; [exact Hrun|]. split; [exact Hdraws | exact Hsizes].
Defined.

Lemma slot_enabled_app (log added : list gl_call) (i : Z) :
  slot_enabled (log ++ added) i =
    fold_left
      (fun enabled c =>
         match c with
         | glEnableVertexAttribArray j => if j =? i then true else enabled
         | glDisableVertexAttribArray j => if j =? i then false else enabled
         | _ => enabled
         end)
      added (slot_enabled log i).
Proof. unfold slot_enabled. apply fold_left_app. Qed.

(** X3.  Whatever slots were enabled before, a draw leaves the slots it
    used disabled and every other slot as it found it: slots 0 and 1 for the
    untextured path, slots 0, 1 and 2 for the textured path.  The untextured
    path does not touch slot 2. *)
Theorem draw_leaves_its_slots_disabled :
  forall (ext : externals) (this : engine_impl.t) (s0 s1 : shader.t)
         (vertex_buffer : list triangle) (tex : texture_impl) (w : world),
    nth_error (engine_impl.shaders this) 0 = Some s0 ->
    nth_error (engine_impl.shaders this) 1 = Some s1 ->
    (exists w',
        engine_impl.render this vertex_buffer w = (Ok tt, w') /\
        forall i : Z,
          slot_enabled (gl_calls w') i =
            if (i =? 0) || (i =? 1) then false
            else slot_enabled (gl_calls w) i) /\
    (exists w',
        engine_impl.render_textured ext this vertex_buffer tex w
          = (Ok tt, w') /\
        forall i : Z,
          slot_enabled (gl_calls w') i =
            if (i =? 0) || (i =? 1) || (i =? 2) then false
            else slot_enabled (gl_calls w) i).
Proof.
  intros ext this s0 s1 vb tex w H0 H1. split.
  - eexists. split; [apply (render_runs this s0 vb w H0)|].
    intros i. unfold after_draw. cbn [gl_calls].
    rewrite slot_enabled_app. cbn [fold_left].
    rewrite !(Z.eqb_sym _ i).
    destruct (i =? 0), (i =? 1); reflexivity.
  - eexists. split; [apply (render_textured_runs ext this s1 vb tex w H1)|].
    intros i. unfold after_draw. cbn [gl_calls].
    rewrite slot_enabled_app. cbn [fold_left].
    rewrite !(Z.eqb_sym _ i).
    destruct (i =? 0), (i =? 1), (i =? 2); reflexivity.
Qed.

Lemma draw_leaves_its_slots_disabled_witness :
  nth_error (engine_impl.shaders sample_engine) 0 = Some (shader.mk 1 2 3) /\
  nth_error (engine_impl.shaders sample_engine) 1 = Some (shader.mk 4 5 6) /\
  exists w',
    engine_impl.render sample_engine [sample_triangle]
        (with_gl_calls empty_world
           [glEnableVertexAttribArray 0; glEnableVertexAttribArray 2])
      = (Ok tt, w') /\
    slot_enabled (gl_calls w') 0 = false /\
    slot_enabled (gl_calls w') 2 = true.
Proof.
  split; [reflexivity|]. split; [reflexivity|].
  destruct (draw_leaves_its_slots_disabled sample_externals sample_engine
              (shader.mk 1 2 3) (shader.mk 4 5 6) [sample_triangle]
              sample_texture
              (with_gl_calls empty_world
                 [glEnableVertexAttribArray 0; glEnableVertexAttribArray 2])
              eq_refl eq_refl)
    as ((w' & Hrun & Hslots) & _).
  exists w'. split; [exact Hrun|].
  split; [exact (Hslots 0) | exact (Hslots 2)].
Defined.

End MoreOnDraws.

(* ================================================================== *)
(** ** Pointer events, textures, shader programs *)

Section MoreOnInput.
Import uchiha.

(** X4.  What the three kinds of event without a key deliver.  A quit
    request sets the type and nothing else.  A pointer motion and a button
    release set the type and copy the two coordinates, and leave the key as
    it was.  A key event, in turn, leaves the two coordinates as they were,
    so after a key event they are those of the last pointer event. *)
Theorem read_input_fields_written :
  forall (e : SDL_Event) (q : list SDL_Event) (ev : event) (w : world),
    sdl_queue w = e :: q ->
    (SDL.type e = SDL_QUIT ->
     engine_impl.read_input ev w
       = (Ok (true, mkEvent quit (key ev) (mouse_x ev) (mouse_y ev)),
          with_sdl_queue w q)) /\
    (SDL.type e = SDL_MOUSEMOTION ->
     engine_impl.read_input ev w
       = (Ok (true, mkEvent mouse_motion (key ev) (motion_x e) (motion_y e)),
          with_sdl_queue w q)) /\
    (SDL.type e = SDL_MOUSEBUTTONUP ->
     engine_impl.read_input ev w
       = (Ok (true, mkEvent mouse_click (key ev) (motion_x e) (motion_y e)),
          with_sdl_queue w q)) /\
    (SDL.type e = SDL_KEYDOWN \/ SDL.type e = SDL_KEYUP ->
     exists ev' : event,
       engine_impl.read_input ev w = (Ok (true, ev'), with_sdl_queue w q) /\
       mouse_x ev' = mouse_x ev /\ mouse_y ev' = mouse_y ev).
Proof.
  intros [ty sym mx my] q ev w Hq. cbn [SDL.type motion_x motion_y].
  unfold engine_impl.read_input, bind, SDL_PollEvent. rewrite Hq.
  cbn [SDL.type key_keysym_sym motion_x motion_y].
  repeat split.
  - intros ->. reflexivity.
  - intros ->. reflexivity.
  - intros ->. reflexivity.
  - intros Hkey.
    assert (Hsel : (ty =? SDL_QUIT) = false /\
                   (ty =? SDL_MOUSEMOTION) = false /\
                   (ty =? SDL_MOUSEBUTTONUP) = false /\
                   (ty =? SDL_KEYDOWN) || (ty =? SDL_KEYUP) = true).
    { destruct Hkey; subst ty; repeat split; reflexivity. }
    destruct Hsel as (-> & -> & -> & ->).
    eexists. split; [reflexivity|].
    split;
      repeat match goal with
             | |- context [if ?c then _ else _] => destruct c
             end;
      reflexivity.
Qed.

Lemma read_input_fields_written_witness :
  sdl_queue (world_with_queue [pointer_moved; button_up])
    = pointer_moved :: [button_up] /\
  engine_impl.read_input blank_event
      (world_with_queue [pointer_moved; button_up])
    = (Ok (true, mkEvent mouse_motion undefined_key 10 20),
       world_with_queue [button_up]).
Proof.
  split; [reflexivity|].
  apply (read_input_fields_written pointer_moved [button_up] blank_event
           (world_with_queue [pointer_moved; button_up]) eq_refl).
  reflexivity.
Defined.

End MoreOnInput.

Section MoreOnTextures.

(** narrowing an [int] to [uint16_t] keeps the value modulo 2^16 *)
Lemma to_uint16_of_int (n : Z) : to_uint16 (to_int32 n) = n mod 2 ^ 16.
Proof.
  unfold to_uint16, to_int32.
  rewrite (Z.mod_eq (n + 2 ^ 31) (2 ^ 32)) by lia.
  replace (n + 2 ^ 31 - 2 ^ 32 * ((n + 2 ^ 31) / 2 ^ 32) - 2 ^ 31)
    with (n + (- (2 ^ 16 * ((n + 2 ^ 31) / 2 ^ 32))) * 2 ^ 16) by lia.
  apply Z_mod_plus_full.
Qed.

(** [create_texture] step by step, on a world given by its components *)
Lemma create_texture_runs (ext : externals) (path : string)
    calls err queue objects derefs :
  let loaded := engine_impl.stbi_load_call ext path in
  let handle := to_uint32 (gl_answer ext (calls ++ [glGenTextures 1])) in
  let width := to_int32 (stbi_x loaded) in
  let height := to_int32 (stbi_y loaded) in
  engine_impl.create_texture ext path
      (mkWorld calls err queue objects derefs) =
    (Ok (addr (List.length objects)),
     mkWorld
       (calls ++
        [glGenTextures 1;
         glBindTexture GL_TEXTURE_2D handle;
         glTexParameteri GL_TEXTURE_2D GL_TEXTURE_WRAP_S GL_REPEAT;
         glTexParameteri GL_TEXTURE_2D GL_TEXTURE_WRAP_T GL_REPEAT;
         glTexParameteri GL_TEXTURE_2D GL_TEXTURE_MIN_FILTER GL_LINEAR;
         glTexParameteri GL_TEXTURE_2D GL_TEXTURE_MAG_FILTER GL_LINEAR] ++
        match stbi_data loaded with
        | Some pixels =>
            [glTexImage2D GL_TEXTURE_2D 0 GL_RGBA width height 0 GL_RGBA
               GL_UNSIGNED_BYTE
               (engine_impl.read_from pixels (stbi_after loaded)
                  (engine_impl.rgba_image_size width height));
             glGenerateMipmap GL_TEXTURE_2D]
        | None => []
        end)
       (err ++
        match stbi_data loaded with
        | Some _ => []
        | None =>
            [Str "error: Failed to load texture ( engine.cxx: )"; Endl]
        end)
       queue
       (objects ++ [mk_texture_impl (to_uint16 width) (to_uint16 height) handle])
       derefs).
Proof.
  cbv zeta. unfold engine_impl.create_texture. cbv zeta.
  destruct (stbi_data (engine_impl.stbi_load_call ext path)) as [pixels|];
    cbv iota.
  - do 6 step. eapply bind_runs; [step; apply gl_runs|cbv beta].
    step. unfold ret, new_texture_impl.
    repeat rewrite <- app_assoc. cbn [app]. rewrite ?app_nil_r. reflexivity.
  - do 7 step. step. unfold ret, new_texture_impl.
    repeat rewrite <- app_assoc. cbn [app]. rewrite ?app_nil_r. reflexivity.
Qed.






(** X6.  The texture object keeps the width and height the decoder left,
    modulo 65536: exactly, when they are below 65536, and cut down
    otherwise, so that an image 65536 pixels wide gives a texture of
    width 0. *)
Theorem texture_size_is_decoded_size_mod_65536 :
  forall (ext : externals) (path : string) (w : world),
    exists (w' : world) (t : texture_impl),
      engine_impl.create_texture ext path w
        = (Ok (addr (List.length (heap w))), w') /\
      nth_error (heap w') (List.length (heap w)) = Some t /\
      get_width t
        = stbi_x (engine_impl.stbi_load_call ext path) mod 65536 /\
      get_height t
        = stbi_y (engine_impl.stbi_load_call ext path) mod 65536 /\
      (0 <= stbi_x (engine_impl.stbi_load_call ext path) < 65536 ->
       get_width t = stbi_x (engine_impl.stbi_load_call ext path)) /\
      (0 <= stbi_y (engine_impl.stbi_load_call ext path) < 65536 ->
       get_height t = stbi_y (engine_impl.stbi_load_call ext path)).
Proof.
  intros ext path [calls err queue objects derefs].
  do 2 eexists. split; [apply create_texture_runs|].
  cbn [heap]. split.
  - rewrite nth_error_app2 by apply Nat.le_refl.
    rewrite Nat.sub_diag. reflexivity.
  - unfold get_width, get_height. cbn [texture_width texture_height].
    rewrite !to_uint16_of_int. change (2 ^ 16) with 65536.
    repeat split; try reflexivity; intros Hrange;
      apply Z.mod_small; exact Hrange.
Qed.

Lemma texture_size_is_decoded_size_mod_65536_witness :
  0 <= stbi_x (engine_impl.stbi_load_call two_pixels "res/two.png")
    < 65536 /\
  exists (w' : world) (t : texture_impl),
    engine_impl.create_texture two_pixels "res/two.png" empty_world
      = (Ok (addr 0), w') /\
    get_width t = 2.
Proof.
  split; [cbn; lia|].
  destruct (texture_size_is_decoded_size_mod_65536 two_pixels "res/two.png"
              empty_world)
    as (w' & t & Hrun & _ & _ & _ & Hw & _).
  exists w', t. split; [exact Hrun|]. apply Hw. cbn. lia.
Defined.

(** X7.  Two calls of [create_texture] give two different pointers, and
    the object behind the first is still there, unchanged, after the
    second. *)
Theorem create_texture_twice_gives_two_objects :
  forall (ext : externals) (path1 path2 : string) (w : world),
    exists (w1 w2 : world) (t1 t2 : texture_impl),
      engine_impl.create_texture ext path1 w
        = (Ok (addr (List.length (heap w))), w1) /\
      engine_impl.create_texture ext path2 w1
        = (Ok (addr (S (List.length (heap w)))), w2) /\
      heap w1 = heap w ++ [t1] /\
      heap w2 = heap w ++ [t1; t2].
Proof.
  intros ext path1 path2 [calls err queue objects derefs].
  do 4 eexists.
  split; [apply create_texture_runs|].
  split.
  - rewrite create_texture_runs. rewrite length_app. cbn [List.length].
    rewrite Nat.add_1_r. reflexivity.
  - cbn [heap]. split; [reflexivity|].
    rewrite <- app_assoc. reflexivity.
Qed.

End MoreOnTextures.

Section MoreOnShaders.
Variable ext : externals.

Lemma reports_app (text : string) (l1 l2 : list cerr_item) :
  reports text (l1 ++ l2) = (reports text l1 + reports text l2)%nat.
Proof. unfold reports. rewrite filter_app, length_app. reflexivity. Qed.

Lemma bindings_delete_nothing (p : Z) (attributes : list (Z * string)) :
  shader_deletions
    (map (fun attr => glBindAttribLocation p (fst attr) (snd attr)) attributes)
    = 0%nat /\
  program_deletions
    (map (fun attr => glBindAttribLocation p (fst attr) (snd attr)) attributes)
    = 0%nat.
Proof.
  unfold shader_deletions, program_deletions.
  induction attributes as [|a l [IH1 IH2]]; [split; reflexivity|].
  cbn [map filter]. split; assumption.
Qed.

Lemma ret_runs {A} (a : A) (w : world) : ret a w = (Ok a, w).
Proof. reflexivity. Qed.

Lemma when_false_runs (m : M unit) (w : world) :
  when false m w = (Ok tt, w).
Proof. reflexivity. Qed.

(** the constructor from its first command to the query of the link
    status, given the two runs of [init_shader] *)
Ltac constructor_prefix H1 H2 :=
  eapply bind_runs; [apply gl_uint_runs|cbv beta];
  eapply bind_runs; [exact H1|cbv beta];
  eapply bind_runs; [apply when_cerr_runs|cbv beta];
  eapply bind_runs; [apply gl_uint_runs|cbv beta];
  eapply bind_runs; [exact H2|cbv beta];
  eapply bind_runs; [apply when_cerr_runs|cbv beta];
  eapply bind_runs; [apply gl_uint_runs|cbv beta];
  eapply bind_runs; [apply when_cerr_runs|cbv beta];
  eapply bind_runs; [apply gl_runs|cbv beta];
  eapply bind_runs; [apply gl_runs|cbv beta];
  eapply bind_runs; [apply for_each_gl_runs|cbv beta];
  eapply bind_runs; [apply gl_runs|cbv beta];
  eapply bind_runs; [apply gl_int_runs|cbv beta].

(** The constructor on a world given by its components.  It returns, or it
    leaves by [std::length_error], which takes a driver that reports a
    negative length; and what it has deleted by then matches what it has
    reported. *)
Lemma shader_outcome (vsrc fsrc : string) (attrs : list (Z * string))
    calls err queue objects derefs :
  exists (res : outcome shader.t) (added : list gl_call)
         (printed : list cerr_item),
    shader.shader ext vsrc fsrc attrs
        (mkWorld calls err queue objects derefs)
      = (res, mkWorld (calls ++ added) (err ++ printed) queue objects derefs) /\
    shader_deletions added =
      (reports "error: Failed to create vertex shader ( engine.cxx:  )"
         printed +
       reports "error: Failed to create fragment shader ( engine.cxx:  )"
         printed)%nat /\
    program_deletions added =
      reports "error: Failed to link program ( engine.cxx:  )" printed /\
    ((exists sh, res = Ok sh) \/
     (res = Throw std_length_error /\ ~ log_lengths_not_negative ext)).
Proof.
  pose (calls0 := calls ++ [glCreateShader GL_VERTEX_SHADER]).
  pose (v := to_uint32 (gl_answer ext calls0)).
  destruct (init_shader_cases ext v vsrc calls0 err queue objects derefs)
    as (res1 & added1 & H1 & _ & _ & Hp1 & Hc1).
  assert (Hres1 :
            (exists ok1,
                res1 = Ok ok1 /\
                shader_deletions added1 = (if ok1 then 0 else 1)%nat) \/
            (res1 = Throw std_length_error /\
             shader_deletions added1 = 0%nat /\
             ~ log_lengths_not_negative ext)).
  { destruct Hc1 as [(-> & Hs) | [(-> & Hs) | Hc1]]; eauto. }
  clear Hc1. destruct Hres1 as [(ok1 & -> & Hs1) | (-> & Hs1 & Hbad)].
  2:{ exists (Throw std_length_error),
        ([glCreateShader GL_VERTEX_SHADER] ++ added1), [].
      split; [|split; [|split]].
      - unfold shader.shader.
        eapply bind_runs; [apply gl_uint_runs|cbv beta].
        apply bind_throws. fold calls0 v. rewrite H1.
        subst calls0. rewrite <- app_assoc, app_nil_r. reflexivity.
      - rewrite shader_deletions_app, Hs1. reflexivity.
      - rewrite program_deletions_app, Hp1. reflexivity.
      - right. split; [reflexivity|exact Hbad]. }
  pose (printed1 :=
          if negb ok1
          then [Str "error: Failed to create vertex shader ( engine.cxx:  )";
                Endl]
          else []).
  pose (calls1 := (calls0 ++ added1) ++ [glCreateShader GL_FRAGMENT_SHADER]).
  pose (f := to_uint32 (gl_answer ext calls1)).
  destruct (init_shader_cases ext f fsrc calls1 (err ++ printed1) queue
              objects derefs)
    as (res2 & added2 & H2 & _ & _ & Hp2 & Hc2).
  assert (Hres2 :
            (exists ok2,
                res2 = Ok ok2 /\
                shader_deletions added2 = (if ok2 then 0 else 1)%nat) \/
            (res2 = Throw std_length_error /\
             shader_deletions added2 = 0%nat /\
             ~ log_lengths_not_negative ext)).
  { destruct Hc2 as [(-> & Hs) | [(-> & Hs) | Hc2]]; eauto. }
  clear Hc2. destruct Hres2 as [(ok2 & -> & Hs2) | (-> & Hs2 & Hbad)].
  2:{ exists (Throw std_length_error),
        ([glCreateShader GL_VERTEX_SHADER] ++ added1 ++
         [glCreateShader GL_FRAGMENT_SHADER] ++ added2), printed1.
      split; [|split; [|split]].
      - unfold shader.shader.
        eapply bind_runs; [apply gl_uint_runs|cbv beta].
        eapply bind_runs; [exact H1|cbv beta].
        eapply bind_runs; [apply when_cerr_runs|cbv beta].
        eapply bind_runs; [apply gl_uint_runs|cbv beta].
        apply bind_throws. fold calls0 v calls1 f. fold printed1.
        rewrite H2. subst calls1 calls0.
        repeat rewrite <- app_assoc. reflexivity.
      - rewrite !shader_deletions_app, Hs1, Hs2. subst printed1.
        destruct ok1; reflexivity.
      - rewrite !program_deletions_app, Hp1, Hp2. subst printed1.
        destruct ok1; reflexivity.
      - right. split; [reflexivity|exact Hbad]. }
  pose (printed2 :=
          if negb ok2
          then [Str "error: Failed to create fragment shader ( engine.cxx:  )";
                Endl]
          else []).
  pose (calls2 := (calls1 ++ added2) ++ [glCreateProgram]).
  pose (p := to_uint32 (gl_answer ext calls2)).
  pose (printed3 :=
          if p =? 0
          then [Str "error: Failed to create program ( engine.cxx:  )"; Endl]
          else []).
  pose (calls3 :=
          ((((calls2 ++ [glAttachShader p v]) ++ [glAttachShader p f]) ++
            map (fun attr => glBindAttribLocation p (fst attr) (snd attr))
              attrs) ++
           [glLinkProgram p]) ++
          [glGetProgramiv p GL_LINK_STATUS]).
  destruct (bindings_delete_nothing p attrs) as [Hbs Hbp].
  destruct (to_int32 (gl_answer ext calls3) =? 0) eqn:Hstatus.
  - pose (len :=
            to_int32
              (gl_answer ext
                 (calls3 ++ [glGetProgramiv p GL_INFO_LOG_LENGTH]))).
    destruct (Z_lt_le_dec len 0) as [Hneg | Hpos].
    + exists (Throw std_length_error),
             ([glCreateShader GL_VERTEX_SHADER] ++ added1 ++
              [glCreateShader GL_FRAGMENT_SHADER] ++ added2 ++
              [glCreateProgram; glAttachShader p v; glAttachShader p f] ++
              map (fun attr => glBindAttribLocation p (fst attr) (snd attr))
                attrs ++
              [glLinkProgram p; glGetProgramiv p GL_LINK_STATUS;
               glGetProgramiv p GL_INFO_LOG_LENGTH]),
             (printed1 ++ printed2 ++ printed3).
      split; [|split; [|split]].
      * unfold shader.shader. constructor_prefix H1 H2.
        fold calls0 v calls1 f calls2 p. fold calls3. rewrite Hstatus.
        apply bind_throws. unfold when.
        eapply bind_runs; [apply gl_int_runs|cbv beta].
        apply bind_throws. fold len.
        rewrite (std_vector_char_throws _ _ Hneg).
        f_equal. f_equal.
        -- subst calls3 calls2 calls1 calls0.
           repeat rewrite <- app_assoc. reflexivity.
        -- repeat rewrite <- app_assoc. reflexivity.
      * rewrite !shader_deletions_app, Hs1, Hs2, Hbs, !reports_app.
        subst printed1 printed2 printed3.
        destruct ok1, ok2, (p =? 0); reflexivity.
      * rewrite !program_deletions_app, Hp1, Hp2, Hbp, !reports_app.
        subst printed1 printed2 printed3.
        destruct ok1, ok2, (p =? 0); reflexivity.
      * right. split; [reflexivity|]. intros Hok.
        destruct (Hok calls3 p) as [_ Hlen]. fold len in Hlen. lia.
    + exists (Ok (shader.mk v f p)),
             ([glCreateShader GL_VERTEX_SHADER] ++ added1 ++
              [glCreateShader GL_FRAGMENT_SHADER] ++ added2 ++
              [glCreateProgram; glAttachShader p v; glAttachShader p f] ++
              map (fun attr => glBindAttribLocation p (fst attr) (snd attr))
                attrs ++
              [glLinkProgram p; glGetProgramiv p GL_LINK_STATUS;
               glGetProgramiv p GL_INFO_LOG_LENGTH;
               glGetProgramInfoLog p len; glDeleteProgram p]),
             (printed1 ++ printed2 ++ printed3 ++
              [Str "error: Failed to link program ( engine.cxx:  )"; Int len;
               Endl]).
      split; [|split; [|split]].
      * unfold shader.shader. constructor_prefix H1 H2.
        fold calls0 v calls1 f calls2 p. fold calls3. rewrite Hstatus.
        eapply bind_runs;
          [ unfold when;
            eapply bind_runs; [apply gl_int_runs|cbv beta];
            eapply bind_runs;
              [apply (std_vector_char_runs _ _ Hpos)|cbv beta];
            eapply bind_runs; [apply gl_runs|cbv beta];
            eapply bind_runs; [apply gl_runs|cbv beta];
            apply cerr_write_runs
          | cbv beta ].
        unfold ret. fold len.
        f_equal. f_equal.
        -- subst calls3 calls2 calls1 calls0.
           repeat rewrite <- app_assoc. reflexivity.
        -- repeat rewrite <- app_assoc. reflexivity.
      * rewrite !shader_deletions_app, Hs1, Hs2, Hbs, !reports_app.
        subst printed1 printed2 printed3.
        destruct ok1, ok2, (p =? 0); reflexivity.
      * rewrite !program_deletions_app, Hp1, Hp2, Hbp, !reports_app.
        subst printed1 printed2 printed3.
        destruct ok1, ok2, (p =? 0); reflexivity.
      * left. eexists. reflexivity.
  - exists (Ok (shader.mk v f p)),
           ([glCreateShader GL_VERTEX_SHADER] ++ added1 ++
            [glCreateShader GL_FRAGMENT_SHADER] ++ added2 ++
            [glCreateProgram; glAttachShader p v; glAttachShader p f] ++
            map (fun attr => glBindAttribLocation p (fst attr) (snd attr))
              attrs ++
            [glLinkProgram p; glGetProgramiv p GL_LINK_STATUS]),
           (printed1 ++ printed2 ++ printed3).
    split; [|split; [|split]].
    + unfold shader.shader. constructor_prefix H1 H2.
        fold calls0 v calls1 f calls2 p. fold calls3. rewrite Hstatus.
      eapply bind_runs; [apply when_false_runs|cbv beta].
      unfold ret.
      f_equal. f_equal.
      * subst calls3 calls2 calls1 calls0.
        repeat rewrite <- app_assoc. reflexivity.
      * repeat rewrite <- app_assoc. reflexivity.
    + rewrite !shader_deletions_app, Hs1, Hs2, Hbs, !reports_app.
      subst printed1 printed2 printed3.
      destruct ok1, ok2, (p =? 0); reflexivity.
    + rewrite !program_deletions_app, Hp1, Hp2, Hbp, !reports_app.
      subst printed1 printed2 printed3.
      destruct ok1, ok2, (p =? 0); reflexivity.
    + left. eexists. reflexivity.
Qed.


Lemma init_shader_accepted (sh : Z) (src : string)
    calls err queue objects derefs :
  (forall log, to_int32 (gl_answer ext log) <> 0) ->
  shader.init_shader ext sh src (mkWorld calls err queue objects derefs)
    = (Ok true,
       mkWorld
         (calls ++
          [glShaderSource sh 1 src; glCompileShader sh;
           glGetShaderiv sh GL_COMPILE_STATUS])
         err queue objects derefs).
Proof.
  intros Hok. unfold shader.init_shader. do 3 step.
  rewrite (proj2 (Z.eqb_neq _ 0) (Hok _)).
  unfold ret. repeat rewrite <- app_assoc. reflexivity.
Qed.

(** X9.  On a driver that never answers 0, neither as a status nor as a
    name, the constructor compiles each stage once, attaches the two shader
    objects it created to the program it created, binds the attribute
    locations, links once and asks for the link status; it deletes nothing
    and writes nothing to [std::cerr]. *)
Theorem shader_on_an_accepting_driver :
  forall (vertex_shader_src fragment_shader_src : string)
         (attributes : list (Z * string)) (w : world),
    (forall log, to_int32 (gl_answer ext log) <> 0) ->
    (forall log, to_uint32 (gl_answer ext log) <> 0) ->
    exists (v f p : Z) (w' : world),
      shader.shader ext vertex_shader_src fragment_shader_src attributes w
        = (Ok (shader.mk v f p), w') /\
      gl_calls w' =
        gl_calls w ++
        [glCreateShader GL_VERTEX_SHADER;
         glShaderSource v 1 vertex_shader_src;
         glCompileShader v;
         glGetShaderiv v GL_COMPILE_STATUS;
         glCreateShader GL_FRAGMENT_SHADER;
         glShaderSource f 1 fragment_shader_src;
         glCompileShader f;
         glGetShaderiv f GL_COMPILE_STATUS;
         glCreateProgram;
         glAttachShader p v;
         glAttachShader p f] ++
        map (fun attr => glBindAttribLocation p (fst attr) (snd attr))
          attributes ++
        [glLinkProgram p; glGetProgramiv p GL_LINK_STATUS] /\
      cerr w' = cerr w.
Proof.
  intros vsrc fsrc attrs [calls err queue objects derefs] Hint Huint.
  do 4 eexists. split.
  - unfold shader.shader. step.
    eapply bind_runs; [apply init_shader_accepted, Hint|cbv beta].
    eapply bind_runs; [apply when_false_runs|cbv beta]. step.
    eapply bind_runs; [apply init_shader_accepted, Hint|cbv beta].
    eapply bind_runs; [apply when_false_runs|cbv beta]. step.
    rewrite (proj2 (Z.eqb_neq _ 0) (Huint _)).
    eapply bind_runs; [apply when_false_runs|cbv beta]. do 5 step.
    rewrite (proj2 (Z.eqb_neq _ 0) (Hint _)).
    eapply bind_runs; [apply when_false_runs|]. apply ret_runs.
  - cbn [gl_calls cerr]. split; [|reflexivity].
    repeat rewrite <- app_assoc. cbn [app]. reflexivity.
Qed.

End MoreOnShaders.

Lemma shader_on_an_accepting_driver_witness :
  (forall log, to_int32 (gl_answer sample_externals log) <> 0) /\
  (forall log, to_uint32 (gl_answer sample_externals log) <> 0) /\
  exists (v f p : Z) (w' : world),
    shader.shader sample_externals "void main() {}" "void main() {}"
        [(0, "a_position"%string)] empty_world
      = (Ok (shader.mk v f p), w') /\
    cerr w' = [].
Proof.
  split; [intros log; discriminate|]. split; [intros log; discriminate|].
  destruct (shader_on_an_accepting_driver sample_externals "void main() {}"
              "void main() {}" [(0, "a_position"%string)] empty_world
              (fun log => ltac:(discriminate))
              (fun log => ltac:(discriminate)))
    as (v & f & p & w' & Hrun & _ & Hcerr).
  exists v, f, p, w'. split; [exact Hrun | exact Hcerr].
Defined.

(** X10.  Binding a texture to the textured program: for a texture whose
    name is below 2^31, the unit made active is [GL_TEXTURE0] plus the name,
    the texture is bound to it, and the sampler uniform is set to the name,
    which is the index of that unit.  The unit is chosen by the texture's
    name, not by a counter. *)
Theorem texture_unit_is_the_texture_name :
  forall (ext : externals) (this : shader.t) (attr : string)
         (tex : texture_impl) (w : world),
    0 <= get_handle tex < 2 ^ 31 ->
    exists (w' : world) (location : Z),
      shader.set_uniform ext this attr tex w = (Ok tt, w') /\
      gl_calls w' =
        gl_calls w ++
        [glGetUniformLocation (shader.program this) attr;
         glActiveTexture (GL_TEXTURE0 + get_handle tex);
         glBindTexture GL_TEXTURE_2D (get_handle tex);
         glUniform1i location (get_handle tex)].
Proof.
  intros ext this attr tex [calls err queue objects derefs] Hrange.
  do 2 eexists. split.
  - unfold shader.set_uniform. do 3 step. apply gl_runs.
  - cbn [gl_calls]. repeat rewrite <- app_assoc. cbn [app].
    unfold to_uint32, to_int32. change GL_TEXTURE0 with 33984.
    change (2 ^ 31) with 2147483648 in *.
    change (2 ^ 32) with 4294967296.
    rewrite (Z.mod_small (33984 + get_handle tex)) by lia.
    rewrite (Z.mod_small (0 + get_handle tex)) by lia.
    rewrite (Z.mod_small (0 + get_handle tex + 2147483648)) by lia.
    replace (0 + get_handle tex + 2147483648 - 2147483648)
      with (get_handle tex) by lia.
    reflexivity.
Qed.

Lemma texture_unit_is_the_texture_name_witness :
  0 <= get_handle sample_texture < 2 ^ 31 /\
  exists (w' : world) (location : Z),
    shader.set_uniform sample_externals (shader.mk 4 5 6) "s_texture"
        sample_texture empty_world = (Ok tt, w') /\
    gl_calls w' =
      [glGetUniformLocation 6 "s_texture";
       glActiveTexture (GL_TEXTURE0 + 1);
       glBindTexture GL_TEXTURE_2D 1;
       glUniform1i location 1].
Proof.
  split; [cbn; lia|].
  exact (texture_unit_is_the_texture_name sample_externals (shader.mk 4 5 6)
           "s_texture" sample_texture empty_world
           ltac:(cbn; lia)).
Defined.

(* ================================================================== *)
(** ** [init], [destroy], [main] and what they leave alive *)

Section Process.
Variable px : platform.
Variable ext : externals.

(** *** One step at a time in the process *)

Lemma bindP_step {A B} (m : P A) (k : A -> P B) (p p1 : process) (a : A) :
  m p = (Ok a, p1) -> bindP m k p = k a p1.
Proof. intros Hm. unfold bindP. rewrite Hm. reflexivity. Qed.

Lemma bindP_call_ {B} (c : platform_call) (k : unit -> P B) w rec out :
  bindP (call_ c) k (mkProcess w rec out)
    = k tt (mkProcess w (rec ++ [mkInteraction c 0]) out).
Proof. reflexivity. Qed.

Lemma bindP_call_int {B} (c : platform_call) (k : Z -> P B) w rec out :
  bindP (call_int px c) k (mkProcess w rec out)
    = k (to_int32 (answer px rec c))
        (mkProcess w
           (rec ++ [mkInteraction c (to_int32 (answer px rec c))]) out).
Proof. reflexivity. Qed.

Lemma bindP_call_pointer {B} (c : platform_call) (k : Z -> P B) w rec out :
  bindP (call_pointer px c) k (mkProcess w rec out)
    = k (to_size_t (answer px rec c))
        (mkProcess w
           (rec ++ [mkInteraction c (to_size_t (answer px rec c))]) out).
Proof. reflexivity. Qed.

Lemma bindP_call_uint {B} (c : platform_call) (k : Z -> P B) w rec out :
  bindP (call_uint px c) k (mkProcess w rec out)
    = k (to_uint32 (answer px rec c))
        (mkProcess w
           (rec ++ [mkInteraction c (to_uint32 (answer px rec c))]) out).
Proof. reflexivity. Qed.

Lemma bindP_get_version {B} (k : Z * Z * Z -> P B) w rec out :
  bindP (get_version px) k (mkProcess w rec out)
    = k (to_uint8 (fst (fst (linked_version px rec))),
         to_uint8 (snd (fst (linked_version px rec))),
         to_uint8 (snd (linked_version px rec)))
        (mkProcess w (rec ++ [mkInteraction SDL_GetVersion 0]) out).
Proof.
  unfold bindP, get_version. cbn [interactions the_world cout].
  destruct (linked_version px rec) as [[a b] c]. reflexivity.
Qed.

Lemma bindP_get_error {B} (k : string -> P B) w rec out :
  bindP (get_error px) k (mkProcess w rec out)
    = k (error_text px rec)
        (mkProcess w (rec ++ [mkInteraction SDL_GetError 0]) out).
Proof. reflexivity. Qed.

Lemma bindP_cout_write {B} (items : list cerr_item) (k : unit -> P B)
    w rec out :
  bindP (cout_write items) k (mkProcess w rec out)
    = k tt (mkProcess w rec (out ++ items)).
Proof. reflexivity. Qed.

Lemma issued_app (calls added : list gl_call) err err' q q' hp hp' ind ind' :
  issued (mkWorld calls err q hp ind) (mkWorld (calls ++ added) err' q' hp' ind')
    = added.
Proof.
  unfold issued. cbn [gl_calls]. rewrite skipn_app, skipn_all, Nat.sub_diag.
  reflexivity.
Qed.

(** code of the inner world that runs to the end there runs to the end in
    the process, and what it added to the log is added to the record *)
Lemma lift_runs {A} (m : M A) (a : A) (added : list gl_call)
    calls err q hp ind err' q' hp' ind' rec out :
  m (mkWorld calls err q hp ind)
    = (Ok a, mkWorld (calls ++ added) err' q' hp' ind') ->
  lift m (mkProcess (mkWorld calls err q hp ind) rec out)
    = (Ok a,
       mkProcess (mkWorld (calls ++ added) err' q' hp' ind')
         (rec ++ map (fun c => mkInteraction (GL c) 0) added) out).
Proof.
  intros Hm. unfold lift. cbn [the_world interactions cout].
  rewrite Hm, issued_app. reflexivity.
Qed.

Lemma bindP_lift_cerr {B} (items : list cerr_item) (k : unit -> P B)
    calls err q hp ind rec out :
  bindP (lift (cerr_write items)) k
      (mkProcess (mkWorld calls err q hp ind) rec out)
    = k tt (mkProcess (mkWorld calls (err ++ items) q hp ind) rec out).
Proof.
  rewrite (bindP_step _ k _ _ _
             (lift_runs (cerr_write items) tt [] calls err q hp ind
                (err ++ items) q hp ind rec out
                ltac:(cbn; rewrite app_nil_r; reflexivity))).
  cbn [map]. rewrite !app_nil_r. reflexivity.
Qed.

Lemma bindP_lift_gl {B} (c : gl_call) (k : unit -> P B)
    calls err q hp ind rec out :
  bindP (lift (gl c)) k (mkProcess (mkWorld calls err q hp ind) rec out)
    = k tt
        (mkProcess (mkWorld (calls ++ [c]) err q hp ind)
           (rec ++ [mkInteraction (GL c) 0]) out).
Proof.
  apply (bindP_step _ k _ _ _
           (lift_runs (gl c) tt [c] calls err q hp ind err q hp ind rec out
              eq_refl)).
Qed.

Lemma bindP_lift_use {B} (s : shader.t) (k : unit -> P B)
    calls err q hp ind rec out :
  bindP (lift (shader.use s)) k
      (mkProcess (mkWorld calls err q hp ind) rec out)
    = k tt
        (mkProcess
           (mkWorld (calls ++ [glUseProgram (shader.program s)]) err q hp ind)
           (rec ++ [mkInteraction (GL (glUseProgram (shader.program s))) 0])
           out).
Proof. apply bindP_lift_gl. Qed.

Lemma bindP_lift_at {A B} (l : list A) (n : nat) (x : A) (k : A -> P B)
    calls err q hp ind rec out :
  nth_error l n = Some x ->
  bindP (lift (engine_impl.at_ l n)) k
      (mkProcess (mkWorld calls err q hp ind) rec out)
    = k x (mkProcess (mkWorld calls err q hp ind) rec out).
Proof.
  intros Hnth.
  rewrite (bindP_step _ k _ _ _
             (lift_runs (engine_impl.at_ l n) x [] calls err q hp ind
                err q hp ind rec out
                ltac:(unfold engine_impl.at_; rewrite Hnth, app_nil_r;
                      reflexivity))).
  cbn [map]. rewrite !app_nil_r. reflexivity.
Qed.

Lemma bindP_throws {A B} (m : P A) (k : A -> P B) (p p1 : process)
    (e : exn) :
  m p = (Throw e, p1) -> bindP m k p = (Throw e, p1).
Proof. intros Hm. unfold bindP. rewrite Hm. reflexivity. Qed.

(** the same for code that may leave by an exception *)
Lemma lift_ends {A} (m : M A) (res : outcome A) (added : list gl_call)
    calls err q hp ind err' q' hp' ind' rec out :
  m (mkWorld calls err q hp ind)
    = (res, mkWorld (calls ++ added) err' q' hp' ind') ->
  lift m (mkProcess (mkWorld calls err q hp ind) rec out)
    = (res,
       mkProcess (mkWorld (calls ++ added) err' q' hp' ind')
         (rec ++ map (fun c => mkInteraction (GL c) 0) added) out).
Proof.
  intros Hm. unfold lift. cbn [the_world interactions cout].
  rewrite Hm, issued_app. reflexivity.
Qed.

Lemma lift_shader_cases (vsrc fsrc : string) (attrs : list (Z * string))
    calls err q hp ind rec out :
  exists (res : outcome shader.t) (added : list gl_call)
         (printed : list cerr_item),
    lift (shader.shader ext vsrc fsrc attrs)
        (mkProcess (mkWorld calls err q hp ind) rec out)
      = (res,
         mkProcess (mkWorld (calls ++ added) (err ++ printed) q hp ind)
           (rec ++ map (fun c => mkInteraction (GL c) 0) added) out) /\
    ((exists sh, res = Ok sh) \/
     (res = Throw std_length_error /\ ~ log_lengths_not_negative ext)).
Proof.
  destruct (shader_outcome ext vsrc fsrc attrs calls err q hp ind)
    as (res & added & printed & Hrun & _ & _ & Hres).
  exists res, added, printed. split; [|exact Hres].
  apply lift_ends. exact Hrun.
Qed.

(** *** What a record leaves alive *)

Lemma alive_after_app (l1 l2 : list interaction) :
  alive_after (l1 ++ l2) = fold_left alive_step l2 (alive_after l1).
Proof. unfold alive_after. apply fold_left_app. Qed.

Lemma alive_step_commands (added : list gl_call) (st : alive) :
  fold_left alive_step (map (fun c => mkInteraction (GL c) 0) added) st = st.
Proof.
  revert st. induction added as [|c l IH]; intros st; [reflexivity|].
  cbn [map fold_left]. apply IH.
Qed.

Lemma remove_only (p : Z) : remove Z.eq_dec p [p] = [].
Proof. cbn [remove]. destruct (Z.eq_dec p p); [reflexivity|contradiction]. Qed.

Lemma no_command_in_commands_false (added : list gl_call) :
  added <> [] ->
  existsb is_gl (map (fun c => mkInteraction (GL c) 0) added) = true.
Proof. destruct added; [contradiction|reflexivity]. Qed.

(** after a [push_back] there is a program at index 0, and after two there
    is one at index 1 *)
Lemma first_program_there (l : list shader.t) (s : shader.t) :
  exists x, nth_error (l ++ [s]) 0 = Some x.
Proof. destruct l as [|x l]; [exists s|exists x]; reflexivity. Qed.

Lemma second_program_there (l : list shader.t) (s0 s1 : shader.t) :
  exists x, nth_error ((l ++ [s0]) ++ [s1]) 1 = Some x.
Proof.
  destruct l as [|x [|y l]]; [exists s1|exists s0|exists y]; reflexivity.
Qed.

Ltac forward H :=
  first
    [ rewrite bindP_call_ in H
    | rewrite bindP_call_int in H
    | rewrite bindP_call_pointer in H
    | rewrite bindP_call_uint in H
    | rewrite bindP_get_version in H
    | rewrite bindP_get_error in H
    | rewrite bindP_cout_write in H
    | rewrite bindP_lift_cerr in H
    | rewrite bindP_lift_gl in H
    | rewrite bindP_lift_use in H ];
  cbv beta in H.

(** [init] path by path, on a process given by its components: the five
    ways to return false, the one way to return true, and the way out by
    [std::length_error] from one of the two shader constructors *)
Lemma init_outcome (this : engine_object) (ww wh : Z) (fullscreen : bool)
    calls err q hp ind rec out :
  exists (res : outcome (bool * engine_object)) (err' : list cerr_item)
         (added_gl : list gl_call) (added : list interaction)
         (out' : list cerr_item),
    engine.init px ext this ww wh fullscreen
        (mkProcess (mkWorld calls err q hp ind) rec out)
      = (res,
         mkProcess (mkWorld (calls ++ added_gl) err' q hp ind)
           (rec ++ added) out') /\
    ((exists this',
        res = Ok (false, this') /\
        ~ works px /\
        added_gl = [] /\
        existsb is_gl added = false /\
        alive_after added = mkAlive false [] [] /\
        (exists printed, printed <> [] /\ err' = err ++ printed) /\
        engine_impl.shaders (fields this')
          = engine_impl.shaders (fields this))
     \/
     (exists this',
        res = Ok (true, this') /\
        window this' <> 0 /\
        context this' <> 0 /\
        alive_after added = mkAlive true [window this'] [context this'] /\
        (exists s0 s1,
            engine_impl.shaders (fields this')
              = engine_impl.shaders (fields this) ++ [s0; s1]) /\
        engine_impl.window_width (fields this') = to_uint16 ww /\
        engine_impl.window_height (fields this') = to_uint16 wh /\
        (exists before loaded after,
            added = before ++ mkInteraction gladLoadGLLoader loaded :: after /\
            loaded <> 0 /\
            existsb is_gl before = false))
     \/
     (res = Throw std_length_error /\
      ~ log_lengths_not_negative ext /\
      (exists created_window created_context,
          created_window <> 0 /\
          created_context <> 0 /\
          alive_after added
            = mkAlive true [created_window] [created_context]) /\
      (exists before loaded after,
          added = before ++ mkInteraction gladLoadGLLoader loaded :: after /\
          loaded <> 0 /\
          existsb is_gl before = false))).
Proof.
  remember (engine.init px ext this ww wh fullscreen
              (mkProcess (mkWorld calls err q hp ind) rec out)) as res
    eqn:Hres.
  unfold engine.init in Hres. cbv zeta in Hres.
  do 3 forward Hres. cbn [fst snd] in Hres.
  destruct (engine.SDL_COMPILEDVERSION px =?
            SDL_VERSIONNUM (to_uint8 (fst (fst (linked_version px rec))))
              (to_uint8 (snd (fst (linked_version px rec))))
              (to_uint8 (snd (linked_version px rec)))) eqn:Hversion;
    cbn [negb] in Hres; cbv iota in Hres.
  2:{ forward Hres. unfold retP in Hres.
      do 5 eexists. split.
      - rewrite Hres, <- (app_nil_r calls) at 1. reflexivity.
      - left. eexists. split; [reflexivity|]. split.
        + intros (Hv & _). apply Z.eqb_neq in Hversion. apply Hversion.
          symmetry. apply Hv.
        + repeat split; try reflexivity.
          eexists. split; [|reflexivity]. discriminate. }
  forward Hres.
  destruct (to_int32
              (answer px (rec ++ [mkInteraction SDL_GetVersion 0])
                 (SDL_Init (SDL_INIT_EVERYTHING px))) =? 0) eqn:Hinit;
    cbn [negb] in Hres; cbv iota in Hres.
  2:{ do 2 forward Hres. unfold retP in Hres.
      rewrite <- ?app_assoc in *. cbn [app] in *.
      do 5 eexists. split.
      - rewrite Hres, <- (app_nil_r calls) at 1. reflexivity.
      - left. eexists. split; [reflexivity|]. split.
        + intros (_ & Hi & _). apply Z.eqb_neq in Hinit. apply Hinit, Hi.
        + cbn [app]. repeat split; try reflexivity.
          * unfold alive_after. cbn [fold_left alive_step call returned].
            rewrite Hinit. reflexivity.
          * eexists. split; [|reflexivity]. discriminate. }
  do 2 forward Hres.
  cbn [window context fields set_window set_context set_fields] in Hres.
  match type of Hres with
  | _ = (if ?c then _ else _) _ => destruct c eqn:Hwindow
  end.
  { do 3 forward Hres. unfold retP in Hres.
    rewrite <- ?app_assoc in *. cbn [app] in *.
    do 5 eexists. split.
    - rewrite Hres, <- (app_nil_r calls) at 1. reflexivity.
    - left. eexists. split; [reflexivity|]. split.
      + intros (_ & _ & Hw & _). apply Z.eqb_eq in Hwindow.
        exact (Hw _ _ _ _ _ _ _ Hwindow).
      + cbn [app]. repeat split; try reflexivity.
        * unfold alive_after. cbn [fold_left alive_step call returned].
          rewrite Hinit, Hwindow. reflexivity.
        * eexists. split; [|reflexivity]. discriminate. }
  do 4 forward Hres.
  cbn [window context fields set_window set_context set_fields] in Hres.
  match type of Hres with
  | _ = (if ?c then _ else _) _ => destruct c eqn:Hcontext
  end.
  { do 4 forward Hres. unfold retP in Hres.
    rewrite <- ?app_assoc in *. cbn [app] in *.
    do 5 eexists. split.
    - rewrite Hres, <- (app_nil_r calls) at 1. reflexivity.
    - left. eexists. split; [reflexivity|]. split.
      + intros (_ & _ & _ & Hc & _). apply Z.eqb_eq in Hcontext.
        exact (Hc _ _ Hcontext).
      + cbn [app]. repeat split; try reflexivity.
        * unfold alive_after. cbn [fold_left alive_step call returned].
          rewrite Hinit, Hwindow, Hcontext.
          cbn [windows contexts sdl_up app]. rewrite remove_only.
          reflexivity.
        * eexists. split; [|reflexivity]. discriminate. }
  forward Hres.
  match type of Hres with
  | _ = (if ?c then _ else _) _ => destruct c eqn:Hloaded
  end.
  { do 4 forward Hres. unfold retP in Hres.
    rewrite <- ?app_assoc in *. cbn [app] in *.
    do 5 eexists. split.
    - rewrite Hres, <- (app_nil_r calls) at 1. reflexivity.
    - left. eexists. split; [reflexivity|]. split.
      + intros (_ & _ & _ & _ & Hl). apply Z.eqb_eq in Hloaded.
        exact (Hl _ Hloaded).
      + cbn [app]. repeat split; try reflexivity.
        * unfold alive_after. cbn [fold_left alive_step call returned].
          rewrite Hinit, Hwindow, Hcontext.
          cbn [windows contexts sdl_up app]. rewrite !remove_only.
          reflexivity.
        * eexists. split; [|reflexivity]. discriminate. }
  do 6 forward Hres.
  cbn [window context fields set_window set_context set_fields
       set_window_size set_gl_default_vbo set_vertex_attribute_object
       push_back_shader engine_impl.shaders engine_impl.window_width
       engine_impl.window_height engine_impl.gl_default_vbo
       engine_impl.vertex_attribute_object] in Hres.
  match type of Hres with
  | _ = bindP (lift (shader.shader _ ?v ?f ?a)) _
          (mkProcess (mkWorld ?c ?e _ _ _) ?r ?o) =>
      destruct (lift_shader_cases v f a c e q hp ind r o)
        as (res0 & added0 & printed0 & Hs0 & Hc0)
  end.
  destruct Hc0 as [(s0 & ->) | (-> & Hbad)].
  2:{ rewrite (bindP_throws _ _ _ _ _ Hs0) in Hres.
      rewrite <- ?app_assoc in *. cbn [app] in *.
      do 5 eexists. split; [rewrite Hres; reflexivity|].
      right. right. split; [reflexivity|]. split; [exact Hbad|]. split.
      - do 2 eexists.
        split; [apply Z.eqb_neq; exact Hwindow|].
        split; [apply Z.eqb_neq; exact Hcontext|].
        unfold alive_after.
        cbn [fold_left alive_step call returned].
        rewrite Hinit, Hwindow, Hcontext.
        cbn [windows contexts sdl_up app].
        repeat (first [rewrite fold_left_app | rewrite alive_step_commands];
                cbn [fold_left alive_step call returned]).
        reflexivity.
      - eexists
          [mkInteraction SDL_GetVersion 0; _; _; _; _; _; _; _], _, _.
        split; [reflexivity|].
        split; [apply Z.eqb_neq; exact Hloaded|]. reflexivity. }
  rewrite (bindP_step _ _ _ _ _ Hs0) in Hres. cbv beta in Hres.
  cbn [fields set_fields push_back_shader engine_impl.shaders] in Hres.
  destruct (first_program_there (engine_impl.shaders (fields this)) s0)
    as (u0 & Hu0).
  rewrite (bindP_lift_at _ _ _ _ _ _ _ _ _ _ _ Hu0) in Hres.
  cbv beta in Hres. forward Hres.
  match type of Hres with
  | _ = bindP (lift (shader.shader _ ?v ?f ?a)) _
          (mkProcess (mkWorld ?c ?e _ _ _) ?r ?o) =>
      destruct (lift_shader_cases v f a c e q hp ind r o)
        as (res1 & added1 & printed1 & Hs1 & Hc1)
  end.
  destruct Hc1 as [(s1 & ->) | (-> & Hbad)].
  2:{ rewrite (bindP_throws _ _ _ _ _ Hs1) in Hres.
      rewrite <- ?app_assoc in *. cbn [app] in *.
      do 5 eexists. split; [rewrite Hres; reflexivity|].
      right. right. split; [reflexivity|]. split; [exact Hbad|]. split.
      - do 2 eexists.
        split; [apply Z.eqb_neq; exact Hwindow|].
        split; [apply Z.eqb_neq; exact Hcontext|].
        unfold alive_after.
        cbn [fold_left alive_step call returned].
        rewrite Hinit, Hwindow, Hcontext.
        cbn [windows contexts sdl_up app].
        repeat (first [rewrite fold_left_app | rewrite alive_step_commands];
                cbn [fold_left alive_step call returned]).
        reflexivity.
      - eexists
          [mkInteraction SDL_GetVersion 0; _; _; _; _; _; _; _], _, _.
        split; [reflexivity|].
        split; [apply Z.eqb_neq; exact Hloaded|]. reflexivity. }
  rewrite (bindP_step _ _ _ _ _ Hs1) in Hres. cbv beta in Hres.
  cbn [fields set_fields push_back_shader engine_impl.shaders] in Hres.
  destruct (second_program_there (engine_impl.shaders (fields this)) s0 s1)
    as (u1 & Hu1).
  rewrite (bindP_lift_at _ _ _ _ _ _ _ _ _ _ _ Hu1) in Hres.
  cbv beta in Hres. do 5 forward Hres. unfold retP in Hres.
  cbn [window context fields set_window set_context set_fields
       set_window_size set_gl_default_vbo set_vertex_attribute_object
       push_back_shader engine_impl.shaders engine_impl.window_width
       engine_impl.window_height engine_impl.gl_default_vbo
       engine_impl.vertex_attribute_object] in Hres.
  rewrite <- ?app_assoc in *. cbn [app] in *.
  do 5 eexists. split; [rewrite Hres; reflexivity|].
  right. left. eexists. split; [reflexivity|].
  cbn [window context fields set_window set_context set_fields
       set_window_size set_gl_default_vbo set_vertex_attribute_object
       push_back_shader engine_impl.shaders engine_impl.window_width
       engine_impl.window_height engine_impl.gl_default_vbo
       engine_impl.vertex_attribute_object].
  split; [apply Z.eqb_neq; exact Hwindow|].
  split; [apply Z.eqb_neq; exact Hcontext|].
  split.
  { unfold alive_after.
    cbn [fold_left alive_step call returned]. rewrite Hinit, Hwindow, Hcontext.
    cbn [windows contexts sdl_up app].
    repeat (first [rewrite fold_left_app | rewrite alive_step_commands];
            cbn [fold_left alive_step call returned]).
    reflexivity. }
  split; [exists s0, s1; rewrite <- app_assoc; reflexivity|].
  split; [reflexivity|]. split; [reflexivity|].
  eexists
    [mkInteraction SDL_GetVersion 0; _; _; _; _; _; _; _], _, _.
  split; [reflexivity|].
  split; [apply Z.eqb_neq; exact Hloaded|]. reflexivity.
Qed.

(** X11.  When [init] returns false, it leaves nothing behind: whatever it
    created before the failure it has destroyed again, and SDL is shut down
    if it was started.  It has issued no OpenGL command at all, it has
    written at least one line on [std::cerr], and the object holds the
    programs it held before. *)
Theorem init_failure_releases_everything :
  forall (this this' : engine_object) (ww wh : Z) (fullscreen : bool)
         (p : process),
    fst (engine.init px ext this ww wh fullscreen p) = Ok (false, this') ->
    exists (added : list interaction) (printed : list cerr_item),
      interactions (snd (engine.init px ext this ww wh fullscreen p))
        = interactions p ++ added /\
      alive_after added = mkAlive false [] [] /\
      existsb is_gl added = false /\
      gl_calls (the_world (snd (engine.init px ext this ww wh fullscreen p)))
        = gl_calls (the_world p) /\
      printed <> [] /\
      cerr (the_world (snd (engine.init px ext this ww wh fullscreen p)))
        = cerr (the_world p) ++ printed /\
      engine_impl.shaders (fields this') = engine_impl.shaders (fields this).
Proof.
  intros this this' ww wh fs [[calls err q hp ind] rec out] Hfalse.
  destruct (init_outcome this ww wh fs calls err q hp ind rec out)
    as (res & err' & added_gl & added & out' & Hrun & Hcases).
  rewrite Hrun in Hfalse |- *. cbn [fst snd] in *. subst res.
  destruct Hcases
    as [(this0 & Heq & _ & -> & Hgl & Halive & (printed & Hp & ->) & Hsh)
       | [(this0 & Heq & _) | (Heq & _)]];
    try discriminate Heq.
  injection Heq as <-.
  exists added, printed. cbn [interactions the_world gl_calls cerr].
  rewrite app_nil_r. repeat split; assumption.
Qed.

(** X12.  When [init] returns true, SDL is up and exactly one window and
    one context are alive, the ones the object holds, neither of them null;
    the object holds two more programs than before, at the end of its list,
    and the size it was given, as 16-bit numbers. *)
Theorem init_success_state :
  forall (this this' : engine_object) (ww wh : Z) (fullscreen : bool)
         (p : process),
    fst (engine.init px ext this ww wh fullscreen p) = Ok (true, this') ->
    exists (added : list interaction) (s0 s1 : shader.t),
      interactions (snd (engine.init px ext this ww wh fullscreen p))
        = interactions p ++ added /\
      alive_after added = mkAlive true [window this'] [context this'] /\
      window this' <> 0 /\
      context this' <> 0 /\
      engine_impl.shaders (fields this')
        = engine_impl.shaders (fields this) ++ [s0; s1] /\
      engine_impl.window_width (fields this') = ww mod 65536 /\
      engine_impl.window_height (fields this') = wh mod 65536.
Proof.
  intros this this' ww wh fs [[calls err q hp ind] rec out] Htrue.
  destruct (init_outcome this ww wh fs calls err q hp ind rec out)
    as (res & err' & added_gl & added & out' & Hrun & Hcases).
  rewrite Hrun in Htrue |- *. cbn [fst snd] in *. subst res.
  destruct Hcases
    as [(this0 & Heq & _)
       | [(this0 & Heq & Hw & Hc & Halive & (s0 & s1 & Hsh) & Hww & Hwh & _)
         | (Heq & _)]];
    try discriminate Heq.
  injection Heq as <-.
  exists added, s0, s1. cbn [interactions].
  repeat split; assumption.
Qed.

(** X13.  [init] issues no OpenGL command before the function loader has
    returned, and none at all unless the loader returned non-zero. *)
Theorem init_commands_follow_the_loader :
  forall (this : engine_object) (ww wh : Z) (fullscreen : bool) (p : process),
    exists added : list interaction,
      interactions (snd (engine.init px ext this ww wh fullscreen p))
        = interactions p ++ added /\
      (existsb is_gl added = false \/
       exists before loaded after,
         added = before ++ mkInteraction gladLoadGLLoader loaded :: after /\
         loaded <> 0 /\
         existsb is_gl before = false).
Proof.
  intros this ww wh fs [[calls err q hp ind] rec out].
  destruct (init_outcome this ww wh fs calls err q hp ind rec out)
    as (res & err' & added_gl & added & out' & Hrun & Hcases).
  rewrite Hrun. cbn [snd interactions].
  exists added. split; [reflexivity|].
  destruct Hcases as [(this0 & _ & _ & _ & Hgl & _)
                     | [(this0 & _ & _ & _ & _ & _ & _ & _ & Hloader)
                       | (_ & _ & _ & Hloader)]].
  - left. exact Hgl.
  - right. exact Hloader.
  - right. exact Hloader.
Qed.

(** X14.  [destroy] after a successful [init] leaves nothing alive: it
    deletes the context, destroys the window and shuts SDL down, in this
    order. *)
Theorem init_then_destroy_leaves_nothing :
  forall (this this' : engine_object) (ww wh : Z) (fullscreen : bool)
         (p : process),
    fst (engine.init px ext this ww wh fullscreen p) = Ok (true, this') ->
    exists added : list interaction,
      interactions (snd (engine.init px ext this ww wh fullscreen p))
        = interactions p ++ added /\
      engine.destroy this' (snd (engine.init px ext this ww wh fullscreen p))
        = (Ok tt,
           mkProcess
             (the_world (snd (engine.init px ext this ww wh fullscreen p)))
             (interactions p ++ added ++
              [mkInteraction (SDL_GL_DeleteContext (context this')) 0;
               mkInteraction (SDL_DestroyWindow (window this')) 0;
               mkInteraction SDL_Quit 0])
             (cout (snd (engine.init px ext this ww wh fullscreen p)))) /\
      alive_after
        (added ++
         [mkInteraction (SDL_GL_DeleteContext (context this')) 0;
          mkInteraction (SDL_DestroyWindow (window this')) 0;
          mkInteraction SDL_Quit 0])
        = mkAlive false [] [].
Proof.
  intros this this' ww wh fs [[calls err q hp ind] rec out] Htrue.
  destruct (init_outcome this ww wh fs calls err q hp ind rec out)
    as (res & err' & added_gl & added & out' & Hrun & Hcases).
  rewrite Hrun in Htrue |- *. cbn [fst snd] in *. subst res.
  destruct Hcases as [(this0 & Heq & _)
                     | [(this0 & Heq & _ & _ & Halive & _) | (Heq & _)]];
    try discriminate Heq.
  injection Heq as <-.
  exists added. cbn [interactions the_world cout].
  split; [reflexivity|]. split.
  - unfold engine.destroy. rewrite !bindP_call_. unfold call_.
    cbn [the_world interactions cout]. rewrite <- !app_assoc. reflexivity.
  - rewrite alive_after_app, Halive.
    cbn [fold_left alive_step call returned windows contexts sdl_up].
    rewrite !remove_only. reflexivity.
Qed.

(** X15.  After a successful [init], both draw paths run to the end on the
    object, whatever the sequence and the texture: the two programs they
    look up are there. *)
Theorem init_then_draws_run :
  forall (this this' : engine_object) (ww wh : Z) (fullscreen : bool)
         (p : process) (vertex_buffer : list uchiha.triangle)
         (tex : texture_impl) (w : world),
    fst (engine.init px ext this ww wh fullscreen p) = Ok (true, this') ->
    (exists w', engine_impl.render (fields this') vertex_buffer w
                = (Ok tt, w')) /\
    (exists w', engine_impl.render_textured ext (fields this') vertex_buffer
                  tex w = (Ok tt, w')).
Proof.
  intros this this' ww wh fs [[calls err q hp ind] rec out] vb tex w Htrue.
  destruct (init_outcome this ww wh fs calls err q hp ind rec out)
    as (res & err' & added_gl & added & out' & Hrun & Hcases).
  rewrite Hrun in Htrue. cbn [fst] in Htrue. subst res.
  destruct Hcases
    as [(this0 & Heq & _)
       | [(this0 & Heq & _ & _ & _ & (s0 & s1 & Hsh) & _) | (Heq & _)]];
    try discriminate Heq.
  injection Heq as <-.
  destruct (first_program_there (engine_impl.shaders (fields this)) s0)
    as (u0 & Hu0).
  destruct (second_program_there (engine_impl.shaders (fields this)) s0 s1)
    as (u1 & Hu1).
  assert (H0 : nth_error (engine_impl.shaders (fields this')) 0 = Some u0).
  { rewrite Hsh. destruct (engine_impl.shaders (fields this)); exact Hu0. }
  assert (H1 : nth_error (engine_impl.shaders (fields this')) 1 = Some u1).
  { rewrite Hsh. rewrite <- app_assoc in Hu1. exact Hu1. }
  split; eexists.
  - apply (render_runs _ _ vb w H0).
  - apply (render_textured_runs ext _ _ vb tex w H1).
Qed.

(** X16.  On a platform where none of the five checks can fail, and with
    a driver that reports no negative length for an info log, [init]
    returns true, whatever else the driver does with the shaders: a rejected
    shader or a failed link does not make [init] fail. *)
Theorem init_on_a_working_platform :
  forall (this : engine_object) (ww wh : Z) (fullscreen : bool) (p : process),
    works px ->
    log_lengths_not_negative ext ->
    exists this' : engine_object,
      fst (engine.init px ext this ww wh fullscreen p) = Ok (true, this').
Proof.
  intros this ww wh fs [[calls err q hp ind] rec out] Hworks Hlengths.
  destruct (init_outcome this ww wh fs calls err q hp ind rec out)
    as (res & err' & added_gl & added & out' & Hrun & Hcases).
  rewrite Hrun. cbn [fst].
  destruct Hcases as [(this0 & _ & Hnot & _)
                     | [(this0 & -> & _) | (_ & Hnot & _)]];
    [contradiction| |contradiction].
  exists this0. reflexivity.
Qed.

(** X20.  [init] can leave by an exception, and then it releases nothing.
    The exception is [std::length_error], from a shader constructor on a
    driver that reports a negative length for the info log of a rejected
    shader or of a failed link.  The window and the context [init] created
    are still alive then and SDL is still initialised. *)
Theorem init_exception_releases_nothing :
  forall (this : engine_object) (ww wh : Z) (fullscreen : bool) (p : process)
         (e : exn),
    fst (engine.init px ext this ww wh fullscreen p) = Throw e ->
    e = std_length_error /\
    ~ log_lengths_not_negative ext /\
    exists (added : list interaction) (created_window created_context : Z),
      interactions (snd (engine.init px ext this ww wh fullscreen p))
        = interactions p ++ added /\
      created_window <> 0 /\
      created_context <> 0 /\
      alive_after added = mkAlive true [created_window] [created_context].
Proof.
  intros this ww wh fs [[calls err q hp ind] rec out] e Hthrow.
  destruct (init_outcome this ww wh fs calls err q hp ind rec out)
    as (res & err' & added_gl & added & out' & Hrun & Hcases).
  rewrite Hrun in Hthrow |- *. cbn [fst snd interactions] in *. subst res.
  destruct Hcases
    as [(this0 & Heq & _)
       | [(this0 & Heq & _)
         | (Heq & Hbad & (win & ctx & Hw & Hc & Halive) & _)]];
    try discriminate Heq.
  injection Heq as ->.
  split; [reflexivity|]. split; [exact Hbad|].
  exists added, win, ctx. repeat split; assumption.
Qed.

(** *** The loops of [main] *)

Lemma lift_quiet {A} (m : M A) (a : A)
    calls err q hp ind err' q' hp' ind' rec out :
  m (mkWorld calls err q hp ind) = (Ok a, mkWorld calls err' q' hp' ind') ->
  lift m (mkProcess (mkWorld calls err q hp ind) rec out)
    = (Ok a, mkProcess (mkWorld calls err' q' hp' ind') rec out).
Proof.
  intros Hm.
  rewrite (lift_runs m a [] calls err q hp ind err' q' hp' ind' rec out).
  - cbn [map]. rewrite !app_nil_r. reflexivity.
  - rewrite app_nil_r. exact Hm.
Qed.

Lemma quit_is_translated (e : SDL_Event) :
  is_quit e = true -> is_translated (SDL.type e) = true.
Proof. unfold is_quit, is_translated. intros ->. reflexivity. Qed.

Lemma read_input_delivers (ev : uchiha.event) calls err e q hp ind :
  is_translated (SDL.type e) = true ->
  exists ev',
    engine_impl.read_input ev (mkWorld calls err (e :: q) hp ind)
      = (Ok (true, ev'), mkWorld calls err q hp ind) /\
    match uchiha.type ev' with uchiha.quit => true | _ => false end
      = is_quit e.
Proof.
  intros Ht.
  unfold engine_impl.read_input, bind, SDL_PollEvent, is_quit.
  cbn [sdl_queue with_sdl_queue gl_calls cerr heap indirections].
  unfold is_translated in Ht.
  destruct (SDL.type e =? SDL_QUIT); [eexists; split; reflexivity|].
  destruct (SDL.type e =? SDL_MOUSEMOTION); [eexists; split; reflexivity|].
  destruct (SDL.type e =? SDL_MOUSEBUTTONUP); [eexists; split; reflexivity|].
  simpl in Ht. rewrite Ht. eexists. split; [reflexivity|].
  repeat match goal with
         | |- context [if ?c then _ else _] => destruct c
         end;
    reflexivity.
Qed.

Lemma switch_on_type_runs (e : uchiha.event) (b : bool) w rec out :
  exists printed,
    program.switch_on_type e b (mkProcess w rec out)
      = (Ok (b && negb match uchiha.type e with
                       | uchiha.quit => true
                       | _ => false
                       end),
         mkProcess w rec (out ++ printed)).
Proof.
  unfold program.switch_on_type.
  destruct (uchiha.type e); eexists;
    cbv [bindP cout_write retP the_world interactions cout];
    rewrite <- ?app_assoc, ?andb_true_r, ?andb_false_r; reflexivity.
Qed.

Lemma delivered_length (q : list SDL_Event) :
  (List.length (delivered q) <= List.length q)%nat.
Proof.
  induction q as [|e q IH]; [reflexivity|].
  cbn [delivered]. destruct (is_translated (SDL.type e)); cbn [List.length]; lia.
Qed.

(** the inner loop, whatever the fuel *)
Lemma poll_events_outcome (fuel : nat) :
  forall q ev b calls err hp ind rec out,
  exists r printed q',
    program.poll_events fuel ev b
        (mkProcess (mkWorld calls err q hp ind) rec out)
      = (Ok r, mkProcess (mkWorld calls err q' hp ind) rec (out ++ printed)) /\
    ((r = None /\ (fuel <= List.length (delivered q))%nat) \/
     (exists ev',
         r = Some (ev', b && negb (existsb is_quit (delivered q))) /\
         q' = left_pending q /\
         (List.length (delivered q) < fuel)%nat)).
Proof.
  induction fuel as [|fuel IH]; intros q ev b calls err hp ind rec out.
  - exists None, [], q. split.
    + cbn [program.poll_events]. unfold retP. rewrite app_nil_r. reflexivity.
    + left. split; [reflexivity|lia].
  - cbn [program.poll_events].
    destruct q as [|e q].
    + rewrite (bindP_step _ _ _ _ _
                 (lift_quiet _ _ calls err [] hp ind err [] hp ind rec out
                    (read_input_empty ev (mkWorld calls err [] hp ind)
                       eq_refl))).
      cbn [fst snd]. cbv iota.
      exists (Some (ev, b)), [], []. split.
      * unfold retP. rewrite app_nil_r. reflexivity.
      * right. exists ev. cbn [delivered left_pending existsb negb List.length].
        rewrite andb_true_r. repeat split. lia.
    + destruct (is_translated (SDL.type e)) eqn:Ht.
      * destruct (read_input_delivers ev calls err e q hp ind Ht)
          as (ev' & Hread & Htype).
        rewrite (bindP_step _ _ _ _ _
                   (lift_quiet _ _ calls err (e :: q) hp ind err q hp ind
                      rec out Hread)).
        cbn [fst snd]. cbv iota.
        destruct (switch_on_type_runs ev' b (mkWorld calls err q hp ind)
                    rec out) as (printed1 & Hswitch).
        rewrite (bindP_step _ _ _ _ _ Hswitch). rewrite Htype.
        destruct (IH q ev' (b && negb (is_quit e)) calls err hp ind rec
                    (out ++ printed1))
          as (r & printed2 & q' & Hrun & Hcases).
        exists r, (printed1 ++ printed2), q'. split.
        -- rewrite Hrun, app_assoc. reflexivity.
        -- cbn [delivered left_pending]. rewrite Ht.
           cbn [existsb List.length].
           destruct Hcases as [(-> & Hfuel) | (ev'' & -> & -> & Hfuel)].
           ++ left. split; [reflexivity|lia].
           ++ right. exists ev''. split; [|split; [reflexivity|lia]].
              rewrite negb_orb, andb_assoc. reflexivity.
      * rewrite (bindP_step _ _ _ _ _
                   (lift_quiet _ _ calls err (e :: q) hp ind err q hp ind
                      rec out
                      (read_input_untranslated ev
                         (mkWorld calls err (e :: q) hp ind) e q eq_refl Ht))).
        cbn [fst snd]. cbv iota.
        exists (Some (ev, b)), [], q. split.
        -- unfold retP. rewrite app_nil_r. reflexivity.
        -- right. exists ev. cbn [delivered left_pending]. rewrite Ht.
           cbn [existsb negb List.length]. rewrite andb_true_r.
           repeat split. lia.
Qed.

(** X17.  The inner loop of [main] ends at the first pending event that
    [read_input] does not translate, and takes that event off the queue
    unreported; the events behind it stay pending until the loop runs again
    in the next frame.  The events before it are all delivered, and
    [is_loop] is false afterwards exactly when it was false before or a quit
    request was among them.  The loop issues no command and no call: it only
    writes on [std::cout]. *)
Theorem poll_events_stops_at_first_untranslated :
  forall (fuel : nat) (ev : uchiha.event) (is_loop : bool) (p : process),
    (List.length (sdl_queue (the_world p)) < fuel)%nat ->
    exists (ev' : uchiha.event) (printed : list cerr_item),
      program.poll_events fuel ev is_loop p
        = (Ok (Some (ev',
                     is_loop &&
                     negb (existsb is_quit
                             (delivered (sdl_queue (the_world p)))))),
           mkProcess
             (with_sdl_queue (the_world p)
                (left_pending (sdl_queue (the_world p))))
             (interactions p) (cout p ++ printed)).
Proof.
  intros fuel ev b [[calls err q hp ind] rec out] Hfuel.
  cbn [the_world sdl_queue interactions cout with_sdl_queue gl_calls cerr
       heap indirections] in *.
  destruct (poll_events_outcome fuel q ev b calls err hp ind rec out)
    as (r & printed & q' & Hrun & Hcases).
  pose proof (delivered_length q) as Hlen.
  destruct Hcases as [(_ & Habs) | (ev' & -> & -> & _)]; [lia|].
  exists ev', printed. exact Hrun.
Qed.

(** *** The frames of [main] *)

Lemma draws_app (l1 l2 : list interaction) :
  draws (l1 ++ l2) = (draws l1 + draws l2)%nat.
Proof. unfold draws. rewrite filter_app, length_app. reflexivity. Qed.

Lemma delivered_quit (q : list SDL_Event) :
  existsb is_quit (delivered q) = true ->
  frames_until_quit q = 1%nat /\ existsb is_quit q = true.
Proof.
  induction q as [|e q IH]; [discriminate|].
  cbn [delivered frames_until_quit existsb].
  destruct (is_translated (SDL.type e)) eqn:Ht; [|discriminate].
  cbn [existsb]. destruct (is_quit e); [intros _; split; reflexivity|].
  cbn [orb]. exact IH.
Qed.

Lemma quit_left_pending (q : list SDL_Event) :
  existsb is_quit (delivered q) = false ->
  existsb is_quit (left_pending q) = existsb is_quit q /\
  (existsb is_quit q = true ->
   frames_until_quit q = S (frames_until_quit (left_pending q)) /\
   (List.length (left_pending q) < List.length q)%nat).
Proof.
  induction q as [|e q IH]; [intros _; split; [reflexivity|discriminate]|].
  cbn [delivered left_pending frames_until_quit existsb List.length].
  destruct (is_translated (SDL.type e)) eqn:Ht.
  - cbn [existsb]. intros Hq. apply orb_false_elim in Hq as [He Hq].
    rewrite He. cbn [orb]. destruct (IH Hq) as (Hsame & Hmore).
    split; [exact Hsame|]. intros Hquit.
    destruct (Hmore Hquit) as (Hframes & Hlen). split; [exact Hframes|lia].
  - intros _. destruct (is_quit e) eqn:He.
    + apply quit_is_translated in He. congruence.
    + cbn [orb]. split; [reflexivity|]. intros _. split; [reflexivity|lia].
Qed.

Lemma lift_render_runs (this : engine_impl.t) (s0 : shader.t)
    (vertex_buffer : list uchiha.triangle) calls err q hp ind rec out :
  nth_error (engine_impl.shaders this) 0 = Some s0 ->
  exists (added : list gl_call),
    lift (engine_impl.render this vertex_buffer)
        (mkProcess (mkWorld calls err q hp ind) rec out)
      = (Ok tt,
         mkProcess (mkWorld (calls ++ added) err q hp (ind ++ [0%nat]))
           (rec ++ map (fun c => mkInteraction (GL c) 0) added) out) /\
    draws (map (fun c => mkInteraction (GL c) 0) added) = 1%nat.
Proof.
  intros Hs. eexists. split.
  - apply lift_runs.
    apply (render_runs this s0 vertex_buffer (mkWorld calls err q hp ind) Hs).
  - reflexivity.
Qed.

Lemma lift_render_textured_runs (this : engine_impl.t) (s1 : shader.t)
    (vertex_buffer : list uchiha.triangle) (tex : texture_impl)
    calls err q hp ind rec out :
  nth_error (engine_impl.shaders this) 1 = Some s1 ->
  exists (added : list gl_call),
    lift (engine_impl.render_textured ext this vertex_buffer tex)
        (mkProcess (mkWorld calls err q hp ind) rec out)
      = (Ok tt,
         mkProcess (mkWorld (calls ++ added) err q hp (ind ++ [0%nat]))
           (rec ++ map (fun c => mkInteraction (GL c) 0) added) out) /\
    draws (map (fun c => mkInteraction (GL c) 0) added) = 1%nat.
Proof.
  intros Hs. eexists. split.
  - apply lift_runs.
    apply (render_textured_runs ext this s1 vertex_buffer tex
             (mkWorld calls err q hp ind) Hs).
  - reflexivity.
Qed.

Lemma bindP_swap_buffers {B} (this : engine_object) (k : unit -> P B)
    w rec out :
  bindP (engine.swap_buffers this) k (mkProcess w rec out)
    = k tt
        (mkProcess w
           (rec ++
            [mkInteraction (SDL_GL_SwapWindow (window this)) 0;
             mkInteraction
               (glClearColor float_zero float_zero float_one float_one) 0;
             mkInteraction (glClear GL_COLOR_BUFFER_BIT) 0])
           out).
Proof.
  unfold engine.swap_buffers, bindP, call_.
  cbn [the_world interactions cout]. rewrite <- !app_assoc. reflexivity.
Qed.

(** the outer loop, whatever the fuel and the queue: on an object that
    holds its two programs, with [tx] pointing to a texture *)
Lemma frames_outcome (this : engine_object) (s0 s1 : shader.t) (n : nat)
    (t : texture_impl) hp :
  nth_error (engine_impl.shaders (fields this)) 0 = Some s0 ->
  nth_error (engine_impl.shaders (fields this)) 1 = Some s1 ->
  nth_error hp n = Some t ->
  forall fuel q ev calls err ind rec out,
  exists r calls' q' ind' added out',
    program.frames ext fuel this (addr n) ev true
        (mkProcess (mkWorld calls err q hp ind) rec out)
      = (Ok r, mkProcess (mkWorld calls' err q' hp ind') (rec ++ added) out') /\
    (forall st, fold_left alive_step added st = st) /\
    ((r = more_fuel /\
      (existsb is_quit q = false \/ (fuel < List.length q + 2)%nat)) \/
     (r = done tt /\
      existsb is_quit q = true /\
      draws added = (2 * frames_until_quit q)%nat)).
Proof.
  intros Hs0 Hs1 Htx.
  induction fuel as [|fuel IH]; intros q ev calls err ind rec out.
  - exists more_fuel, calls, q, ind, [], out. split.
    + cbn [program.frames]. unfold retP. rewrite app_nil_r. reflexivity.
    + split; [reflexivity|]. left. split; [reflexivity|]. right. lia.
  - cbn [program.frames].
    destruct (poll_events_outcome fuel q ev true calls err hp ind rec out)
      as (r & printed & q' & Hpoll & Hcases).
    rewrite (bindP_step _ _ _ _ _ Hpoll).
    pose proof (delivered_length q) as Hlen.
    destruct Hcases as [(-> & Hfuel) | (ev' & -> & -> & Hfuel)].
    + exists more_fuel, calls, q', ind, [], (out ++ printed). split.
      * unfold retP. rewrite app_nil_r. reflexivity.
      * split; [reflexivity|]. left. split; [reflexivity|]. right. lia.
    + cbv iota beta.
      destruct (lift_render_runs (fields this) s0 program.vertex_buffer
                  calls err (left_pending q) hp ind rec (out ++ printed) Hs0)
        as (added1 & Hrender & Hdraws1).
      rewrite (bindP_step _ _ _ _ _ Hrender).
      rewrite (bindP_step _ _ _ _ _
                 (lift_quiet (deref (addr n)) (nth_error hp n) _ _ _ _ _
                    _ _ _ _ _ _ eq_refl)).
      rewrite Htx. cbv iota.
      destruct (lift_render_textured_runs (fields this) s1
                  program.vertex_buffer_01 t (calls ++ added1) err
                  (left_pending q) hp (ind ++ [0%nat])
                  (rec ++ map (fun c => mkInteraction (GL c) 0) added1)
                  (out ++ printed) Hs1)
        as (added2 & Htextured & Hdraws2).
      rewrite (bindP_step _ _ _ _ _ Htextured).
      rewrite bindP_swap_buffers.
      cbn [andb].
      destruct (existsb is_quit (delivered q)) eqn:Hquit; cbn [negb].
      * (* a quit request was delivered: this was the last frame *)
        destruct (delivered_quit q Hquit) as (Hframes & Hq).
        destruct fuel as [|fuel]; cbn [program.frames]; unfold retP.
        -- eexists more_fuel, _, _, _, _, _. split.
           ++ rewrite <- !app_assoc. reflexivity.
           ++ split.
              ** intros st. rewrite !fold_left_app, !alive_step_commands.
                 reflexivity.
              ** left. split; [reflexivity|]. right. lia.
        -- eexists (done tt), _, _, _, _, _. split.
           ++ rewrite <- !app_assoc. reflexivity.
           ++ split.
              ** intros st. rewrite !fold_left_app, !alive_step_commands.
                 reflexivity.
              ** right. split; [reflexivity|]. split; [exact Hq|].
                 rewrite !draws_app, Hdraws1, Hdraws2, Hframes. reflexivity.
      * (* no quit request yet: one more frame *)
        destruct (quit_left_pending q Hquit) as (Hsame & Hmore).
        destruct (IH (left_pending q) ev' ((calls ++ added1) ++ added2) err
                    ((ind ++ [0%nat]) ++ [0%nat])
                    (((rec ++ map (fun c => mkInteraction (GL c) 0) added1) ++
                      map (fun c => mkInteraction (GL c) 0) added2) ++
                     [mkInteraction (SDL_GL_SwapWindow (window this)) 0;
                      mkInteraction
                        (glClearColor float_zero float_zero float_one
                           float_one) 0;
                      mkInteraction (glClear GL_COLOR_BUFFER_BIT) 0])
                    (out ++ printed))
          as (r & calls' & q' & ind' & added & out' & Hrun & Hneutral & Hr).
        rewrite Hrun.
        eexists r, calls', q', ind', _, out'. split.
        -- rewrite <- !app_assoc. reflexivity.
        -- split.
           ++ intros st. rewrite !fold_left_app, !alive_step_commands.
              cbn [fold_left alive_step call]. apply Hneutral.
           ++ rewrite Hsame in Hr.
              destruct Hr as [(-> & Hwhy) | (-> & Hq & Hdraws)].
              ** left. split; [reflexivity|].
                 destruct Hwhy as [Hnone | Hshort]; [left; exact Hnone|].
                 destruct (existsb is_quit q) eqn:Hq; [|left; reflexivity].
                 right. destruct (Hmore eq_refl) as (_ & Hshorter). lia.
              ** right. split; [reflexivity|]. split; [exact Hq|].
                 destruct (Hmore Hq) as (Hframes & _).
                 rewrite !draws_app, Hdraws1, Hdraws2, Hdraws, Hframes.
                 cbn [draws filter call List.length]. lia.
Qed.

(** [main] on a working platform and a driver that reports no negative
    length, on a process given by its components *)
Lemma main_outcome (fuel : nat) (type0 : uchiha.event_type)
    (key0 : uchiha.event_key) calls err q hp ind rec out :
  works px ->
  log_lengths_not_negative ext ->
  exists (this' : engine_object) (p1 : process) (r : progress Z)
         (p' : process) (rest added : list interaction),
    engine.init px ext create_engine 800 600 false
        (mkProcess (mkWorld calls err q hp ind) rec out)
      = (Ok (true, this'), p1) /\
    program.main px ext fuel type0 key0
        (mkProcess (mkWorld calls err q hp ind) rec out) = (Ok r, p') /\
    interactions p' = interactions p1 ++ rest /\
    interactions p' = rec ++ added /\
    ((r = more_fuel /\
      (existsb is_quit q = false \/ (fuel < List.length q + 2)%nat)) \/
     (r = done 0 /\
      existsb is_quit q = true /\
      draws rest = (2 * frames_until_quit q)%nat /\
      alive_after added = mkAlive false [] [])).
Proof.
  intros Hworks Hlengths.
  destruct (init_outcome create_engine 800 600 false calls err q hp ind rec
              out)
    as (res0 & err' & added_gl & added_init & out' & Hinit & Hcases).
  destruct Hcases
    as [(this' & _ & Hnot & _)
       | [(this' & -> & _ & _ & Halive & (s0 & s1 & Hsh) & _)
         | (_ & Hnot & _)]];
    [contradiction| |contradiction].
  cbn [create_engine fields engine_impl.shaders app] in Hsh.
  assert (Hs0 : nth_error (engine_impl.shaders (fields this')) 0 = Some s0)
    by (rewrite Hsh; reflexivity).
  assert (Hs1 : nth_error (engine_impl.shaders (fields this')) 1 = Some s1)
    by (rewrite Hsh; reflexivity).
  pose proof (create_texture_runs ext "res/black-horse.png"
                (calls ++ added_gl) err' q hp ind) as Htexture.
  cbv zeta in Htexture.
  apply (lift_runs _ _ _ _ _ _ _ _ _ _ _ _ (rec ++ added_init) out')
    in Htexture.
  match type of Htexture with
  | _ = (_, mkProcess (mkWorld ?c ?e _ (_ ++ [?t]) _) (_ ++ ?a) _) =>
      set (calls1 := c) in *; set (err1 := e) in *; set (tex := t) in *;
      set (added_texture := a) in *
  end.
  assert (Htx : nth_error (hp ++ [tex]) (List.length hp) = Some tex).
  { rewrite nth_error_app2, Nat.sub_diag; [reflexivity|lia]. }
  destruct (frames_outcome this' s0 s1 (List.length hp) tex (hp ++ [tex])
              Hs0 Hs1 Htx fuel q (uchiha.mkEvent type0 key0 0 0)
              calls1 err1 ind ((rec ++ added_init) ++ added_texture) out')
    as (r & calls' & q' & ind' & added_frames & out'' & Hframes & Hneutral
        & Hr).
  assert (Hneutral_texture :
            forall st, fold_left alive_step added_texture st = st).
  { intros st. apply alive_step_commands. }
  assert (Hdraws_texture : draws added_texture = 0%nat).
  { subst added_texture.
    destruct (stbi_data (engine_impl.stbi_load_call ext "res/black-horse.png"));
      reflexivity. }
  clearbody calls1 err1 tex added_texture.
  remember (program.main px ext fuel type0 key0
              (mkProcess (mkWorld calls err q hp ind) rec out)) as res
    eqn:Hres.
  unfold program.main in Hres. cbv zeta in Hres.
  rewrite (bindP_step _ _ _ _ _ Hinit) in Hres. cbn [snd] in Hres.
  rewrite (bindP_step _ _ _ _ _ Htexture) in Hres.
  rewrite (bindP_step _ _ _ _ _ Hframes) in Hres.
  exists this',
    (mkProcess (mkWorld (calls ++ added_gl) err' q hp ind) (rec ++ added_init)
       out').
  destruct Hr as [(-> & Hwhy) | (-> & Hq & Hdraws)]; cbv iota in Hres.
  - unfold retP in Hres. subst res.
    eexists more_fuel, _, (added_texture ++ added_frames), _.
    split; [exact Hinit|]. split; [reflexivity|].
    cbn [interactions]. split; [rewrite <- !app_assoc; reflexivity|].
    split; [rewrite <- !app_assoc; reflexivity|].
    left. split; [reflexivity|exact Hwhy].
  - cbv [engine.destroy bindP call_ retP the_world interactions cout]
      in Hres.
    subst res.
    eexists (done 0), _,
      (added_texture ++ added_frames ++
       [mkInteraction (SDL_GL_DeleteContext (context this')) 0;
        mkInteraction (SDL_DestroyWindow (window this')) 0;
        mkInteraction SDL_Quit 0]), _.
    split; [exact Hinit|]. split; [reflexivity|].
    cbn [interactions]. split; [rewrite <- !app_assoc; reflexivity|].
    split; [rewrite <- !app_assoc; reflexivity|].
    right. split; [reflexivity|]. split; [exact Hq|]. split.
    + rewrite !draws_app, Hdraws, Hdraws_texture.
      cbn [draws filter call List.length]. lia.
    + rewrite alive_after_app, Halive, !fold_left_app, Hneutral_texture,
        Hneutral.
      cbn [fold_left alive_step call returned windows contexts sdl_up].
      rewrite !remove_only. reflexivity.
Qed.

(** X18.  On a working platform, with a driver that reports no negative
    length for an info log and with a quit request among the pending events,
    [main] returns 0.  After [init] it has drawn twice per frame, once
    untextured and once textured, for one frame more than there are
    untranslated events before the first quit request; and when it returns
    nothing is left alive: the context is deleted, the window destroyed and
    SDL shut down. *)
Theorem main_ends_after_the_quit_request :
  forall (fuel : nat) (type0 : uchiha.event_type) (key0 : uchiha.event_key)
         (p : process),
    works px ->
    log_lengths_not_negative ext ->
    existsb is_quit (sdl_queue (the_world p)) = true ->
    (List.length (sdl_queue (the_world p)) + 2 <= fuel)%nat ->
    exists (rest added : list interaction),
      fst (program.main px ext fuel type0 key0 p) = Ok (done 0) /\
      interactions (snd (program.main px ext fuel type0 key0 p))
        = interactions
            (snd (engine.init px ext create_engine 800 600 false p)) ++ rest /\
      draws rest = (2 * frames_until_quit (sdl_queue (the_world p)))%nat /\
      interactions (snd (program.main px ext fuel type0 key0 p))
        = interactions p ++ added /\
      alive_after added = mkAlive false [] [].
Proof.
  intros fuel type0 key0 [[calls err q hp ind] rec out] Hworks Hlengths
    Hquit Hfuel.
  cbn [the_world sdl_queue interactions] in *.
  destruct (main_outcome fuel type0 key0 calls err q hp ind rec out Hworks
              Hlengths)
    as (this' & p1 & r & p' & rest & added & Hinit & Hmain & Hrest & Hadded
        & Hcases).
  rewrite Hmain, Hinit. cbn [fst snd].
  destruct Hcases as [(_ & [Hnone | Hshort])
                     | (-> & _ & Hdraws & Halive)];
    [congruence|lia|].
  exists rest, added. repeat split; assumption.
Qed.

(** X19.  The outer loop of [main] has one exit, a delivered quit request:
    on a working platform, with a driver that reports no negative length
    for an info log and with no quit request among the pending events,
    [main] is still in its loop when the fuel is used up, whatever the
    fuel. *)
Theorem main_runs_until_a_quit_request :
  forall (fuel : nat) (type0 : uchiha.event_type) (key0 : uchiha.event_key)
         (p : process),
    works px ->
    log_lengths_not_negative ext ->
    existsb is_quit (sdl_queue (the_world p)) = false ->
    fst (program.main px ext fuel type0 key0 p) = Ok more_fuel.
Proof.
  intros fuel type0 key0 [[calls err q hp ind] rec out] Hworks Hlengths
    Hquit.
  cbn [the_world sdl_queue] in *.
  destruct (main_outcome fuel type0 key0 calls err q hp ind rec out Hworks
              Hlengths)
    as (this' & p1 & r & p' & rest & added & _ & Hmain & _ & _ & Hcases).
  rewrite Hmain. cbn [fst].
  destruct Hcases as [(-> & _) | (_ & Habs & _)]; [reflexivity|congruence].
Qed.

(** X21.  [main] does not look at what [init] returns and catches nothing:
    when [init] leaves by an exception, [main] ends by that exception right
    there, before it has created a texture, polled an event or drawn.  It
    never reaches [destroy]: the window and the context [init] created are
    alive and SDL is initialised when the program ends. *)
Theorem main_ends_with_the_exception_of_init :
  forall (fuel : nat) (type0 : uchiha.event_type) (key0 : uchiha.event_key)
         (p : process) (e : exn),
    fst (engine.init px ext create_engine 800 600 false p) = Throw e ->
    program.main px ext fuel type0 key0 p
      = (Throw e, snd (engine.init px ext create_engine 800 600 false p)) /\
    exists (added : list interaction) (created_window created_context : Z),
      interactions (snd (program.main px ext fuel type0 key0 p))
        = interactions p ++ added /\
      created_window <> 0 /\
      created_context <> 0 /\
      alive_after added = mkAlive true [created_window] [created_context].
Proof.
  intros fuel type0 key0 [[calls err q hp ind] rec out] e Hthrow.
  destruct (init_outcome create_engine 800 600 false calls err q hp ind rec
              out)
    as (res & err' & added_gl & added & out' & Hrun & Hcases).
  assert (Hmain :
            program.main px ext fuel type0 key0
                (mkProcess (mkWorld calls err q hp ind) rec out)
              = (Throw e,
                 snd (engine.init px ext create_engine 800 600 false
                        (mkProcess (mkWorld calls err q hp ind) rec out)))).
  { unfold program.main. cbv zeta. apply bindP_throws.
    rewrite Hrun in Hthrow |- *. cbn [fst snd] in *. subst res.
    reflexivity. }
  split; [exact Hmain|].
  rewrite Hmain, Hrun in *. cbn [fst snd interactions] in *. subst res.
  destruct Hcases
    as [(this0 & Heq & _)
       | [(this0 & Heq & _)
         | (_ & _ & (win & ctx & Hw & Hc & Halive) & _)]];
    try discriminate Heq.
  exists added, win, ctx. repeat split; assumption.
Qed.

End Process.

Lemma init_failure_releases_everything_witness :
  fst (engine.init no_context sample_externals create_engine 800 600 false
         empty_process)
    = Ok (false, mkEngine 4096 0 (engine_impl.mk 800 600 0 [] 0)) /\
  exists (added : list interaction),
    interactions
      (snd (engine.init no_context sample_externals create_engine 800 600
              false empty_process)) = [] ++ added /\
    alive_after added = mkAlive false [] [].
Proof.
  split; [vm_compute; reflexivity|].
  destruct (init_failure_releases_everything no_context sample_externals
              create_engine (mkEngine 4096 0 (engine_impl.mk 800 600 0 [] 0))
              800 600 false empty_process
              ltac:(vm_compute; reflexivity))
    as (added & printed & Hrec & Halive & _).
  exists added. split; [exact Hrec | exact Halive].
Defined.

Lemma init_success_state_witness :
  fst (engine.init working_platform sample_externals create_engine 800 600
         false empty_process)
    = Ok (true,
          mkEngine 4096 4096
            (engine_impl.mk 800 600 4096 [shader.mk 7 7 7; shader.mk 7 7 7]
               4096)) /\
  exists (added : list interaction),
    alive_after added = mkAlive true [4096] [4096].
Proof.
  split; [vm_compute; reflexivity|].
  destruct (init_success_state working_platform sample_externals
              create_engine
              (mkEngine 4096 4096
                 (engine_impl.mk 800 600 4096
                    [shader.mk 7 7 7; shader.mk 7 7 7] 4096))
              800 600 false empty_process
              ltac:(vm_compute; reflexivity))
    as (added & s0 & s1 & _ & Halive & _).
  exists added. exact Halive.
Defined.

Lemma init_then_destroy_leaves_nothing_witness :
  fst (engine.init working_platform sample_externals create_engine 800 600
         false empty_process)
    = Ok (true,
          mkEngine 4096 4096
            (engine_impl.mk 800 600 4096 [shader.mk 7 7 7; shader.mk 7 7 7]
               4096)) /\
  exists (added : list interaction),
    alive_after
      (added ++
       [mkInteraction (SDL_GL_DeleteContext 4096) 0;
        mkInteraction (SDL_DestroyWindow 4096) 0;
        mkInteraction SDL_Quit 0])
      = mkAlive false [] [].
Proof.
  split; [vm_compute; reflexivity|].
  destruct (init_then_destroy_leaves_nothing working_platform
              sample_externals create_engine
              (mkEngine 4096 4096
                 (engine_impl.mk 800 600 4096
                    [shader.mk 7 7 7; shader.mk 7 7 7] 4096))
              800 600 false empty_process
              ltac:(vm_compute; reflexivity))
    as (added & _ & _ & Halive).
  exists added. exact Halive.
Defined.

Lemma init_then_draws_run_witness :
  fst (engine.init working_platform sample_externals create_engine 800 600
         false empty_process)
    = Ok (true,
          mkEngine 4096 4096
            (engine_impl.mk 800 600 4096 [shader.mk 7 7 7; shader.mk 7 7 7]
               4096)) /\
  exists w',
    engine_impl.render
        (engine_impl.mk 800 600 4096 [shader.mk 7 7 7; shader.mk 7 7 7] 4096)
        [sample_triangle] empty_world
      = (Ok tt, w').
Proof.
  split; [vm_compute; reflexivity|].
  exact (proj1 (init_then_draws_run working_platform sample_externals
                  create_engine
                  (mkEngine 4096 4096
                     (engine_impl.mk 800 600 4096
                        [shader.mk 7 7 7; shader.mk 7 7 7] 4096))
                  800 600 false empty_process [sample_triangle]
                  sample_texture empty_world
                  ltac:(vm_compute; reflexivity))).
Defined.

Lemma working_platform_works : works working_platform.
Proof.
  unfold works, working_platform.
  cbn [linked_version answer SDL_MAJOR_VERSION SDL_MINOR_VERSION
       SDL_PATCHLEVEL fst snd].
  repeat split; intros; discriminate.
Qed.

Lemma rejecting_driver_lengths : log_lengths_not_negative rejecting_driver.
Proof.
  intros log object. unfold rejecting_driver, rejecting_answer.
  cbn [gl_answer]. rewrite !last_last. split; vm_compute; discriminate.
Qed.

Lemma sample_externals_lengths : log_lengths_not_negative sample_externals.
Proof. intros log object. split; vm_compute; discriminate. Qed.

Lemma init_on_a_working_platform_witness :
  works working_platform /\
  log_lengths_not_negative rejecting_driver /\
  exists this' : engine_object,
    fst (engine.init working_platform rejecting_driver create_engine 800 600
           false empty_process) = Ok (true, this').
Proof.
  split; [exact working_platform_works|].
  split; [exact rejecting_driver_lengths|].
  exact (init_on_a_working_platform working_platform rejecting_driver
           create_engine 800 600 false empty_process working_platform_works
           rejecting_driver_lengths).
Defined.

Lemma init_exception_releases_nothing_witness :
  fst (engine.init working_platform negative_length_driver create_engine
         800 600 false empty_process)
    = Throw std_length_error /\
  ~ log_lengths_not_negative negative_length_driver /\
  exists (added : list interaction) (created_window created_context : Z),
    interactions
      (snd (engine.init working_platform negative_length_driver
              create_engine 800 600 false empty_process)) = [] ++ added /\
    alive_after added = mkAlive true [created_window] [created_context].
Proof.
  split; [vm_compute; reflexivity|].
  destruct (init_exception_releases_nothing working_platform
              negative_length_driver create_engine 800 600 false
              empty_process std_length_error
              ltac:(vm_compute; reflexivity))
    as (_ & Hbad & added & win & ctx & Hrec & _ & _ & Halive).
  split; [exact Hbad|].
  exists added, win, ctx. split; [exact Hrec | exact Halive].
Defined.

Lemma poll_events_stops_at_first_untranslated_witness :
  exists (ev' : uchiha.event) (printed : list cerr_item),
    program.poll_events 4 blank_event true
        (mkProcess
           (world_with_queue [w_key_down; button_down; quit_request]) [] [])
      = (Ok (Some (ev', true)),
         mkProcess (world_with_queue [quit_request]) [] ([] ++ printed)).
Proof.
  exact (poll_events_stops_at_first_untranslated 4 blank_event true
           (mkProcess
              (world_with_queue [w_key_down; button_down; quit_request])
              [] [])
           ltac:(cbn; lia)).
Defined.

Lemma main_ends_after_the_quit_request_witness :
  works working_platform /\
  log_lengths_not_negative sample_externals /\
  exists (rest : list interaction),
    fst (program.main working_platform sample_externals 5 uchiha.quit
           uchiha.undefined_key
           (mkProcess
              (world_with_queue [button_down; w_key_down; quit_request])
              [] []))
      = Ok (done 0) /\
    draws rest = 4%nat.
Proof.
  split; [exact working_platform_works|].
  split; [exact sample_externals_lengths|].
  destruct (main_ends_after_the_quit_request working_platform
              sample_externals 5 uchiha.quit uchiha.undefined_key
              (mkProcess
                 (world_with_queue [button_down; w_key_down; quit_request])
                 [] [])
              working_platform_works sample_externals_lengths
              ltac:(vm_compute; reflexivity)
              ltac:(cbn; lia))
    as (rest & added & Hreturn & _ & Hdraws & _).
  exists rest. split; [exact Hreturn | exact Hdraws].
Defined.

Lemma main_runs_until_a_quit_request_witness :
  works working_platform /\
  log_lengths_not_negative sample_externals /\
  fst (program.main working_platform sample_externals 7 uchiha.quit
         uchiha.undefined_key
         (mkProcess (world_with_queue [w_key_down; button_down]) [] []))
    = Ok more_fuel.
Proof.
  split; [exact working_platform_works|].
  split; [exact sample_externals_lengths|].
  exact (main_runs_until_a_quit_request working_platform sample_externals 7
           uchiha.quit uchiha.undefined_key
           (mkProcess (world_with_queue [w_key_down; button_down]) [] [])
           working_platform_works sample_externals_lengths
           ltac:(vm_compute; reflexivity)).
Defined.

Lemma main_ends_with_the_exception_of_init_witness :
  fst (engine.init working_platform negative_link_length_driver
         create_engine 800 600 false empty_process)
    = Throw std_length_error /\
  fst (program.main working_platform negative_link_length_driver 5
         uchiha.quit uchiha.undefined_key empty_process)
    = Throw std_length_error.
Proof.
  split; [vm_compute; reflexivity|].
  destruct (main_ends_with_the_exception_of_init working_platform
              negative_link_length_driver 5 uchiha.quit uchiha.undefined_key
              empty_process std_length_error ltac:(vm_compute; reflexivity))
    as (Hmain & _).
  rewrite Hmain. reflexivity.
Defined.
